(** * Multi-provider model registry and generator dispatch

    A shallow embedding of
    - [packages/core/src/config/model-registry.ts] (class [ModelRegistry]),
    - the provider content generators and their factory
      ([createProviderContentGenerator]),
    - [packages/cli/src/ui/commands/modelsCommand.ts] (the /models command),
    followed by the properties proved about them.

    Conventions of the embedding.
    - A JavaScript string is its sequence of UTF-16 code units ([JsString.t]);
      [===] on strings is equality of these sequences.
    - The TypeScript string enum [ModelProvider] is, at run time, a plain
      string: the tests call the registry with ['invalid' as ModelProvider],
      so provider identifiers are strings here and the three enum members are
      three constants.
    - [Record<ModelProvider, ProviderConfig>] is a JavaScript object used as a
      map.  [Object.values] enumerates it in property order, which
      [getProviders] exposes, so the object is an association list holding its
      own properties in enumeration order.  The object is an ordinary one
      and inherits from [Object.prototype]: [providers[p]] finds an own
      property first and otherwise what [Object.prototype] has under that
      name ([ProviderMap.get]): for its twelve built-in names the function
      or object of that name.
    - [setProviderApiKey] can therefore write [apiKey] onto [Object], onto
      [Object.prototype] or onto one of its functions; what was written there
      is the [Realm.t] that a registry carries with its data.  Once
      [Object.prototype] has an [apiKey], every configuration without a key
      of its own reads that one, and [providers['apiKey']] is that string.
      Nothing else writes to these objects.  A registry made by [new] or
      [fromJSON] starts in a realm nothing was written to.
    - The methods are strict code.  A method call on [undefined] and an
      assignment to a property of a string throw a [TypeError]
      ([Js.outcome]).
    - An optional field ([apiKey?: string]) is an [option]; [None] stands for
      an absent property.  A property declared [number] holds a
      [JsNumber.t].
    - Every key of a providers object holds a configuration object of its
      own, as the constructor's literal and [JSON.parse] make them, and every
      property that is present holds a value of its declared type: a
      configuration listed under two keys and a property set to [undefined]
      are outside the embedding.
    - The class has one private field, [data]; a mutating method returns its
      result paired with the registry after the call. *)

From Stdlib Require Import List String Ascii NArith ZArith Bool Lia.
Import ListNotations.

Set Implicit Arguments.

(* ================================================================= *)
(** ** JavaScript strings *)

Module JsString.

(** A string is a list of UTF-16 code units. *)
Definition t := list N.

(** The string denoted by an ASCII literal of the source. *)
Definition lit (s : string) : t := map N_of_ascii (list_ascii_of_string s).

(** [a === b] on strings. *)
Fixpoint eqb (a b : t) : bool :=
  match a, b with
  | [], [] => true
  | x :: a', y :: b' => N.eqb x y && eqb a' b'
  | _, _ => false
  end.

(** ECMAScript [WhiteSpace] and [LineTerminator] code points: the characters
    that [String.prototype.trim] strips.  All of them lie in the Basic
    Multilingual Plane, so the test is exact on code units. *)
Definition isWhiteSpace (c : N) : bool :=
  (* WhiteSpace: TAB, VT, FF, ZWNBSP and the Space_Separator category *)
  N.eqb c 0x0009 || N.eqb c 0x000B || N.eqb c 0x000C || N.eqb c 0xFEFF
  || N.eqb c 0x0020 || N.eqb c 0x00A0 || N.eqb c 0x1680
  || (N.leb 0x2000 c && N.leb c 0x200A)
  || N.eqb c 0x202F || N.eqb c 0x205F || N.eqb c 0x3000
  (* LineTerminator: LF, CR, LS, PS *)
  || N.eqb c 0x000A || N.eqb c 0x000D || N.eqb c 0x2028 || N.eqb c 0x2029.

Fixpoint trimStart (s : t) : t :=
  match s with
  | [] => []
  | c :: s' => if isWhiteSpace c then trimStart s' else s
  end.

Definition trimEnd (s : t) : t := rev (trimStart (rev s)).

(** [s.trim()] *)
Definition trim (s : t) : t := trimEnd (trimStart s).

(** [s.startsWith(p)] *)
Fixpoint startsWith (p s : t) : bool :=
  match p, s with
  | [], _ => true
  | x :: p', y :: s' => N.eqb x y && startsWith p' s'
  | _ :: _, [] => false
  end.

(** [s.includes(p)] *)
Fixpoint includes (p s : t) : bool :=
  startsWith p s ||
  match s with
  | [] => false
  | _ :: s' => includes p s'
  end.

(** The pieces of [s.split(/\s+/)].  The class [\s] is the set that [trim]
    strips and [\s+] matches a longest run of it, so the string is cut at
    every such run.  A run at the very start leaves an empty first piece, a
    run at the very end an empty last piece, and the empty string gives one
    empty piece.  [inSeparator] tells that the character before [s] belongs
    to the run being skipped. *)
Fixpoint splitAux (inSeparator : bool) (s : t) : list t :=
  match s with
  | [] => [[]]
  | c :: s' =>
      if isWhiteSpace c then
        if inSeparator then splitAux true s' else [] :: splitAux true s'
      else
        match splitAux false s' with
        | piece :: pieces => (c :: piece) :: pieces
        | [] => [[c]]
        end
  end.

(** [s.split(/\s+/)] *)
Definition splitWhiteSpace (s : t) : list t := splitAux false s.

(** [pieces.join(sep)] on an array of strings. *)
Fixpoint join (sep : t) (pieces : list t) : t :=
  match pieces with
  | [] => []
  | [piece] => piece
  | piece :: rest => piece ++ sep ++ join sep rest
  end.

(** [s.toLowerCase()] on a string of ASCII characters: the letters A to Z
    move to a to z and nothing else changes. *)
Definition asciiLowerCase (s : t) : t :=
  map (fun c => if N.leb 0x41 c && N.leb c 0x5A then N.add c 0x20 else c) s.

End JsString.

Arguments JsString.lit s%_string.

Abbreviation jsstring := JsString.t.
Abbreviation str := JsString.lit.

(* ================================================================= *)
(** ** Numbers, outcomes and the realm *)

(** What a property declared [number] holds at run time.  Of the finite
    doubles the integers are kept (a context window is a token count), with
    [-0] apart from [0]; the three values that are not finite are kept
    because [JSON.stringify] writes them as [null], and [Null] is what
    [JSON.parse] then puts in the property. *)
Module JsNumber.

Inductive t :=
| Finite (z : Z)
| NegZero
| NaN
| PosInfinity
| NegInfinity
| Null.

(** The value after [JSON.parse(JSON.stringify(n))]: [-0] is written as
    [0], and a number that is not finite as [null]. *)
Definition viaJson (n : t) : t :=
  match n with
  | Finite z => Finite z
  | NegZero => Finite 0
  | _ => Null
  end.

End JsNumber.

Module Js.

(** How a synchronous method call ends: it returns a value, or it throws a
    [TypeError] (for a method call on [undefined], or for an assignment to a
    property of a string). *)
Inductive outcome (A : Type) :=
| Returns (a : A)
| ThrowsTypeError.

Arguments Returns {A} a.
Arguments ThrowsTypeError {A}.

End Js.

Module Realm.

(** The built-in property names of [Object.prototype]; every ordinary
    object inherits them.  ['__proto__'] gives [Object.prototype] itself,
    ['constructor'] gives [Object], the other names give functions. *)
Definition inherited : list jsstring :=
  [ str "constructor"; str "__defineGetter__"; str "__defineSetter__";
    str "hasOwnProperty"; str "__lookupGetter__"; str "__lookupSetter__";
    str "isPrototypeOf"; str "propertyIsEnumerable"; str "toString";
    str "valueOf"; str "__proto__"; str "toLocaleString" ].

Definition isInherited (name : jsstring) : bool :=
  existsb (JsString.eqb name) inherited.

(** The [apiKey] properties written onto the objects those names give, by
    name. *)
Definition t := list (jsstring * jsstring).

(** Nothing written. *)
Definition pristine : t := [].

(** The own [apiKey] of the object that [name] gives. *)
Fixpoint ownApiKey (name : jsstring) (realm : t) : option jsstring :=
  match realm with
  | [] => None
  | (n, k) :: realm' =>
      if JsString.eqb name n then Some k else ownApiKey name realm'
  end.

(** [o.apiKey = key] for the object [o] that [name] gives. *)
Fixpoint write (name key : jsstring) (realm : t) : t :=
  match realm with
  | [] => [(name, key)]
  | (n, k) :: realm' =>
      if JsString.eqb name n then (n, key) :: realm'
      else (n, k) :: write name key realm'
  end.

(** [Object.prototype.apiKey] *)
Definition protoApiKey (realm : t) : option jsstring :=
  ownApiKey (str "__proto__") realm.

(** [o.apiKey] for an object whose own [apiKey] is [own]: the own property,
    or else the one inherited from [Object.prototype]. *)
Definition readApiKey (own : option jsstring) (realm : t) : option jsstring :=
  match own with
  | Some k => Some k
  | None => protoApiKey realm
  end.

(** [o.apiKey] for the object [o] that [name] gives. *)
Definition inheritedApiKey (name : jsstring) (realm : t) : option jsstring :=
  readApiKey (ownApiKey name realm) realm.

(** [o.name] for the object [o] that [name] gives: a function has its name,
    [Object.prototype] has none. *)
Definition inheritedName (name : jsstring) : option jsstring :=
  if JsString.eqb name (str "__proto__") then None
  else if JsString.eqb name (str "constructor") then Some (str "Object")
  else Some name.

End Realm.

(* ================================================================= *)
(** ** The registry's data model *)

(** [enum ModelProvider]: a string enum, so each member is its string. *)
Module ModelProvider.
Definition t := jsstring.
Definition GEMINI : t := str "gemini".
Definition OPENAI : t := str "openai".
Definition ANTHROPIC : t := str "anthropic".
End ModelProvider.

(** [interface ModelInfo] *)
Module ModelInfo.
Record t := mk {
  id : jsstring;
  name : jsstring;
  provider : ModelProvider.t;
  description : option jsstring;
  contextWindow : option JsNumber.t;
  supportsStreaming : option bool
}.
End ModelInfo.

(** [interface ProviderConfig] *)
Module ProviderConfig.
Record t := mk {
  name : jsstring;
  provider : ModelProvider.t;
  apiKey : option jsstring;
  baseUrl : option jsstring;
  models : list ModelInfo.t
}.

(** [providerConfig.apiKey = apiKey]: every other property is kept. *)
Definition set_apiKey (k : jsstring) (c : t) : t :=
  {| name := name c; provider := provider c; apiKey := Some k;
     baseUrl := baseUrl c; models := models c |}.
End ProviderConfig.

(** A [Record<ModelProvider, ProviderConfig>] object: its own properties in
    enumeration order. *)
Module ProviderMap.
Definition t := list (ModelProvider.t * ProviderConfig.t).

(** The own property [p] of the object, if it has one. *)
Fixpoint own (p : ModelProvider.t) (m : t) : option ProviderConfig.t :=
  match m with
  | [] => None
  | (q, c) :: m' => if JsString.eqb p q then Some c else own p m'
  end.

(** What [providers[p]] can be when it is not [undefined]: a configuration
    of the map, the function or object that [Object.prototype] has under a
    built-in name, or the string that was stored as
    [Object.prototype.apiKey]. *)
Inductive property :=
| Config (c : ProviderConfig.t)
| Inherited (name : jsstring)
| Primitive (s : jsstring).

(** [providers[p]]: the own property, else the one of [Object.prototype],
    else [undefined]. *)
Definition get (p : ModelProvider.t) (m : t) (realm : Realm.t)
  : option property :=
  match own p m with
  | Some c => Some (Config c)
  | None =>
      if Realm.isInherited p then Some (Inherited p)
      else if JsString.eqb p (str "apiKey") then
        option_map Primitive (Realm.protoApiKey realm)
      else None
  end.

(** [Object.values(providers)] *)
Definition values (m : t) : list ProviderConfig.t := map snd m.

(** [Object.keys(providers)] *)
Definition keys (m : t) : list ModelProvider.t := map fst m.

(** The effect on the map of assigning to a field of the configuration that
    is the own property [p]: the property keeps its position and the other
    properties keep their values. *)
Fixpoint update (p : ModelProvider.t) (f : ProviderConfig.t -> ProviderConfig.t)
    (m : t) : t :=
  match m with
  | [] => []
  | (q, c) :: m' =>
      if JsString.eqb p q then (q, f c) :: m' else (q, c) :: update p f m'
  end.
End ProviderMap.

(** [interface ModelRegistryData] *)
Module ModelRegistryData.
Record t := mk {
  currentProvider : ModelProvider.t;
  currentModel : jsstring;
  providers : ProviderMap.t
}.
End ModelRegistryData.

(** [Partial<ModelRegistryData>]: each property is present or absent, and a
    present property carries a value of its declared type (not
    [undefined]). *)
Module PartialData.
Record t := mk {
  currentProvider : option ModelProvider.t;
  currentModel : option jsstring;
  providers : option ProviderMap.t
}.

Definition empty : t := mk None None None.

(** A complete [ModelRegistryData] passed where a partial one is expected. *)
Definition of_data (d : ModelRegistryData.t) : t :=
  mk (Some (ModelRegistryData.currentProvider d))
     (Some (ModelRegistryData.currentModel d))
     (Some (ModelRegistryData.providers d)).
End PartialData.
(* ================================================================= *)
(** ** JSON values *)

(** [toJSON] copies the registry's data with
    [JSON.parse(JSON.stringify(this.data))].  The text in between is
    abstracted to the tree it denotes: [JSON.stringify] is modelled by the
    tree it writes and [JSON.parse] by reading that tree back through the
    interface the caller declares for it. *)
Module Json.

#[local] Unset Elimination Schemes.
Inductive value :=
| Null
| Bool (b : bool)
| Num (z : Z)
| Str (s : jsstring)
| Arr (items : list value)
| Obj (props : list (jsstring * value)).
#[local] Set Elimination Schemes.

(** [o[k]] on the properties of an object. *)
Fixpoint field (k : jsstring) (props : list (jsstring * value)) : option value :=
  match props with
  | [] => None
  | (k', v) :: props' => if JsString.eqb k k' then Some v else field k props'
  end.

(** [JSON.stringify] leaves out a property whose value is [undefined]. *)
Definition optional {A} (k : string) (enc : A -> value) (o : option A)
  : list (jsstring * value) :=
  match o with
  | Some a => [(str k, enc a)]
  | None => []
  end.

Definition as_bool (v : value) : option bool :=
  match v with Bool b => Some b | _ => None end.

Definition as_num (v : value) : option Z :=
  match v with Num z => Some z | _ => None end.

Definition as_str (v : value) : option jsstring :=
  match v with Str s => Some s | _ => None end.

(** A required property read at a given type. *)
Definition required {A} (dec : value -> option A) (k : string)
    (props : list (jsstring * value)) : option A :=
  match field (str k) props with
  | Some v => dec v
  | None => None
  end.

(** An optional property read at a given type: absent reads as [undefined]. *)
Definition optionally {A} (dec : value -> option A) (k : string)
    (props : list (jsstring * value)) : option (option A) :=
  match field (str k) props with
  | Some v => option_map Some (dec v)
  | None => Some None
  end.

Fixpoint traverse {A B} (f : A -> option B) (l : list A) : option (list B) :=
  match l with
  | [] => Some []
  | a :: l' =>
      match f a, traverse f l' with
      | Some b, Some bs => Some (b :: bs)
      | _, _ => None
      end
  end.

End Json.

Declare Scope json_scope.
Delimit Scope json_scope with json.
Notation "x <- e ;; k" :=
  (match e with Some x => k | None => None end)
  (at level 61, e at next level, right associativity) : json_scope.

Module JsonCodec.
Import Json.
Local Open Scope json_scope.

(** [JSON.stringify] writes a finite number as its digits ([-0] as [0])
    and any other content of a number property as [null]. *)
Definition stringify_number (n : JsNumber.t) : value :=
  match n with
  | JsNumber.Finite z => Num z
  | JsNumber.NegZero => Num 0
  | _ => Null
  end.

(** A number property read back: digits give the number, [null] stays
    [null]. *)
Definition parse_number (v : value) : option JsNumber.t :=
  match v with
  | Num z => Some (JsNumber.Finite z)
  | Null => Some JsNumber.Null
  | _ => None
  end.

Definition stringify_ModelInfo (m : ModelInfo.t) : value :=
  Obj ([ (str "id", Str (ModelInfo.id m));
         (str "name", Str (ModelInfo.name m));
         (str "provider", Str (ModelInfo.provider m)) ]
       ++ optional "description" Str (ModelInfo.description m)
       ++ optional "contextWindow" stringify_number
            (ModelInfo.contextWindow m)
       ++ optional "supportsStreaming" Bool (ModelInfo.supportsStreaming m)).

Definition stringify_ProviderConfig (c : ProviderConfig.t) : value :=
  Obj ([ (str "name", Str (ProviderConfig.name c));
         (str "provider", Str (ProviderConfig.provider c)) ]
       ++ optional "apiKey" Str (ProviderConfig.apiKey c)
       ++ optional "baseUrl" Str (ProviderConfig.baseUrl c)
       ++ [ (str "models",
             Arr (map stringify_ModelInfo (ProviderConfig.models c))) ]).

Definition stringify_providers (m : ProviderMap.t) : value :=
  Obj (map (fun kc => (fst kc, stringify_ProviderConfig (snd kc))) m).

Definition stringify_data (d : ModelRegistryData.t) : value :=
  Obj [ (str "currentProvider", Str (ModelRegistryData.currentProvider d));
        (str "currentModel", Str (ModelRegistryData.currentModel d));
        (str "providers",
         stringify_providers (ModelRegistryData.providers d)) ].

Definition parse_ModelInfo (v : value) : option ModelInfo.t :=
  match v with
  | Obj props =>
      id <- required as_str "id" props ;;
      name <- required as_str "name" props ;;
      provider <- required as_str "provider" props ;;
      description <- optionally as_str "description" props ;;
      contextWindow <- optionally parse_number "contextWindow" props ;;
      supportsStreaming <- optionally as_bool "supportsStreaming" props ;;
      Some (ModelInfo.mk id name provider description contextWindow
              supportsStreaming)
  | _ => None
  end.

Definition parse_models (v : value) : option (list ModelInfo.t) :=
  match v with
  | Arr items => traverse parse_ModelInfo items
  | _ => None
  end.

Definition parse_ProviderConfig (v : value) : option ProviderConfig.t :=
  match v with
  | Obj props =>
      name <- required as_str "name" props ;;
      provider <- required as_str "provider" props ;;
      apiKey <- optionally as_str "apiKey" props ;;
      baseUrl <- optionally as_str "baseUrl" props ;;
      models <- required parse_models "models" props ;;
      Some (ProviderConfig.mk name provider apiKey baseUrl models)
  | _ => None
  end.

Definition parse_entry (kv : jsstring * value)
  : option (ModelProvider.t * ProviderConfig.t) :=
  c <- parse_ProviderConfig (snd kv) ;; Some (fst kv, c).

Definition parse_providers (v : value) : option ProviderMap.t :=
  match v with
  | Obj props => traverse parse_entry props
  | _ => None
  end.

Definition parse_data (v : value) : option ModelRegistryData.t :=
  match v with
  | Obj props =>
      currentProvider <- required as_str "currentProvider" props ;;
      currentModel <- required as_str "currentModel" props ;;
      providers <- required parse_providers "providers" props ;;
      Some (ModelRegistryData.mk currentProvider currentModel providers)
  | _ => None
  end.

End JsonCodec.
(* ================================================================= *)
(** ** class ModelRegistry *)

Module ModelRegistry.
Import ModelProvider.

(** The registry object: the value of its private field [data], with the
    realm it lives in.  A method that reads own properties of [this.data]
    only takes the data. *)
Record t := mk {
  data :> ModelRegistryData.t;
  realm : Realm.t
}.

Definition geminiModels : list ModelInfo.t :=
  [ ModelInfo.mk (str "gemini-2.5-pro") (str "Gemini 2.5 Pro") GEMINI
      (Some (str "Google's most capable AI model")) (Some (JsNumber.Finite 1000000))
      (Some true);
    ModelInfo.mk (str "gemini-2.5-flash") (str "Gemini 2.5 Flash") GEMINI
      (Some (str "Faster, more efficient Gemini model")) (Some (JsNumber.Finite 1000000))
      (Some true);
    ModelInfo.mk (str "gemini-1.5-pro") (str "Gemini 1.5 Pro") GEMINI
      (Some (str "Previous generation Gemini Pro model")) (Some (JsNumber.Finite 2000000))
      (Some true) ].

Definition openaiModels : list ModelInfo.t :=
  [ ModelInfo.mk (str "gpt-4o") (str "GPT-4o") OPENAI
      (Some (str "OpenAI's most advanced multimodal model")) (Some (JsNumber.Finite 128000))
      (Some true);
    ModelInfo.mk (str "gpt-4o-mini") (str "GPT-4o mini") OPENAI
      (Some (str "Faster, cost-effective GPT-4o model")) (Some (JsNumber.Finite 128000))
      (Some true);
    ModelInfo.mk (str "gpt-4-turbo") (str "GPT-4 Turbo") OPENAI
      (Some (str "Enhanced GPT-4 with improved performance")) (Some (JsNumber.Finite 128000))
      (Some true) ].

Definition anthropicModels : list ModelInfo.t :=
  [ ModelInfo.mk (str "claude-3-5-sonnet-20241022") (str "Claude 3.5 Sonnet")
      ANTHROPIC (Some (str "Anthropic's most intelligent model"))
      (Some (JsNumber.Finite 200000)) (Some true);
    ModelInfo.mk (str "claude-3-5-haiku-20241022") (str "Claude 3.5 Haiku")
      ANTHROPIC (Some (str "Fast and capable Claude model"))
      (Some (JsNumber.Finite 200000)) (Some true);
    ModelInfo.mk (str "claude-3-opus-20240229") (str "Claude 3 Opus")
      ANTHROPIC (Some (str "Anthropic's most powerful model"))
      (Some (JsNumber.Finite 200000)) (Some true) ].

(** The [providers] object literal of the constructor. *)
Definition defaultProviders : ProviderMap.t :=
  [ (GEMINI,
     ProviderConfig.mk (str "Google Gemini") GEMINI None None geminiModels);
    (OPENAI,
     ProviderConfig.mk (str "OpenAI") OPENAI None None openaiModels);
    (ANTHROPIC,
     ProviderConfig.mk (str "Anthropic Claude") ANTHROPIC None None
       anthropicModels) ].

(** The object literal of the constructor, before [...initialData]. *)
Definition defaults : ModelRegistryData.t :=
  ModelRegistryData.mk GEMINI (str "gemini-2.5-pro") defaultProviders.

(** [{ ...base, ...initialData }]: a property present in [initialData]
    replaces the one of [base] whole. *)
Definition spread (base : ModelRegistryData.t) (initialData : PartialData.t)
  : ModelRegistryData.t :=
  ModelRegistryData.mk
    (match PartialData.currentProvider initialData with
     | Some p => p
     | None => ModelRegistryData.currentProvider base
     end)
    (match PartialData.currentModel initialData with
     | Some m => m
     | None => ModelRegistryData.currentModel base
     end)
    (match PartialData.providers initialData with
     | Some ps => ps
     | None => ModelRegistryData.providers base
     end).

(** [new ModelRegistry(initialData?)] in a given realm; spreading
    [undefined] adds nothing. *)
Definition newIn (realm : Realm.t) (initialData : option PartialData.t) : t :=
  mk (match initialData with
      | Some i => spread defaults i
      | None => defaults
      end) realm.

(** [new ModelRegistry(initialData?)] in a realm nothing was written to. *)
Definition new (initialData : option PartialData.t) : t :=
  newIn Realm.pristine initialData.

Definition getCurrentProvider (d : ModelRegistryData.t) : ModelProvider.t :=
  ModelRegistryData.currentProvider d.

Definition getCurrentModel (d : ModelRegistryData.t) : jsstring :=
  ModelRegistryData.currentModel d.

(** [(m) => m.id === modelId] *)
Definition hasId (modelId : jsstring) (m : ModelInfo.t) : bool :=
  JsString.eqb (ModelInfo.id m) modelId.

(** [provider?.models.find(...)]: [?.] stops at [undefined] only; an
    inherited object or string has no [models], and [.find] on that
    throws. *)
Definition getCurrentModelInfo (r : t) : Js.outcome (option ModelInfo.t) :=
  match ProviderMap.get (ModelRegistryData.currentProvider r)
          (ModelRegistryData.providers r) (realm r) with
  | Some (ProviderMap.Config provider) =>
      Js.Returns
        (find (hasId (ModelRegistryData.currentModel r))
           (ProviderConfig.models provider))
  | Some (ProviderMap.Inherited _) => Js.ThrowsTypeError
  | Some (ProviderMap.Primitive _) => Js.ThrowsTypeError
  | None => Js.Returns None
  end.

Definition getProviders (d : ModelRegistryData.t) : list ProviderConfig.t :=
  ProviderMap.values (ModelRegistryData.providers d).

Definition getProvider (provider : ModelProvider.t) (r : t)
  : option ProviderMap.property :=
  ProviderMap.get provider (ModelRegistryData.providers r) (realm r).

(** [providers[provider]?.models || []]: an inherited object or string has
    no [models]. *)
Definition getModelsForProvider (provider : ModelProvider.t) (r : t)
  : list ModelInfo.t :=
  match ProviderMap.get provider (ModelRegistryData.providers r) (realm r)
  with
  | Some (ProviderMap.Config c) => ProviderConfig.models c
  | _ => []
  end.

Definition getAllModels (d : ModelRegistryData.t) : list ModelInfo.t :=
  flat_map ProviderConfig.models
    (ProviderMap.values (ModelRegistryData.providers d)).

(** [!s] for a string: the empty string is falsy. *)
Definition isEmpty (s : jsstring) : bool :=
  match s with
  | [] => true
  | _ :: _ => false
  end.

(** An inherited object is truthy, and so is an inherited string that is
    not empty: [!providerConfig] lets them pass, and
    [providerConfig.models.find] throws.  A call that throws has assigned
    nothing. *)
Definition setCurrentModel (provider : ModelProvider.t) (modelId : jsstring)
    (r : t) : Js.outcome bool * t :=
  match ProviderMap.get provider (ModelRegistryData.providers r) (realm r)
  with
  | None => (Js.Returns false, r)
  | Some (ProviderMap.Inherited _) => (Js.ThrowsTypeError, r)
  | Some (ProviderMap.Primitive s) =>
      if isEmpty s then (Js.Returns false, r) else (Js.ThrowsTypeError, r)
  | Some (ProviderMap.Config providerConfig) =>
      match find (hasId modelId) (ProviderConfig.models providerConfig) with
      | None => (Js.Returns false, r)
      | Some _ =>
          (Js.Returns true,
           mk (ModelRegistryData.mk provider modelId
                 (ModelRegistryData.providers r))
              (realm r))
      end
  end.

(** [providerConfig.apiKey = apiKey] assigns to the configuration of the
    map, or to the inherited object when that is what the lookup found; on
    an inherited string that is not empty the assignment throws. *)
Definition setProviderApiKey (provider : ModelProvider.t) (apiKey : jsstring)
    (r : t) : Js.outcome bool * t :=
  match ProviderMap.get provider (ModelRegistryData.providers r) (realm r)
  with
  | None => (Js.Returns false, r)
  | Some (ProviderMap.Config _) =>
      (Js.Returns true,
       mk (ModelRegistryData.mk
             (ModelRegistryData.currentProvider r)
             (ModelRegistryData.currentModel r)
             (ProviderMap.update provider (ProviderConfig.set_apiKey apiKey)
                (ModelRegistryData.providers r)))
          (realm r))
  | Some (ProviderMap.Inherited name) =>
      (Js.Returns true, mk (data r) (Realm.write name apiKey (realm r)))
  | Some (ProviderMap.Primitive s) =>
      if isEmpty s then (Js.Returns false, r) else (Js.ThrowsTypeError, r)
  end.

(** [providers[provider]?.apiKey]: the own [apiKey] of what the lookup
    found, or else the one inherited from [Object.prototype]. *)
Definition getProviderApiKey (provider : ModelProvider.t) (r : t)
  : option jsstring :=
  match ProviderMap.get provider (ModelRegistryData.providers r) (realm r)
  with
  | Some (ProviderMap.Config c) =>
      Realm.readApiKey (ProviderConfig.apiKey c) (realm r)
  | Some (ProviderMap.Inherited name) => Realm.inheritedApiKey name (realm r)
  | Some (ProviderMap.Primitive _) => Realm.protoApiKey (realm r)
  | None => None
  end.

(** [!!apiKey]: [undefined] and the empty string are falsy. *)
Definition truthy (apiKey : option jsstring) : bool :=
  match apiKey with
  | Some (_ :: _) => true
  | _ => false
  end.

Definition hasValidApiKey (provider : ModelProvider.t) (r : t) : bool :=
  let apiKey := getProviderApiKey provider r in
  truthy apiKey &&
  match apiKey with
  | Some k => Nat.ltb 0 (List.length (JsString.trim k))
  | None => false
  end.

(** [JSON.parse(JSON.stringify(this.data))]; [None] would be a value that
    does not read back at [ModelRegistryData]. *)
Definition toJSON (d : ModelRegistryData.t) : option ModelRegistryData.t :=
  JsonCodec.parse_data (JsonCodec.stringify_data d).

Definition fromJSON (data : PartialData.t) : t := new (Some data).

(** [ModelRegistry.fromJSON(data)] in a given realm. *)
Definition fromJSONIn (realm : Realm.t) (data : PartialData.t) : t :=
  newIn realm (Some data).

(** The calls that change a registry, and a run of them on one object.  A
    call that throws leaves the registry as it was and the run goes on. *)
Inductive call :=
| SetCurrentModel (provider : ModelProvider.t) (modelId : jsstring)
| SetProviderApiKey (provider : ModelProvider.t) (apiKey : jsstring).

Definition perform (c : call) (r : t) : t :=
  match c with
  | SetCurrentModel p m => snd (setCurrentModel p m r)
  | SetProviderApiKey p k => snd (setProviderApiKey p k r)
  end.

Fixpoint run (cs : list call) (r : t) : t :=
  match cs with
  | [] => r
  | c :: cs' => run cs' (perform c r)
  end.

End ModelRegistry.

Coercion ModelRegistry.data : ModelRegistry.t >-> ModelRegistryData.t.

(* ================================================================= *)
(** ** Provider content generators and their factory *)

Module ProviderContentGenerator.

(** [new Error(message)] *)
Record Error := mkError { message : jsstring }.

(** How a synchronous call ends: with a value or with a thrown error. *)
Inductive completion (A : Type) :=
| Returns (a : A)
| Throws (e : Error).

(** How the promise of an [async] method settles. *)
Inductive promise (A : Type) :=
| Fulfilled (a : A)
| Rejected (e : Error).

Arguments Returns {A} a.
Arguments Throws {A} e.
Arguments Fulfilled {A} a.
Arguments Rejected {A} e.

(** [interface MultiProviderConfig] *)
Record MultiProviderConfig := mkConfig {
  provider : ModelProvider.t;
  model : jsstring;
  apiKey : option jsstring;
  baseUrl : option jsstring;
  proxy : option jsstring
}.

(** The two concrete subclasses of the abstract [ProviderContentGenerator]. *)
Inductive subclass :=
| OpenAIContentGenerator
| AnthropicContentGenerator.

(** An instance: its class and the [config] the base constructor stores. *)
Record t := mk {
  class : subclass;
  config : MultiProviderConfig
}.

Section Capabilities.

(** The request and response types of [@google/genai]. *)
Variables GenerateContentParameters GenerateContentResponse : Type.
Variables CountTokensParameters CountTokensResponse : Type.
Variables EmbedContentParameters EmbedContentResponse : Type.
Variable AsyncGenerator : Type -> Type.

(** An [async] body that throws settles its promise as rejected. *)
Definition generateContent (g : t) (request : GenerateContentParameters)
  : promise GenerateContentResponse :=
  match class g with
  | OpenAIContentGenerator =>
      Rejected (mkError (str
        "OpenAI provider is not yet implemented. Please use Gemini provider for now."))
  | AnthropicContentGenerator =>
      Rejected (mkError (str
        "Anthropic provider is not yet implemented. Please use Gemini provider for now."))
  end.

Definition generateContentStream (g : t) (request : GenerateContentParameters)
  : promise (AsyncGenerator GenerateContentResponse) :=
  match class g with
  | OpenAIContentGenerator =>
      Rejected (mkError (str
        "OpenAI provider is not yet implemented. Please use Gemini provider for now."))
  | AnthropicContentGenerator =>
      Rejected (mkError (str
        "Anthropic provider is not yet implemented. Please use Gemini provider for now."))
  end.

Definition countTokens (g : t) (request : CountTokensParameters)
  : promise CountTokensResponse :=
  match class g with
  | OpenAIContentGenerator =>
      Rejected (mkError (str
        "OpenAI provider is not yet implemented. Please use Gemini provider for now."))
  | AnthropicContentGenerator =>
      Rejected (mkError (str
        "Anthropic provider is not yet implemented. Please use Gemini provider for now."))
  end.

Definition embedContent (g : t) (request : EmbedContentParameters)
  : promise EmbedContentResponse :=
  match class g with
  | OpenAIContentGenerator =>
      Rejected (mkError (str
        "OpenAI provider is not yet implemented. Please use Gemini provider for now."))
  | AnthropicContentGenerator =>
      Rejected (mkError (str
        "Anthropic provider is not yet implemented. Please use Gemini provider for now."))
  end.

End Capabilities.

(** The [switch] of the factory compares with [===], first case first. *)
Definition createProviderContentGenerator (config : MultiProviderConfig)
  : completion t :=
  if JsString.eqb (provider config) ModelProvider.OPENAI then
    Returns (mk OpenAIContentGenerator config)
  else if JsString.eqb (provider config) ModelProvider.ANTHROPIC then
    Returns (mk AnthropicContentGenerator config)
  else
    Throws (mkError (str "Unsupported provider: " ++ provider config)).

(** The name under which a stub's message refers to its provider. *)
Definition displayName (c : subclass) : jsstring :=
  match c with
  | OpenAIContentGenerator => str "OpenAI"
  | AnthropicContentGenerator => str "Anthropic"
  end.

End ProviderContentGenerator.
(* ================================================================= *)
(** ** Vocabulary of the statements *)

Module Spec.
Import ModelProvider.

(** [provider] is a key of the registry's [providers] map. *)
Definition knownProvider (provider : ModelProvider.t)
    (r : ModelRegistryData.t) : Prop :=
  In provider (ProviderMap.keys (ModelRegistryData.providers r)).

(** [provider] is not a key of the map but one of the built-in names of
    [Object.prototype]: [providers[provider]] is the function or object of
    that name. *)
Definition inheritedOnly (provider : ModelProvider.t)
    (r : ModelRegistryData.t) : Prop :=
  ~ knownProvider provider r /\ Realm.isInherited provider = true.

(** [provider] is not a key of the map and is the name ['apiKey'], under
    which [Object.prototype] holds the string [k]: [providers[provider]] is
    that string. *)
Definition inheritedString (provider : ModelProvider.t) (r : ModelRegistry.t)
    (k : jsstring) : Prop :=
  ~ knownProvider provider r /\ provider = str "apiKey" /\
  Realm.protoApiKey (ModelRegistry.realm r) = Some k.

(** [providers[provider]] is not a configuration of the map and yet not
    [undefined]: it comes from [Object.prototype]. *)
Definition inheritedValue (provider : ModelProvider.t) (r : ModelRegistry.t)
  : Prop :=
  inheritedOnly provider r \/ exists k, inheritedString provider r k.

(** [providers[provider]] comes from [Object.prototype] and is truthy: an
    object, a function, or a string that is not empty. *)
Definition inheritedTruthy (provider : ModelProvider.t) (r : ModelRegistry.t)
  : Prop :=
  inheritedOnly provider r \/
  exists k, inheritedString provider r k /\ k <> [].

(** [provider] is neither a key of the map nor a name that
    [Object.prototype] has: [providers[provider]] is [undefined]. *)
Definition absent (provider : ModelProvider.t) (r : ModelRegistry.t) : Prop :=
  ~ knownProvider provider r /\ Realm.isInherited provider = false /\
  (provider = str "apiKey" ->
   Realm.protoApiKey (ModelRegistry.realm r) = None).

(** [modelId] is the id of one of the models listed under [provider]. *)
Definition offers (provider : ModelProvider.t) (modelId : jsstring)
    (r : ModelRegistryData.t) : Prop :=
  exists c,
    ProviderMap.own provider (ModelRegistryData.providers r) = Some c /\
    In modelId (map ModelInfo.id (ProviderConfig.models c)).

(** The current model belongs to the current provider. *)
Definition selectionValid (r : ModelRegistryData.t) : Prop :=
  offers (ModelRegistry.getCurrentProvider r) (ModelRegistry.getCurrentModel r)
    r.

(** The identifiers [getProviders()] lists, as the tests read them:
    [providers.map(p => p.provider)]. *)
Definition providerIds (r : ModelRegistryData.t) : list ModelProvider.t :=
  map ProviderConfig.provider (ModelRegistry.getProviders r).

Definition fixedProviders : list ModelProvider.t :=
  [GEMINI; OPENAI; ANTHROPIC].

(** [s] has a character that [trim] keeps. *)
Definition hasContent (s : jsstring) : bool :=
  existsb (fun c => negb (JsString.isWhiteSpace c)) s.

(** [s] is empty or made of blanks only. *)
Definition isBlank (s : jsstring) : bool :=
  forallb JsString.isWhiteSpace s.

(** The [providers] property of the constructor's argument, when the
    argument is given and has one. *)
Definition suppliedProviders (initialData : option PartialData.t)
  : option ProviderMap.t :=
  match initialData with
  | Some i => PartialData.providers i
  | None => None
  end.

(** Every number of the catalog is one that JSON keeps: finite and not
    [-0], or already [null]. *)
Definition keptByJson (n : option JsNumber.t) : bool :=
  match n with
  | Some JsNumber.NegZero | Some JsNumber.NaN | Some JsNumber.PosInfinity
  | Some JsNumber.NegInfinity => false
  | _ => true
  end.

Definition numbersKept (r : ModelRegistryData.t) : bool :=
  forallb
    (fun c => forallb (fun m => keptByJson (ModelInfo.contextWindow m))
                (ProviderConfig.models c))
    (ProviderMap.values (ModelRegistryData.providers r)).

(** The data as JSON copies it: a number that is not finite becomes
    [null]. *)
Definition copyModel (m : ModelInfo.t) : ModelInfo.t :=
  ModelInfo.mk (ModelInfo.id m) (ModelInfo.name m) (ModelInfo.provider m)
    (ModelInfo.description m)
    (option_map JsNumber.viaJson (ModelInfo.contextWindow m))
    (ModelInfo.supportsStreaming m).

Definition copyConfig (c : ProviderConfig.t) : ProviderConfig.t :=
  ProviderConfig.mk (ProviderConfig.name c) (ProviderConfig.provider c)
    (ProviderConfig.apiKey c) (ProviderConfig.baseUrl c)
    (map copyModel (ProviderConfig.models c)).

Definition jsonCopy (r : ModelRegistryData.t) : ModelRegistryData.t :=
  ModelRegistryData.mk (ModelRegistryData.currentProvider r)
    (ModelRegistryData.currentModel r)
    (map (fun kc => (fst kc, copyConfig (snd kc)))
       (ModelRegistryData.providers r)).

(** A well-typed snapshot in which one model has no bound on its context:
    [contextWindow] is [Infinity], which is also what the JSON text [1e999]
    parses to. *)
Definition unboundedModel : ModelInfo.t :=
  ModelInfo.mk (str "local") (str "Local model") OPENAI None
    (Some JsNumber.PosInfinity) None.

Definition unboundedSnapshot : PartialData.t :=
  PartialData.mk (Some OPENAI) (Some (str "local"))
    (Some
       [ (GEMINI,
          ProviderConfig.mk (str "Google Gemini") GEMINI None None
            ModelRegistry.geminiModels);
         (OPENAI,
          ProviderConfig.mk (str "OpenAI") OPENAI None None [unboundedModel]);
         (ANTHROPIC,
          ProviderConfig.mk (str "Anthropic Claude") ANTHROPIC None None
            ModelRegistry.anthropicModels) ]).

(** A snapshot that names the current selection and nothing else. *)
Definition selectionOnly (provider : ModelProvider.t) (modelId : jsstring)
  : PartialData.t :=
  PartialData.mk (Some provider) (Some modelId) None.

(** A well-typed snapshot whose [providers] object lists the three
    providers with OpenAI first. *)
Definition openaiFirst : PartialData.t :=
  PartialData.mk None None
    (Some
       [ (OPENAI,
          ProviderConfig.mk (str "OpenAI") OPENAI None None
            ModelRegistry.openaiModels);
         (GEMINI,
          ProviderConfig.mk (str "Google Gemini") GEMINI None None
            ModelRegistry.geminiModels);
         (ANTHROPIC,
          ProviderConfig.mk (str "Anthropic Claude") ANTHROPIC None None
            ModelRegistry.anthropicModels) ]).

Section Stubs.
Import ProviderContentGenerator.

Variables GenerateContentParameters GenerateContentResponse : Type.
Variables CountTokensParameters CountTokensResponse : Type.
Variables EmbedContentParameters EmbedContentResponse : Type.
Variable AsyncGenerator : Type -> Type.

(** Every capability of [g] rejects every request with one same message,
    which contains [who], says that the provider is not implemented and
    points to the Gemini provider. *)
Definition rejectsNaming (g : ProviderContentGenerator.t) (who : jsstring)
  : Prop :=
  exists msg,
    (forall request : GenerateContentParameters,
        generateContent GenerateContentResponse g request
        = Rejected (mkError msg)) /\
    (forall request : GenerateContentParameters,
        generateContentStream GenerateContentResponse AsyncGenerator g request
        = Rejected (mkError msg)) /\
    (forall request : CountTokensParameters,
        countTokens CountTokensResponse g request
        = Rejected (mkError msg)) /\
    (forall request : EmbedContentParameters,
        embedContent EmbedContentResponse g request
        = Rejected (mkError msg)) /\
    JsString.includes who msg = true /\
    JsString.includes (str "not yet implemented") msg = true /\
    JsString.includes (str "use Gemini provider") msg = true.

End Stubs.

End Spec.

(* ================================================================= *)
(** ** The /models command *)

(** [packages/cli/src/ui/commands/modelsCommand.ts].  The command reads the
    persisted registry data from [context.services.settings.merged], builds a
    registry, and reports with a message; [set] and [key] also hand a
    snapshot to [context.services.settings.setValue].  The calls to
    [setValue] are the command's effect on its context: they are returned,
    in order, beside the message. *)
Module ModelsCommand.
Import ModelProvider.

Inductive MessageType := info | error.

(** [MessageActionReturn]; [type] is ['message'] in every result. *)
Record MessageActionReturn := mkMessage {
  type : jsstring;
  messageType : MessageType;
  content : jsstring
}.

Definition message (mt : MessageType) (content : jsstring)
  : MessageActionReturn :=
  mkMessage (str "message") mt content.

(** How the promise of the action or of the completion settles.  The one
    way a body can throw is a [TypeError], in the body itself (a method call
    on [undefined]) or in a registry method it calls. *)
Inductive settled (A : Type) :=
| Fulfilled (a : A)
| RejectedTypeError.

Arguments Fulfilled {A} a.
Arguments RejectedTypeError {A}.

(** The line feed of ['\n']. *)
Definition nl : jsstring := [0x0A%N].

(** [`${x}`] for an [x] that may be [undefined]. *)
Definition interpolate (x : option jsstring) : jsstring :=
  match x with
  | Some s => s
  | None => str "undefined"
  end.

(** [x || ''] for an [x] that may be [undefined]. *)
Definition orEmpty (x : option jsstring) : jsstring :=
  match x with
  | Some s => s
  | None => []
  end.

(** [!x] for an [x] that may be [undefined]: the empty string is falsy. *)
Definition missing (x : option jsstring) : bool :=
  match x with
  | Some (_ :: _) => false
  | _ => true
  end.

(** [currentProviderConfig?.name] *)
Definition nameOf (x : option ProviderMap.property) : option jsstring :=
  match x with
  | Some (ProviderMap.Config c) => Some (ProviderConfig.name c)
  | Some (ProviderMap.Inherited name) => Realm.inheritedName name
  | Some (ProviderMap.Primitive _) => None
  | None => None
  end.

(** The [switch] on the provider name, which the source writes out three
    times (in [set], in [key] and in the completion); [None] is its
    [default] branch. *)
Definition providerOf (providerName : jsstring) : option ModelProvider.t :=
  if JsString.eqb providerName (str "gemini")
     || JsString.eqb providerName (str "google") then Some GEMINI
  else if JsString.eqb providerName (str "openai")
          || JsString.eqb providerName (str "gpt") then Some OPENAI
  else if JsString.eqb providerName (str "anthropic")
          || JsString.eqb providerName (str "claude") then Some ANTHROPIC
  else None.

(** The inner [map] callback of [formatModelsList]. *)
Definition formatModel (isCurrentProvider : bool) (currentModel : jsstring)
    (model : ModelInfo.t) : jsstring :=
  let isCurrent :=
    isCurrentProvider && JsString.eqb (ModelInfo.id model) currentModel in
  let indicator := if isCurrent then [0x2192%N; 0x20%N] else str "  " in
  let name :=
    indicator ++ ModelInfo.name model ++ str " (" ++ ModelInfo.id model
    ++ str ")" in
  let description :=
    match ModelInfo.description model with
    | Some (c :: d) => str " - " ++ c :: d
    | _ => []
    end in
  name ++ description.

(** The outer [map] callback of [formatModelsList]. *)
Definition formatProvider (registry : ModelRegistry.t)
    (provider : ProviderConfig.t) : jsstring :=
  let currentProvider := ModelRegistry.getCurrentProvider registry in
  let currentModel := ModelRegistry.getCurrentModel registry in
  let isCurrentProvider :=
    JsString.eqb (ProviderConfig.provider provider) currentProvider in
  let models :=
    JsString.join nl
      (map (formatModel isCurrentProvider currentModel)
         (ProviderConfig.models provider)) in
  let providerHeader :=
    str "**" ++ ProviderConfig.name provider ++ str "**"
    ++ (if isCurrentProvider then str " (current)" else []) in
  let hasApiKey :=
    ModelRegistry.hasValidApiKey (ProviderConfig.provider provider)
      registry in
  let apiKeyStatus :=
    if hasApiKey then 0x2713%N :: str " API key configured"
    else 0x26A0%N :: str " API key required" in
  providerHeader ++ nl ++ apiKeyStatus ++ nl ++ models.

Definition formatModelsList (registry : ModelRegistry.t) : jsstring :=
  JsString.join (nl ++ nl)
    (map (formatProvider registry) (ModelRegistry.getProviders registry)).

(** [modelRegistryData ? ModelRegistry.fromJSON(modelRegistryData)
                       : new ModelRegistry()], in a realm nothing was
    written to (the command itself writes nothing there: the providers it
    passes on come out of its [switch]). *)
Definition loadRegistry (modelRegistryData : option PartialData.t)
  : ModelRegistry.t :=
  match modelRegistryData with
  | Some data => ModelRegistry.fromJSON data
  | None => ModelRegistry.new None
  end.

Section Command.

(** [String.prototype.toLowerCase], which follows the Unicode case tables. *)
Variable toLowerCase : jsstring -> jsstring.

(** [enum SettingScope] of the settings module, and its member [User]. *)
Variable SettingScope : Type.
Variable User : SettingScope.

(** One call [settings.setValue(scope, key, value)]; the value is what
    [registry.toJSON()] returned. *)
Record SettingWrite := mkWrite {
  scope : SettingScope;
  key : jsstring;
  value : option ModelRegistryData.t
}.

(** The body of [case 'set']. *)
Definition actionSet (registry : ModelRegistry.t) (parts : list jsstring)
  : settled (MessageActionReturn * list SettingWrite) :=
  if Nat.ltb (List.length parts) 2 then
    Fulfilled
      (message error
         (str "Usage: /models set <provider> <model>" ++ nl
          ++ str "Example: /models set openai gpt-4o"), [])
  else
    match nth_error parts 1 with
    | None => RejectedTypeError
    | Some part1 =>
        let providerName := toLowerCase part1 in
        let modelId := nth_error parts 2 in
        match providerOf providerName with
        | None =>
            Fulfilled
              (message error
                 (str "Unknown provider: " ++ providerName ++ nl
                  ++ str "Available providers: gemini, openai, anthropic"),
               [])
        | Some provider =>
            if missing modelId then
              let models :=
                ModelRegistry.getModelsForProvider provider registry in
              let modelList :=
                JsString.join nl
                  (map (fun m => str "  " ++ ModelInfo.id m ++ str " - "
                                 ++ ModelInfo.name m) models) in
              Fulfilled
                (message info
                   (str "Available models for " ++ providerName ++ str ":"
                    ++ nl ++ modelList), [])
            else
              let modelId := orEmpty modelId in
              match ModelRegistry.setCurrentModel provider modelId registry
              with
              | (Js.ThrowsTypeError, _) => RejectedTypeError
              | (Js.Returns success, registry') =>
                  if negb success then
                    Fulfilled
                      (message error
                         (str "Invalid model: " ++ modelId
                          ++ str " for provider " ++ providerName), [])
                  else
                    let saved :=
                      mkWrite User (str "modelRegistry")
                        (ModelRegistry.toJSON registry') in
                    match ModelRegistry.getCurrentModelInfo registry' with
                    | Js.ThrowsTypeError => RejectedTypeError
                    | Js.Returns modelInfo =>
                        Fulfilled
                          (message info
                             (str "Switched to "
                              ++ interpolate
                                   (option_map ModelInfo.name modelInfo)
                              ++ str " (" ++ modelId ++ str ") from "
                              ++ providerName),
                           [saved])
                    end
              end
        end
    end.

(** The body of [case 'key': case 'apikey']. *)
Definition actionKey (registry : ModelRegistry.t) (parts : list jsstring)
  : settled (MessageActionReturn * list SettingWrite) :=
  if Nat.ltb (List.length parts) 3 then
    Fulfilled
      (message error
         (str "Usage: /models key <provider> <api-key>" ++ nl
          ++ str "Example: /models key openai sk-..."), [])
  else
    match nth_error parts 1 with
    | None => RejectedTypeError
    | Some part1 =>
        let keyProviderName := toLowerCase part1 in
        let apiKey := JsString.join (str " ") (skipn 2 parts) in
        match providerOf keyProviderName with
        | None =>
            Fulfilled
              (message error
                 (str "Unknown provider: " ++ keyProviderName ++ nl
                  ++ str "Available providers: gemini, openai, anthropic"),
               [])
        | Some keyProvider =>
            match ModelRegistry.setProviderApiKey keyProvider apiKey registry
            with
            | (Js.ThrowsTypeError, _) => RejectedTypeError
            | (Js.Returns _, registry') =>
                Fulfilled
                  (message info
                     (str "API key configured for " ++ keyProviderName),
                   [mkWrite User (str "modelRegistry")
                      (ModelRegistry.toJSON registry')])
            end
        end
    end.

(** The body of [case 'current']. *)
Definition actionCurrent (registry : ModelRegistry.t)
  : settled (MessageActionReturn * list SettingWrite) :=
  match ModelRegistry.getCurrentModelInfo registry with
  | Js.ThrowsTypeError => RejectedTypeError
  | Js.Returns currentModelInfo =>
      let currentProviderConfig :=
        ModelRegistry.getProvider (ModelRegistry.getCurrentProvider registry)
          registry in
      Fulfilled
        (message info
           (str "Current model: "
            ++ interpolate (option_map ModelInfo.name currentModelInfo)
            ++ str " ("
            ++ interpolate (option_map ModelInfo.id currentModelInfo)
            ++ str ") from "
            ++ interpolate (nameOf currentProviderConfig)),
         [])
  end.

(** [parts[0]?.toLowerCase() || 'list'] *)
Definition subCommandOf (parts : list jsstring) : jsstring :=
  match option_map toLowerCase (nth_error parts 0) with
  | Some (c :: s) => c :: s
  | _ => str "list"
  end.

(** [modelsCommand.action(context, args)], given the value of
    [context.services.settings.merged.modelRegistry]. *)
Definition action (modelRegistryData : option PartialData.t) (args : jsstring)
  : settled (MessageActionReturn * list SettingWrite) :=
  let parts := JsString.splitWhiteSpace (JsString.trim args) in
  let subCommand := subCommandOf parts in
  let registry := loadRegistry modelRegistryData in
  if JsString.eqb subCommand (str "list")
     || JsString.eqb subCommand (str "ls") then
    Fulfilled
      (message info
         (str "Available AI Models and Providers:" ++ nl ++ nl
          ++ formatModelsList registry), [])
  else if JsString.eqb subCommand (str "set") then
    actionSet registry parts
  else if JsString.eqb subCommand (str "key")
          || JsString.eqb subCommand (str "apikey") then
    actionKey registry parts
  else if JsString.eqb subCommand (str "current") then
    actionCurrent registry
  else
    Fulfilled
      (message error
         (str "Unknown subcommand: " ++ subCommand ++ nl
          ++ str "Available commands: list, set, key, current"), []).

(** [modelsCommand.completion(context, partialArg)] *)
Definition completion (modelRegistryData : option PartialData.t)
    (partialArg : jsstring) : settled (list jsstring) :=
  let parts := JsString.splitWhiteSpace (JsString.trim partialArg) in
  if Nat.leb (List.length parts) 1 then
    Fulfilled
      (filter (fun cmd => JsString.startsWith (orEmpty (nth_error parts 0)) cmd)
         [str "list"; str "set"; str "key"; str "current"])
  else
    match nth_error parts 0 with
    | None => RejectedTypeError
    | Some part0 =>
        let subCommand := toLowerCase part0 in
        if JsString.eqb subCommand (str "set")
           && Nat.eqb (List.length parts) 2 then
          Fulfilled
            (filter (fun provider =>
                       JsString.startsWith (orEmpty (nth_error parts 1))
                         provider)
               [str "gemini"; str "openai"; str "anthropic"])
        else if JsString.eqb subCommand (str "set")
                && Nat.eqb (List.length parts) 3 then
          match nth_error parts 1 with
          | None => RejectedTypeError
          | Some part1 =>
              let providerName := toLowerCase part1 in
              let registry := loadRegistry modelRegistryData in
              match providerOf providerName with
              | None => Fulfilled []
              | Some provider =>
                  let models :=
                    ModelRegistry.getModelsForProvider provider registry in
                  Fulfilled
                    (filter (fun id =>
                               JsString.startsWith
                                 (orEmpty (nth_error parts 2)) id)
                       (map ModelInfo.id models))
              end
          end
        else if JsString.eqb subCommand (str "key")
                && Nat.eqb (List.length parts) 2 then
          Fulfilled
            (filter (fun provider =>
                       JsString.startsWith (orEmpty (nth_error parts 1))
                         provider)
               [str "gemini"; str "openai"; str "anthropic"])
        else Fulfilled []
    end.

End Command.

End ModelsCommand.

(* ================================================================= *)
(** ** Vocabulary of the further statements *)

Module Words.

(** [piece] has no blank in it. *)
Definition blankFree (piece : jsstring) : bool :=
  forallb (fun c => negb (JsString.isWhiteSpace c)) piece.

(** [piece] is a word: not empty and without a blank. *)
Definition isWord (piece : jsstring) : bool :=
  match piece with
  | [] => false
  | _ :: _ => blankFree piece
  end.

(** The last character of [s] exists and is not a blank. *)
Fixpoint endsClean (s : jsstring) : bool :=
  match s with
  | [] => false
  | [c] => negb (JsString.isWhiteSpace c)
  | _ :: s' => endsClean s'
  end.

(** [piece] goes in front of the first piece of a split. *)
Definition prepend (piece : jsstring) (pieces : list jsstring)
  : list jsstring :=
  match pieces with
  | first :: rest => (piece ++ first) :: rest
  | [] => [piece]
  end.

End Words.

Module Catalog.

(** Every model listed under a key of the map names that key as its
    provider. *)
Definition backReferenced (ps : ProviderMap.t) : Prop :=
  forall k c m,
    In (k, c) ps -> In m (ProviderConfig.models c) ->
    ModelInfo.provider m = k.

End Catalog.

Module Outcome.
Import ModelsCommand.

Section Saved.

Variable SettingScope : Type.
Variable User : SettingScope.

(** The call [setValue(SettingScope.User, 'modelRegistry',
    registry.toJSON())] for a registry whose data is [snapshot]. *)
Definition saved (snapshot : ModelRegistryData.t) : SettingWrite SettingScope :=
  mkWrite User (str "modelRegistry") (ModelRegistry.toJSON snapshot).

(** What a run of the action leaves behind when it is fulfilled: a
    message, and either nothing saved or, beside an [info] message, one
    snapshot of the given registry after one call. *)
Definition tidy (registry : ModelRegistry.t)
    (out : settled (MessageActionReturn * list (SettingWrite SettingScope)))
  : Prop :=
  out = RejectedTypeError \/
  exists r w,
    out = Fulfilled (r, w) /\
    type r = str "message" /\
    (w = [] \/
     messageType r = info /\
     exists c, w = [saved (ModelRegistry.perform c registry)]).

End Saved.

End Outcome.
(* ================================================================= *)
(** * Properties *)

(** ** Strings *)

Section StringFacts.

Lemma jsstring_eqb_eq (a b : jsstring) : JsString.eqb a b = true <-> a = b.
Proof.
  revert b; induction a as [|x a IH]; intros [|y b]; simpl;
    try (split; [discriminate | discriminate]); try tauto.
  rewrite andb_true_iff, N.eqb_eq, IH.
  split; [intros [-> ->]; reflexivity | intros H; injection H; auto].
Qed.

Lemma jsstring_eqb_refl (a : jsstring) : JsString.eqb a a = true.
Proof. apply jsstring_eqb_eq; reflexivity. Qed.

Lemma jsstring_eqb_neq (a b : jsstring) : JsString.eqb a b = false <-> a <> b.
Proof.
  rewrite <- jsstring_eqb_eq. destruct (JsString.eqb a b); split; congruence.
Qed.

Lemma trimStart_nil (s : jsstring) :
  JsString.trimStart s = [] <-> forallb JsString.isWhiteSpace s = true.
Proof.
  induction s as [|c s IH]; simpl; [tauto|].
  destruct (JsString.isWhiteSpace c); simpl; [exact IH|].
  split; discriminate.
Qed.

(** What [trimStart] leaves starts with a character that is not blank. *)
Lemma trimStart_head (s : jsstring) c rest :
  JsString.trimStart s = c :: rest -> JsString.isWhiteSpace c = false.
Proof.
  induction s as [|d s IH]; simpl; [discriminate|].
  destruct (JsString.isWhiteSpace d) eqn:E; [exact IH|].
  intros H; injection H as -> _; exact E.
Qed.

Lemma forallb_rev_eq {A} (f : A -> bool) (l : list A) :
  forallb f (rev l) = forallb f l.
Proof.
  induction l as [|a l IH]; simpl; [reflexivity|].
  rewrite forallb_app, IH; simpl. rewrite andb_true_r. apply andb_comm.
Qed.

(** [trim] yields the empty string exactly on blank strings. *)
Lemma trim_nil (s : jsstring) :
  JsString.trim s = [] <-> forallb JsString.isWhiteSpace s = true.
Proof.
  unfold JsString.trim, JsString.trimEnd.
  rewrite <- trimStart_nil.
  split.
  - intros H.
    apply (f_equal (@rev N)) in H; rewrite rev_involutive in H; simpl in H.
    apply trimStart_nil in H. rewrite forallb_rev_eq in H.
    destruct (JsString.trimStart s) as [|c rest] eqn:E; [reflexivity|].
    apply trimStart_head in E. simpl in H. rewrite E in H. discriminate.
  - intros ->. reflexivity.
Qed.

Lemma trim_length_pos (s : jsstring) :
  Nat.ltb 0 (List.length (JsString.trim s)) = true
  <-> existsb (fun c => negb (JsString.isWhiteSpace c)) s = true.
Proof.
  rewrite Nat.ltb_lt.
  assert (Hn : forallb JsString.isWhiteSpace s
               = negb (existsb (fun c => negb (JsString.isWhiteSpace c)) s)).
  { induction s as [|c s IH]; simpl; [reflexivity|].
    rewrite IH. destruct (JsString.isWhiteSpace c); reflexivity. }
  pose proof (trim_nil s) as Ht. rewrite Hn in Ht.
  destruct (existsb _ s); simpl in Ht.
  - split; [reflexivity|]. intros _.
    destruct (JsString.trim s); [|simpl; lia].
    destruct Ht as [Ht _]. specialize (Ht eq_refl). discriminate.
  - split; [|discriminate]. intros Hl.
    destruct Ht as [_ Ht]. rewrite (Ht eq_refl) in Hl. simpl in Hl. lia.
Qed.

End StringFacts.

(** ** The provider map *)

Section ProviderMapFacts.

Variable f : ProviderConfig.t -> ProviderConfig.t.

Lemma get_known (p : ModelProvider.t) (m : ProviderMap.t) :
  In p (ProviderMap.keys m) <-> exists c, ProviderMap.own p m = Some c.
Proof.
  induction m as [|[q c] m IH]; simpl.
  - split; [tauto | intros [c H]; discriminate].
  - destruct (JsString.eqb p q) eqn:E.
    + apply jsstring_eqb_eq in E. subst q. split; eauto.
    + apply jsstring_eqb_neq in E. rewrite <- IH.
      split; [intros [H|H]; [congruence | exact H] | auto].
Qed.

Lemma get_unknown (p : ModelProvider.t) (m : ProviderMap.t) :
  ~ In p (ProviderMap.keys m) <-> ProviderMap.own p m = None.
Proof.
  rewrite get_known. destruct (ProviderMap.own p m) as [c|].
  - split; [intros H; exfalso; apply H; eauto | discriminate].
  - split; [reflexivity | intros _ [c H]; discriminate].
Qed.

Lemma update_keys p (m : ProviderMap.t) :
  ProviderMap.keys (ProviderMap.update p f m) = ProviderMap.keys m.
Proof.
  unfold ProviderMap.keys.
  induction m as [|[q c] m IH]; simpl; [reflexivity|].
  destruct (JsString.eqb p q); simpl; [reflexivity | f_equal; exact IH].
Qed.

Lemma update_get_same p (m : ProviderMap.t) :
  ProviderMap.own p (ProviderMap.update p f m)
  = option_map f (ProviderMap.own p m).
Proof.
  induction m as [|[q c] m IH]; simpl; [reflexivity|].
  destruct (JsString.eqb p q) eqn:E; simpl; rewrite E; [reflexivity | exact IH].
Qed.

Lemma update_get_other p q (m : ProviderMap.t) :
  q <> p ->
  ProviderMap.own q (ProviderMap.update p f m) = ProviderMap.own q m.
Proof.
  intros Hne. induction m as [|[k c] m IH]; simpl; [reflexivity|].
  destruct (JsString.eqb p k) eqn:E; simpl.
  - apply jsstring_eqb_eq in E. subst k.
    apply jsstring_eqb_neq in Hne. rewrite Hne. reflexivity.
  - destruct (JsString.eqb q k); [reflexivity | exact IH].
Qed.

Lemma update_unknown p (m : ProviderMap.t) :
  ProviderMap.own p m = None -> ProviderMap.update p f m = m.
Proof.
  induction m as [|[q c] m IH]; simpl; [reflexivity|].
  destruct (JsString.eqb p q); [discriminate|].
  intros H. rewrite (IH H). reflexivity.
Qed.

(** A view of the configurations that [f] does not touch is not touched by
    the update either. *)
Lemma update_values_view {B} (view : ProviderConfig.t -> B) p
    (m : ProviderMap.t) :
  (forall c, view (f c) = view c) ->
  map view (ProviderMap.values (ProviderMap.update p f m))
  = map view (ProviderMap.values m).
Proof.
  intros Hview. unfold ProviderMap.values.
  induction m as [|[q c] m IH]; simpl; [reflexivity|].
  destruct (JsString.eqb p q); simpl.
  - rewrite Hview. reflexivity.
  - f_equal. exact IH.
Qed.

End ProviderMapFacts.

(** ** Lookup through the prototype *)

Section LookupFacts.

Lemma get_config p (m : ProviderMap.t) (realm : Realm.t) c :
  ProviderMap.own p m = Some c ->
  ProviderMap.get p m realm = Some (ProviderMap.Config c).
Proof. unfold ProviderMap.get. intros ->. reflexivity. Qed.

Lemma get_inherited p (m : ProviderMap.t) (realm : Realm.t) :
  ProviderMap.own p m = None -> Realm.isInherited p = true ->
  ProviderMap.get p m realm = Some (ProviderMap.Inherited p).
Proof. unfold ProviderMap.get. intros -> ->. reflexivity. Qed.

Lemma get_primitive (m : ProviderMap.t) (realm : Realm.t) k :
  ProviderMap.own (str "apiKey") m = None ->
  Realm.protoApiKey realm = Some k ->
  ProviderMap.get (str "apiKey") m realm = Some (ProviderMap.Primitive k).
Proof. unfold ProviderMap.get. intros -> ->. reflexivity. Qed.

Lemma get_absent p (m : ProviderMap.t) (realm : Realm.t) :
  ProviderMap.own p m = None -> Realm.isInherited p = false ->
  (p = str "apiKey" -> Realm.protoApiKey realm = None) ->
  ProviderMap.get p m realm = None.
Proof.
  unfold ProviderMap.get. intros -> -> Hk.
  destruct (JsString.eqb p (str "apiKey")) eqn:E; [|reflexivity].
  apply jsstring_eqb_eq in E. rewrite (Hk E). reflexivity.
Qed.

(** The four things [providers[p]] can be. *)
Lemma get_cases p (m : ProviderMap.t) (realm : Realm.t) :
  (exists c, ProviderMap.own p m = Some c /\
             ProviderMap.get p m realm = Some (ProviderMap.Config c))
  \/ (ProviderMap.own p m = None /\ Realm.isInherited p = true /\
      ProviderMap.get p m realm = Some (ProviderMap.Inherited p))
  \/ (exists k,
        ProviderMap.own p m = None /\ p = str "apiKey" /\
        Realm.protoApiKey realm = Some k /\
        ProviderMap.get p m realm = Some (ProviderMap.Primitive k))
  \/ (ProviderMap.own p m = None /\ Realm.isInherited p = false /\
      (p = str "apiKey" -> Realm.protoApiKey realm = None) /\
      ProviderMap.get p m realm = None).
Proof.
  unfold ProviderMap.get.
  destruct (ProviderMap.own p m) as [c|]; [left; eauto|].
  destruct (Realm.isInherited p); [right; left; auto|].
  destruct (JsString.eqb p (str "apiKey")) eqn:E.
  - apply jsstring_eqb_eq in E.
    destruct (Realm.protoApiKey realm) as [k|] eqn:Hk.
    + right; right; left. exists k. auto.
    + right; right; right. auto.
  - apply jsstring_eqb_neq in E. right; right; right.
    repeat split; auto. intros H. contradiction.
Qed.

(** Only the lookup of ['apiKey'] depends on the realm. *)
Lemma get_realm p (m : ProviderMap.t) (realm realm' : Realm.t) :
  p <> str "apiKey" ->
  ProviderMap.get p m realm = ProviderMap.get p m realm'.
Proof.
  intros Hne. unfold ProviderMap.get. apply jsstring_eqb_neq in Hne.
  rewrite Hne. reflexivity.
Qed.

(** In a realm nothing was written to, only built-in names are
    inherited. *)
Lemma get_pristine p (m : ProviderMap.t) :
  ProviderMap.own p m = None -> Realm.isInherited p = false ->
  ProviderMap.get p m Realm.pristine = None.
Proof.
  intros Ho Hi. apply get_absent; auto.
Qed.


Lemma ownApiKey_write_other name other key (realm : Realm.t) :
  other <> name ->
  Realm.ownApiKey other (Realm.write name key realm)
  = Realm.ownApiKey other realm.
Proof.
  intros Hne. induction realm as [|[n k] realm IH]; simpl.
  - apply jsstring_eqb_neq in Hne. rewrite Hne. reflexivity.
  - destruct (JsString.eqb name n) eqn:E; simpl.
    + apply jsstring_eqb_eq in E. subst n.
      apply jsstring_eqb_neq in Hne. rewrite Hne. reflexivity.
    + destruct (JsString.eqb other n); [reflexivity | exact IH].
Qed.

Lemma write_twice name k1 k2 (realm : Realm.t) :
  Realm.write name k2 (Realm.write name k1 realm) = Realm.write name k2 realm.
Proof.
  induction realm as [|[n k] realm IH]; simpl.
  - rewrite jsstring_eqb_refl. reflexivity.
  - destruct (JsString.eqb name n) eqn:E; simpl; rewrite E;
      [reflexivity | rewrite IH; reflexivity].
Qed.


End LookupFacts.

(** ** [find] over a model list *)

Section FindFacts.

Lemma find_hasId_some modelId (l : list ModelInfo.t) m :
  find (ModelRegistry.hasId modelId) l = Some m ->
  In modelId (map ModelInfo.id l).
Proof.
  intros H. apply find_some in H. destruct H as [Hin Hid].
  apply jsstring_eqb_eq in Hid. subst modelId. apply in_map. exact Hin.
Qed.

Lemma find_hasId_none modelId (l : list ModelInfo.t) :
  find (ModelRegistry.hasId modelId) l = None ->
  ~ In modelId (map ModelInfo.id l).
Proof.
  intros H Hin. apply in_map_iff in Hin. destruct Hin as [m [Hid Hin]].
  pose proof (find_none _ _ H m Hin) as Hf.
  unfold ModelRegistry.hasId in Hf. rewrite Hid, jsstring_eqb_refl in Hf.
  discriminate.
Qed.

End FindFacts.

(** ** Selecting a model *)

Section Selection.
Import ModelRegistry Spec.

Variable r : ModelRegistry.t.
Variable provider : ModelProvider.t.
Variable modelId : jsstring.

Lemma offers_known : offers provider modelId r -> knownProvider provider r.
Proof.
  intros [c [Hget _]]. apply get_known. exists c. exact Hget.
Qed.

Lemma isInherited_apiKey : Realm.isInherited (str "apiKey") = false.
Proof. reflexivity. Qed.

Lemma inheritedTruthy_unknown p (r0 : ModelRegistry.t) :
  inheritedTruthy p r0 -> ~ knownProvider p r0.
Proof. intros [[H _] | [k [[H _] _]]]; exact H. Qed.

(** The three ways [setCurrentModel] can end. *)
Lemma setCurrentModel_cases :
  (offers provider modelId r /\
   setCurrentModel provider modelId r
   = (Js.Returns true,
      mk (ModelRegistryData.mk provider modelId
            (ModelRegistryData.providers r)) (realm r)))
  \/ (~ offers provider modelId r /\ ~ inheritedTruthy provider r /\
      setCurrentModel provider modelId r = (Js.Returns false, r))
  \/ (inheritedTruthy provider r /\
      setCurrentModel provider modelId r = (Js.ThrowsTypeError, r)).
Proof.
  unfold setCurrentModel.
  destruct (get_cases provider (ModelRegistryData.providers r) (realm r))
    as [[c [Hown ->]]
       | [[Hown [Hinh ->]]
         | [[k [Hown [Hp [Hk ->]]]] | [Hown [Hinh [Hk ->]]]]]].
  - assert (Hkn : knownProvider provider r) by (apply get_known; eauto).
    destruct (find (hasId modelId) (ProviderConfig.models c)) as [m|] eqn:Hfind.
    + left. split; [|reflexivity].
      exists c. split; [exact Hown|]. eapply find_hasId_some; eassumption.
    + right; left. split; [|split; [|reflexivity]].
      * intros [c' [Hc' Hin]]. rewrite Hown in Hc'. injection Hc' as <-.
        exact (find_hasId_none _ _ Hfind Hin).
      * intros Ht. exact (inheritedTruthy_unknown Ht Hkn).
  - right; right. split; [|reflexivity]. left.
    split; [apply get_unknown; exact Hown | exact Hinh].
  - assert (Hnk : ~ knownProvider provider r)
      by (apply get_unknown; exact Hown).
    destruct k as [|c k]; simpl.
    + right; left. split; [|split; [|reflexivity]].
      * intros [c [Hc _]]. congruence.
      * intros [[_ Hi] | [k' [[_ [_ Hk']] Hne]]].
        -- subst provider. rewrite isInherited_apiKey in Hi. discriminate.
        -- rewrite Hk in Hk'. injection Hk' as <-. contradiction.
    + right; right. split; [|reflexivity]. right.
      exists (c :: k). split; [|discriminate].
      split; [exact Hnk|]. split; [exact Hp | exact Hk].
  - right; left. split; [|split; [|reflexivity]].
    + intros [c [Hc _]]. congruence.
    + intros [[_ Hi] | [k' [[_ [Hp Hk']] _]]]; [congruence|].
      rewrite (Hk Hp) in Hk'. discriminate.
Qed.


(** C10. [setCurrentModel] leaves the providers map as it is, whatever it
    returns: the same keys in the same order, each with the same name,
    apiKey, baseUrl and models. *)
Theorem setCurrentModel_frame :
  ModelRegistryData.providers (snd (setCurrentModel provider modelId r))
  = ModelRegistryData.providers r /\
  getProviders (snd (setCurrentModel provider modelId r)) = getProviders r /\
  (forall q,
      getProvider q (snd (setCurrentModel provider modelId r))
      = getProvider q r).
Proof.
  destruct setCurrentModel_cases as [[_ ->] | [[_ [_ ->]] | [_ ->]]]; simpl;
    auto.
Qed.

End Selection.

Section SelectionCounterexample.
Import ModelRegistry Spec.


End SelectionCounterexample.

(** ** Storing a credential *)

Section Credentials.
Import ModelRegistry Spec.

Lemma setProviderApiKey_known (r : ModelRegistry.t) provider apiKey c :
  ProviderMap.own provider (ModelRegistryData.providers r) = Some c ->
  setProviderApiKey provider apiKey r
  = (Js.Returns true,
     mk (ModelRegistryData.mk (ModelRegistryData.currentProvider r)
           (ModelRegistryData.currentModel r)
           (ProviderMap.update provider (ProviderConfig.set_apiKey apiKey)
              (ModelRegistryData.providers r)))
        (realm r)).
Proof.
  unfold setProviderApiKey. intros H. rewrite (@get_config _ _ (realm r) _ H).
  reflexivity.
Qed.

Lemma setProviderApiKey_inherited (r : ModelRegistry.t) provider apiKey :
  ProviderMap.own provider (ModelRegistryData.providers r) = None ->
  Realm.isInherited provider = true ->
  setProviderApiKey provider apiKey r
  = (Js.Returns true, mk (data r) (Realm.write provider apiKey (realm r))).
Proof.
  unfold setProviderApiKey. intros H Hi.
  rewrite (@get_inherited _ _ (realm r) H Hi). reflexivity.
Qed.

Lemma setProviderApiKey_string (r : ModelRegistry.t) apiKey k :
  ProviderMap.own (str "apiKey") (ModelRegistryData.providers r) = None ->
  Realm.protoApiKey (realm r) = Some k ->
  setProviderApiKey (str "apiKey") apiKey r
  = (if isEmpty k then Js.Returns false else Js.ThrowsTypeError, r).
Proof.
  unfold setProviderApiKey. intros H Hk. rewrite (@get_primitive _ _ _ H Hk).
  destruct (isEmpty k); reflexivity.
Qed.

Lemma setProviderApiKey_unknown (r : ModelRegistry.t) provider apiKey :
  ProviderMap.own provider (ModelRegistryData.providers r) = None ->
  Realm.isInherited provider = false ->
  (provider = str "apiKey" -> Realm.protoApiKey (realm r) = None) ->
  setProviderApiKey provider apiKey r = (Js.Returns false, r).
Proof.
  unfold setProviderApiKey. intros H Hi Hk. rewrite (@get_absent _ _ _ H Hi Hk).
  reflexivity.
Qed.

(** The three effects [setProviderApiKey] can have. *)
Lemma setProviderApiKey_cases (r : ModelRegistry.t) provider apiKey :
  (exists c,
      ProviderMap.own provider (ModelRegistryData.providers r) = Some c /\
      setProviderApiKey provider apiKey r
      = (Js.Returns true,
         mk (ModelRegistryData.mk (ModelRegistryData.currentProvider r)
               (ModelRegistryData.currentModel r)
               (ProviderMap.update provider
                  (ProviderConfig.set_apiKey apiKey)
                  (ModelRegistryData.providers r)))
            (realm r)))
  \/ (ProviderMap.own provider (ModelRegistryData.providers r) = None /\
      Realm.isInherited provider = true /\
      setProviderApiKey provider apiKey r
      = (Js.Returns true,
         mk (data r) (Realm.write provider apiKey (realm r))))
  \/ (ProviderMap.own provider (ModelRegistryData.providers r) = None /\
      Realm.isInherited provider = false /\
      exists o,
        o <> Js.Returns true /\
        setProviderApiKey provider apiKey r = (o, r)).
Proof.
  destruct (get_cases provider (ModelRegistryData.providers r) (realm r))
    as [[c [Hown _]]
       | [[Hown [Hinh _]]
         | [[k [Hown [Hp [Hk _]]]] | [Hown [Hinh [Hk _]]]]]].
  - left. exists c. split; [exact Hown|].
    exact (@setProviderApiKey_known r provider apiKey c Hown).
  - right; left. split; [exact Hown|]. split; [exact Hinh|].
    exact (@setProviderApiKey_inherited r provider apiKey Hown Hinh).
  - right; right. subst provider. split; [exact Hown|].
    split; [reflexivity|].
    rewrite (@setProviderApiKey_string r apiKey k Hown Hk).
    destruct k; simpl; eexists; (split; [|reflexivity]); discriminate.
  - right; right. split; [exact Hown|]. split; [exact Hinh|].
    exists (Js.Returns false). split; [discriminate|].
    exact (@setProviderApiKey_unknown r provider apiKey Hown Hinh Hk).
Qed.



End Credentials.
(** ** The selection stays valid *)

Section Invariant.
Import ModelRegistry Spec.

(** Establish: the defaults name a model of the default provider. *)
Lemma defaults_valid : selectionValid (new None).
Proof.
  exists (ProviderConfig.mk (str "Google Gemini") ModelProvider.GEMINI
            None None geminiModels).
  split; [reflexivity|]. simpl. left. reflexivity.
Qed.

Lemma setCurrentModel_valid (r : ModelRegistry.t) p m :
  selectionValid r -> selectionValid (snd (setCurrentModel p m r)).
Proof.
  intros Hv.
  destruct (setCurrentModel_cases r p m)
    as [[Hok ->] | [[_ [_ ->]] | [_ ->]]]; simpl; [|exact Hv | exact Hv].
  destruct Hok as [c [Hget Hin]]. exists c. simpl. auto.
Qed.

Lemma setProviderApiKey_valid (r : ModelRegistry.t) p k :
  selectionValid r -> selectionValid (snd (setProviderApiKey p k r)).
Proof.
  intros [c [Hget Hin]].
  unfold getCurrentProvider, getCurrentModel in *.
  destruct (setProviderApiKey_cases r p k)
    as [[cp [Hp ->]] | [[Hp [Hi ->]] | [Hp [Hi [o [_ ->]]]]]]; simpl.
  - unfold selectionValid, offers, getCurrentProvider, getCurrentModel; simpl.
    destruct (JsString.eqb (ModelRegistryData.currentProvider r) p) eqn:E.
    + apply jsstring_eqb_eq in E. rewrite E in *.
      exists (ProviderConfig.set_apiKey k c).
      rewrite update_get_same, Hget. simpl. auto.
    + apply jsstring_eqb_neq in E. exists c.
      rewrite update_get_other by exact E. auto.
  - exists c. auto.
  - exists c. auto.
Qed.

(** Preserve: each call keeps the selection valid. *)
Lemma perform_valid c (r : ModelRegistry.t) :
  selectionValid r -> selectionValid (perform c r).
Proof.
  destruct c; simpl; auto using setCurrentModel_valid, setProviderApiKey_valid.
Qed.

Lemma run_valid cs :
  forall r : ModelRegistry.t, selectionValid r -> selectionValid (run cs r).
Proof.
  induction cs as [|c cs IH]; simpl; intros r Hv; [exact Hv|].
  apply IH, perform_valid, Hv.
Qed.

(** C2. From a default-constructed registry, after any finite sequence of
    [setCurrentModel] and [setProviderApiKey] calls with any arguments, the
    current model is the id of a model listed under the current provider. *)
Theorem selection_always_valid (calls : list call) :
  selectionValid (run calls (new None)).
Proof. apply run_valid, defaults_valid. Qed.

End Invariant.

(** ** Construction and the provider list *)

Section Construction.
Import ModelRegistry Spec.

Lemma perform_providerIds c (r : ModelRegistry.t) :
  providerIds (perform c r) = providerIds r.
Proof.
  unfold providerIds, getProviders. destruct c as [p m | p k]; simpl.
  - destruct (setCurrentModel_cases r p m)
      as [[_ ->] | [[_ [_ ->]] | [_ ->]]]; reflexivity.
  - destruct (setProviderApiKey_cases r p k)
      as [[cp [Hp ->]] | [[Hp [Hi ->]] | [Hp [Hi [o [_ ->]]]]]]; simpl;
      [|reflexivity | reflexivity].
    apply update_values_view. reflexivity.
Qed.

Lemma run_providerIds cs :
  forall r : ModelRegistry.t, providerIds (run cs r) = providerIds r.
Proof.
  induction cs as [|c cs IH]; simpl; intros r; [reflexivity|].
  rewrite IH. apply perform_providerIds.
Qed.

Lemma new_providers init :
  ModelRegistryData.providers (new init)
  = match suppliedProviders init with
    | Some ps => ps
    | None => defaultProviders
    end.
Proof. destruct init as [[cp cm [ps|]]|]; reflexivity. Qed.

(** C3 as stated fails.  Here is a well-typed construction input for which
    [getProviders()] does not list GEMINI, OPENAI, ANTHROPIC in that order:
    the supplied [providers] object replaces the default one and its own
    order is the one listed. *)
Lemma getProviders_order_of_snapshot :
  providerIds (fromJSON openaiFirst) <> fixedProviders.
Proof. vm_compute. discriminate. Qed.

(** C3, as the code has it.  A registry constructed without a [providers]
    property in its input (no input at all, or a partial snapshot that leaves
    [providers] out) lists exactly GEMINI, OPENAI, ANTHROPIC, in that order,
    and keeps doing so after any calls.  When the input supplies [providers],
    the registry lists the providers of the supplied object, in its order. *)
Theorem getProviders_by_construction (init : option PartialData.t) :
  (suppliedProviders init = None ->
   forall calls, providerIds (run calls (new init)) = fixedProviders)
  /\
  (forall ps, suppliedProviders init = Some ps ->
   forall calls,
     providerIds (run calls (new init))
     = map ProviderConfig.provider (ProviderMap.values ps)).
Proof.
  split; [intros Hs calls | intros ps Hs calls];
    rewrite run_providerIds; unfold providerIds, getProviders;
    rewrite new_providers, Hs; reflexivity.
Qed.

Lemma getProviders_by_construction_witness :
  providerIds
    (run [SetProviderApiKey ModelProvider.OPENAI (str "sk-test-key");
          SetCurrentModel ModelProvider.OPENAI (str "gpt-4o")]
       (new (Some (selectionOnly ModelProvider.ANTHROPIC
                     (str "claude-3-5-sonnet-20241022")))))
  = fixedProviders
  /\
  providerIds (run [] (new (Some openaiFirst)))
  = [ModelProvider.OPENAI; ModelProvider.GEMINI; ModelProvider.ANTHROPIC].
Proof.
  split.
  - apply (proj1 (getProviders_by_construction
                    (Some (selectionOnly ModelProvider.ANTHROPIC
                             (str "claude-3-5-sonnet-20241022"))))).
    reflexivity.
  - apply (proj2 (getProviders_by_construction (Some openaiFirst))
             [ (ModelProvider.OPENAI,
                ProviderConfig.mk (str "OpenAI") ModelProvider.OPENAI None None
                  openaiModels);
               (ModelProvider.GEMINI,
                ProviderConfig.mk (str "Google Gemini") ModelProvider.GEMINI
                  None None geminiModels);
               (ModelProvider.ANTHROPIC,
                ProviderConfig.mk (str "Anthropic Claude")
                  ModelProvider.ANTHROPIC None None anthropicModels) ]).
    reflexivity.
Defined.

(** C5. A snapshot that names only [currentProvider] and [currentModel]
    yields a registry that still lists the three default providers with
    their default models, and whose current selection is the snapshot's. *)
Theorem fromJSON_selection_only (provider : ModelProvider.t)
    (modelId : jsstring) :
  getProviders (fromJSON (selectionOnly provider modelId))
  = getProviders (new None) /\
  providerIds (fromJSON (selectionOnly provider modelId)) = fixedProviders /\
  getModelsForProvider ModelProvider.GEMINI
    (fromJSON (selectionOnly provider modelId)) = geminiModels /\
  getModelsForProvider ModelProvider.OPENAI
    (fromJSON (selectionOnly provider modelId)) = openaiModels /\
  getModelsForProvider ModelProvider.ANTHROPIC
    (fromJSON (selectionOnly provider modelId)) = anthropicModels /\
  getCurrentProvider (fromJSON (selectionOnly provider modelId)) = provider /\
  getCurrentModel (fromJSON (selectionOnly provider modelId)) = modelId.
Proof. repeat split. Qed.

Lemma fromJSON_selection_only_witness :
  getProviders
    (fromJSON (selectionOnly ModelProvider.ANTHROPIC
                 (str "claude-3-5-sonnet-20241022")))
  = ProviderMap.values defaultProviders /\
  getCurrentProvider
    (fromJSON (selectionOnly ModelProvider.ANTHROPIC
                 (str "claude-3-5-sonnet-20241022")))
  = ModelProvider.ANTHROPIC /\
  getCurrentModel
    (fromJSON (selectionOnly ModelProvider.ANTHROPIC
                 (str "claude-3-5-sonnet-20241022")))
  = str "claude-3-5-sonnet-20241022".
Proof.
  pose proof (fromJSON_selection_only ModelProvider.ANTHROPIC
                (str "claude-3-5-sonnet-20241022")) as H.
  split; [exact (proj1 H)|].
  split; [exact (proj1 (proj2 (proj2 (proj2 (proj2 (proj2 H))))))|].
  exact (proj2 (proj2 (proj2 (proj2 (proj2 (proj2 H)))))).
Defined.

End Construction.

(** ** Credentials that count as configured *)

Section BlankPolicy.
Import ModelRegistry Spec.

Lemma hasValidApiKey_stored provider r key :
  getProviderApiKey provider r = Some key ->
  hasValidApiKey provider r = hasContent key.
Proof.
  unfold hasValidApiKey, hasContent. intros ->.
  destruct (existsb _ key) eqn:E.
  - destruct key as [|c key]; [discriminate|]. simpl truthy.
    apply trim_length_pos. exact E.
  - destruct (Nat.ltb 0 (List.length (JsString.trim key))) eqn:L.
    + apply trim_length_pos in L. congruence.
    + apply andb_false_r.
Qed.

Lemma isBlank_hasContent key : isBlank key = negb (hasContent key).
Proof.
  unfold isBlank, hasContent.
  induction key as [|c key IH]; simpl; [reflexivity|].
  rewrite IH. destruct (JsString.isWhiteSpace c); reflexivity.
Qed.

(** C6. [hasValidApiKey(p)] is true exactly when a key is stored for [p]
    whose trimmed form has positive length.  It is false when no key is
    stored and when the stored key is empty or all blanks; it is true when
    the stored key has a character that is not a blank. *)
Theorem hasValidApiKey_blank_policy (r : ModelRegistry.t)
    (p : ModelProvider.t) :
  (hasValidApiKey p r = true <->
   exists key, getProviderApiKey p r = Some key /\
               0 < List.length (JsString.trim key)) /\
  (getProviderApiKey p r = None -> hasValidApiKey p r = false) /\
  (forall key, getProviderApiKey p r = Some key ->
               isBlank key = true -> hasValidApiKey p r = false) /\
  (forall key, getProviderApiKey p r = Some key ->
               hasContent key = true -> hasValidApiKey p r = true).
Proof.
  split; [|split; [|split]].
  - destruct (getProviderApiKey p r) as [key|] eqn:Hk.
    + rewrite (hasValidApiKey_stored _ _ Hk).
      unfold hasContent. rewrite <- trim_length_pos, Nat.ltb_lt.
      split; [eauto|]. intros [key' [Heq Hlen]]. injection Heq as <-. exact Hlen.
    + unfold hasValidApiKey. rewrite Hk. simpl.
      split; [discriminate | intros [key [Heq _]]; discriminate].
  - intros Hk. unfold hasValidApiKey. rewrite Hk. reflexivity.
  - intros key Hk Hb. rewrite (hasValidApiKey_stored _ _ Hk).
    rewrite isBlank_hasContent in Hb. destruct (hasContent key);
      [discriminate | reflexivity].
  - intros key Hk Hc. rewrite (hasValidApiKey_stored _ _ Hk). exact Hc.
Qed.

End BlankPolicy.

(** ** Snapshots *)

Section Snapshots.
Import Json JsonCodec ModelRegistry Spec.

Lemma traverse_map {A B} (enc : A -> B) (dec : B -> option A) (f : A -> A)
    (l : list A) :
  (forall a, dec (enc a) = Some (f a)) ->
  traverse dec (map enc l) = Some (map f l).
Proof.
  intros Hinv. induction l as [|a l IH]; simpl; [reflexivity|].
  rewrite Hinv, IH. reflexivity.
Qed.

Lemma parse_stringify_ModelInfo (m : ModelInfo.t) :
  parse_ModelInfo (stringify_ModelInfo m) = Some (copyModel m).
Proof.
  destruct m as [i n p [d|] [[z| | | | |]|] [s|]]; reflexivity.
Qed.

Lemma parse_stringify_models (l : list ModelInfo.t) :
  parse_models (Arr (map stringify_ModelInfo l)) = Some (map copyModel l).
Proof. apply traverse_map, parse_stringify_ModelInfo. Qed.

Lemma parse_stringify_ProviderConfig (c : ProviderConfig.t) :
  parse_ProviderConfig (stringify_ProviderConfig c) = Some (copyConfig c).
Proof.
  destruct c as [n p [k|] [u|] ms];
    unfold parse_ProviderConfig, stringify_ProviderConfig, required, optionally;
    cbn [ProviderConfig.name ProviderConfig.provider ProviderConfig.apiKey
         ProviderConfig.baseUrl ProviderConfig.models optional app];
    match goal with
    | |- context [field (str "models") ?props] =>
        replace (field (str "models") props)
          with (Some (Arr (map stringify_ModelInfo ms))) by reflexivity
    end;
    rewrite parse_stringify_models; reflexivity.
Qed.

Lemma parse_stringify_providers (ps : ProviderMap.t) :
  parse_providers (stringify_providers ps)
  = Some (map (fun kc => (fst kc, copyConfig (snd kc))) ps).
Proof.
  unfold parse_providers, stringify_providers.
  apply traverse_map. intros [k c]. unfold parse_entry; cbn [fst snd].
  rewrite parse_stringify_ProviderConfig. reflexivity.
Qed.

(** The copy that [toJSON] hands out always exists; it is the registry's
    data with every number that is not finite replaced by [null], and [-0]
    by [0]. *)
Lemma toJSON_copy (d : ModelRegistryData.t) : toJSON d = Some (jsonCopy d).
Proof.
  destruct d as [cp cm ps].
  unfold toJSON, parse_data, stringify_data, required.
  cbn [ModelRegistryData.currentProvider ModelRegistryData.currentModel
       ModelRegistryData.providers].
  replace (field (str "providers") _)
    with (Some (stringify_providers ps)) by reflexivity.
  rewrite parse_stringify_providers. reflexivity.
Qed.

Lemma copyModel_kept (m : ModelInfo.t) :
  keptByJson (ModelInfo.contextWindow m) = true -> copyModel m = m.
Proof.
  destruct m as [i n p d [[z| | | | |]|] s]; simpl; intros H;
    try discriminate; reflexivity.
Qed.

Lemma copyModels_kept (ms : list ModelInfo.t) :
  forallb (fun m => keptByJson (ModelInfo.contextWindow m)) ms = true ->
  map copyModel ms = ms.
Proof.
  induction ms as [|m ms IH]; simpl; [reflexivity|].
  intros H. apply andb_true_iff in H. destruct H as [Hm Hms].
  rewrite (copyModel_kept _ Hm), (IH Hms). reflexivity.
Qed.

Lemma copyProviders_kept (ps : ProviderMap.t) :
  forallb
    (fun c => forallb (fun m => keptByJson (ModelInfo.contextWindow m))
                (ProviderConfig.models c))
    (map snd ps) = true ->
  map (fun kc => (fst kc, copyConfig (snd kc))) ps = ps.
Proof.
  induction ps as [|[k c] ps IH]; [reflexivity|].
  cbn [map forallb fst snd]. intros H.
  apply andb_true_iff in H. destruct H as [Hms Hps].
  rewrite (IH Hps). unfold copyConfig. rewrite (copyModels_kept _ Hms).
  destruct c; reflexivity.
Qed.

(** When JSON keeps every number, the copy is the data itself. *)
Lemma jsonCopy_kept (d : ModelRegistryData.t) :
  numbersKept d = true -> jsonCopy d = d.
Proof.
  destruct d as [cp cm ps]. unfold numbersKept, jsonCopy, ProviderMap.values.
  cbn [ModelRegistryData.currentProvider ModelRegistryData.currentModel
       ModelRegistryData.providers].
  intros H. rewrite (copyProviders_kept _ H). reflexivity.
Qed.

Lemma own_copy p (ps : ProviderMap.t) :
  ProviderMap.own p (map (fun kc => (fst kc, copyConfig (snd kc))) ps)
  = option_map copyConfig (ProviderMap.own p ps).
Proof.
  induction ps as [|[k c] ps IH]; simpl; [reflexivity|].
  destruct (JsString.eqb p k); [reflexivity | exact IH].
Qed.

Lemma fromJSONIn_of_data realm (d : ModelRegistryData.t) :
  fromJSONIn realm (PartialData.of_data d) = mk d realm.
Proof. destruct d; reflexivity. Qed.

(** C4 as stated fails.  A well-typed state with one [contextWindow] that is
    [Infinity]: [toJSON] writes it as [null], and the restored registry
    lists a model that the original does not list. *)
Lemma roundtrip_loses_infinity :
  exists snapshot,
    toJSON (fromJSON unboundedSnapshot) = Some snapshot /\
    getModelsForProvider ModelProvider.OPENAI
      (fromJSON (PartialData.of_data snapshot))
    <> getModelsForProvider ModelProvider.OPENAI (fromJSON unboundedSnapshot).
Proof.
  eexists. split; [vm_compute; reflexivity|]. vm_compute. discriminate.
Qed.

(** C4, as the code has it.  For every registry state [S] in which every
    property that is present holds a value (none is set to [undefined]),
    [toJSON] returns a snapshot, and [fromJSON] of it, in the realm of [S],
    has the same current provider and model as [S], the same key for every
    provider and, for every provider, the models of [S] with each
    [contextWindow] that is [NaN] or an infinity replaced by [null], and
    [-0] by [0].  When no [contextWindow] of [S] is [NaN], an infinity or
    [-0], the restored registry is [S]: the same models for every provider,
    too. *)
Theorem fromJSON_toJSON_roundtrip (S : ModelRegistry.t) :
  exists snapshot,
    toJSON S = Some snapshot /\
    getCurrentProvider (fromJSONIn (realm S) (PartialData.of_data snapshot))
    = getCurrentProvider S /\
    getCurrentModel (fromJSONIn (realm S) (PartialData.of_data snapshot))
    = getCurrentModel S /\
    (forall p,
        getProviderApiKey p
          (fromJSONIn (realm S) (PartialData.of_data snapshot))
        = getProviderApiKey p S) /\
    (forall p,
        getModelsForProvider p
          (fromJSONIn (realm S) (PartialData.of_data snapshot))
        = map copyModel (getModelsForProvider p S)) /\
    (numbersKept S = true ->
     fromJSONIn (realm S) (PartialData.of_data snapshot) = S /\
     (forall p,
         getModelsForProvider p
           (fromJSONIn (realm S) (PartialData.of_data snapshot))
         = getModelsForProvider p S) /\
     getProviders (fromJSONIn (realm S) (PartialData.of_data snapshot))
     = getProviders S).
Proof.
  exists (jsonCopy S). rewrite fromJSONIn_of_data.
  split; [apply toJSON_copy|]. split; [reflexivity|]. split; [reflexivity|].
  split; [|split].
  - intros p. unfold getProviderApiKey, ProviderMap.get; simpl.
    rewrite own_copy.
    destruct (ProviderMap.own p (ModelRegistryData.providers S)); reflexivity.
  - intros p. unfold getModelsForProvider, ProviderMap.get; simpl.
    rewrite own_copy.
    destruct (ProviderMap.own p (ModelRegistryData.providers S)); simpl;
      [reflexivity|].
    destruct (Realm.isInherited p); [reflexivity|].
    destruct (JsString.eqb p (str "apiKey")); [|reflexivity].
    destruct (Realm.protoApiKey (realm S)); reflexivity.
  - intros Hkept. rewrite (jsonCopy_kept _ Hkept).
    destruct S as [d realm]. simpl. auto.
Qed.

Lemma fromJSON_toJSON_roundtrip_witness :
  exists snapshot,
    toJSON (snd (setProviderApiKey ModelProvider.ANTHROPIC (str "test-key")
                   (new None)))
    = Some snapshot /\
    fromJSONIn Realm.pristine (PartialData.of_data snapshot)
    = snd (setProviderApiKey ModelProvider.ANTHROPIC (str "test-key")
             (new None)).
Proof.
  destruct (fromJSON_toJSON_roundtrip
              (snd (setProviderApiKey ModelProvider.ANTHROPIC (str "test-key")
                      (new None))))
    as [snapshot [Hs [_ [_ [_ [_ Hk]]]]]].
  exists snapshot. split; [exact Hs|].
  apply Hk. reflexivity.
Defined.

End Snapshots.
(** ** Dispatch *)

Section Dispatch.
Import ProviderContentGenerator.

Lemma createProviderContentGenerator_cases (config : MultiProviderConfig) :
  (provider config = ModelProvider.OPENAI /\
   createProviderContentGenerator config
   = Returns (mk OpenAIContentGenerator config))
  \/ (provider config = ModelProvider.ANTHROPIC /\
      createProviderContentGenerator config
      = Returns (mk AnthropicContentGenerator config))
  \/ (provider config <> ModelProvider.OPENAI /\
      provider config <> ModelProvider.ANTHROPIC /\
      createProviderContentGenerator config
      = Throws (mkError (str "Unsupported provider: " ++ provider config))).
Proof.
  unfold createProviderContentGenerator.
  destruct (JsString.eqb (provider config) ModelProvider.OPENAI) eqn:Eo.
  - left. apply jsstring_eqb_eq in Eo. auto.
  - apply jsstring_eqb_neq in Eo.
    destruct (JsString.eqb (provider config) ModelProvider.ANTHROPIC) eqn:Ea.
    + right; left. apply jsstring_eqb_eq in Ea. auto.
    + right; right. apply jsstring_eqb_neq in Ea. auto.
Qed.

(** C7. The factory returns an OpenAI generator when the selection's
    provider is OPENAI and an Anthropic generator when it is ANTHROPIC.  For
    every other provider value the call itself throws an
    unsupported-provider error: no generator is returned, so no capability
    method can have been invoked. *)
Theorem createProviderContentGenerator_dispatch
    (selection : MultiProviderConfig) :
  (provider selection = ModelProvider.OPENAI ->
   createProviderContentGenerator selection
   = Returns (mk OpenAIContentGenerator selection)) /\
  (provider selection = ModelProvider.ANTHROPIC ->
   createProviderContentGenerator selection
   = Returns (mk AnthropicContentGenerator selection)) /\
  (provider selection <> ModelProvider.OPENAI ->
   provider selection <> ModelProvider.ANTHROPIC ->
   createProviderContentGenerator selection
   = Throws (mkError (str "Unsupported provider: " ++ provider selection)) /\
   forall g, createProviderContentGenerator selection <> Returns g).
Proof.
  destruct (createProviderContentGenerator_cases selection)
    as [[Hp ->] | [[Hp ->] | [Ho [Ha ->]]]].
  - split; [reflexivity|]. split.
    + intros Ha. rewrite Ha in Hp. discriminate.
    + intros Ho. contradiction.
  - split; [|split].
    + intros Ho. rewrite Ho in Hp. discriminate.
    + reflexivity.
    + intros _ Ha. contradiction.
  - split; [|split]; try contradiction.
    intros _ _. split; [reflexivity | discriminate].
Qed.

Lemma createProviderContentGenerator_dispatch_witness :
  createProviderContentGenerator
    (mkConfig ModelProvider.OPENAI (str "gpt-4o") None None None)
  = Returns (mk OpenAIContentGenerator
               (mkConfig ModelProvider.OPENAI (str "gpt-4o") None None None))
  /\
  createProviderContentGenerator
    (mkConfig ModelProvider.ANTHROPIC (str "claude-3-opus-20240229")
       (Some (str "key")) None None)
  = Returns (mk AnthropicContentGenerator
               (mkConfig ModelProvider.ANTHROPIC
                  (str "claude-3-opus-20240229") (Some (str "key")) None None))
  /\
  createProviderContentGenerator
    (mkConfig ModelProvider.GEMINI (str "gemini-2.5-pro") None None None)
  = Throws (mkError (str "Unsupported provider: gemini")).
Proof.
  split; [|split].
  - apply (proj1 (createProviderContentGenerator_dispatch
                    (mkConfig ModelProvider.OPENAI (str "gpt-4o")
                       None None None))).
    reflexivity.
  - apply (proj1 (proj2 (createProviderContentGenerator_dispatch
                           (mkConfig ModelProvider.ANTHROPIC
                              (str "claude-3-opus-20240229")
                              (Some (str "key")) None None)))).
    reflexivity.
  - apply (proj2 (proj2 (createProviderContentGenerator_dispatch
                           (mkConfig ModelProvider.GEMINI
                              (str "gemini-2.5-pro") None None None)))).
    + vm_compute. discriminate.
    + vm_compute. discriminate.
Defined.

End Dispatch.

(** ** Stub generators *)

Section StubPolicy.
Import ProviderContentGenerator Spec.

Variables GenerateContentParameters GenerateContentResponse : Type.
Variables CountTokensParameters CountTokensResponse : Type.
Variables EmbedContentParameters EmbedContentResponse : Type.
Variable AsyncGenerator : Type -> Type.

Local Abbreviation rejects :=
  (rejectsNaming GenerateContentParameters GenerateContentResponse
     CountTokensParameters CountTokensResponse
     EmbedContentParameters EmbedContentResponse AsyncGenerator).

(** C8. The factory constructs a generator for OPENAI and for ANTHROPIC,
    and each of the four capability methods of either stub class rejects
    every request with one message that names the provider, says it is not
    yet implemented and recommends the Gemini provider. *)
Theorem stub_generators_not_implemented :
  (forall config, provider config = ModelProvider.OPENAI ->
     exists g, createProviderContentGenerator config = Returns g /\
               class g = OpenAIContentGenerator) /\
  (forall config, provider config = ModelProvider.ANTHROPIC ->
     exists g, createProviderContentGenerator config = Returns g /\
               class g = AnthropicContentGenerator) /\
  (forall g, class g = OpenAIContentGenerator -> rejects g (str "OpenAI")) /\
  (forall g, class g = AnthropicContentGenerator ->
     rejects g (str "Anthropic")).
Proof.
  split; [|split; [|split]].
  - intros config Hp.
    destruct (createProviderContentGenerator_cases config)
      as [[_ ->] | [[Ha _] | [Ho _]]]; [eauto | | congruence].
    rewrite Hp in Ha. discriminate.
  - intros config Hp.
    destruct (createProviderContentGenerator_cases config)
      as [[Ho _] | [[_ ->] | [_ [Ha _]]]]; [| eauto | congruence].
    rewrite Hp in Ho. discriminate.
  - intros g Hc.
    exists (str "OpenAI provider is not yet implemented. Please use Gemini provider for now.").
    unfold generateContent, generateContentStream, countTokens, embedContent.
    rewrite Hc. repeat split.
  - intros g Hc.
    exists (str "Anthropic provider is not yet implemented. Please use Gemini provider for now.").
    unfold generateContent, generateContentStream, countTokens, embedContent.
    rewrite Hc. repeat split.
Qed.

End StubPolicy.

(** ** Instances on concrete registries *)

Section Instances.
Import ModelRegistry Spec ProviderContentGenerator.

Lemma hasValidApiKey_blank_policy_witness :
  hasValidApiKey ModelProvider.OPENAI (new None) = false /\
  hasValidApiKey ModelProvider.OPENAI
    (snd (setProviderApiKey ModelProvider.OPENAI (str "   ") (new None)))
  = false /\
  hasValidApiKey ModelProvider.OPENAI
    (snd (setProviderApiKey ModelProvider.OPENAI (str " test-key ") (new None)))
  = true.
Proof.
  split; [|split].
  - apply (proj1 (proj2 (hasValidApiKey_blank_policy (new None)
                           ModelProvider.OPENAI))).
    reflexivity.
  - apply (proj1 (proj2 (proj2 (hasValidApiKey_blank_policy
             (snd (setProviderApiKey ModelProvider.OPENAI (str "   ")
                     (new None)))
             ModelProvider.OPENAI))) (str "   ")).
    + reflexivity.
    + reflexivity.
  - apply (proj2 (proj2 (proj2 (hasValidApiKey_blank_policy
             (snd (setProviderApiKey ModelProvider.OPENAI (str " test-key ")
                     (new None)))
             ModelProvider.OPENAI))) (str " test-key ")).
    + reflexivity.
    + reflexivity.
Defined.


Lemma stub_generators_not_implemented_witness :
  (exists g,
      createProviderContentGenerator
        (mkConfig ModelProvider.OPENAI (str "gpt-4o") None None None)
      = Returns g /\ class g = OpenAIContentGenerator) /\
  rejectsNaming unit unit unit unit unit unit list
    (mk OpenAIContentGenerator
       (mkConfig ModelProvider.OPENAI (str "gpt-4o") None None None))
    (str "OpenAI") /\
  rejectsNaming unit unit unit unit unit unit list
    (mk AnthropicContentGenerator
       (mkConfig ModelProvider.ANTHROPIC (str "claude-3-opus-20240229")
          None None None))
    (str "Anthropic").
Proof.
  pose proof (stub_generators_not_implemented
                unit unit unit unit unit unit list) as [Ho [_ [Hro Hra]]].
  split; [|split].
  - apply Ho. reflexivity.
  - apply Hro. reflexivity.
  - apply Hra. reflexivity.
Defined.

End Instances.

(** The messages spell the provider's display name: the enum value
    ["openai"] itself does not occur in the OpenAI stub's message. *)
Remark stub_message_spelling :
  JsString.includes (str "openai")
    (str "OpenAI provider is not yet implemented. Please use Gemini provider for now.")
  = false /\
  JsString.includes (str "OpenAI")
    (str "OpenAI provider is not yet implemented. Please use Gemini provider for now.")
  = true.
Proof. split; reflexivity. Qed.
(* ================================================================= *)
(** * Further properties *)

(** ** Splitting at blanks and joining with spaces *)

Section SplitFacts.
Import Words.

Lemma splitAux_not_nil b (s : jsstring) : JsString.splitAux b s <> [].
Proof.
  revert b. induction s as [|c s IH]; intros b; simpl; [discriminate|].
  destruct (JsString.isWhiteSpace c).
  - destruct b; [apply IH | discriminate].
  - destruct (JsString.splitAux false s); discriminate.
Qed.

Lemma splitAux_blankFree b (s : jsstring) :
  forallb blankFree (JsString.splitAux b s) = true.
Proof.
  revert b. induction s as [|c s IH]; intros b; simpl; [reflexivity|].
  destruct (JsString.isWhiteSpace c) eqn:E.
  - destruct b; [apply IH | simpl; apply IH].
  - specialize (IH false).
    destruct (JsString.splitAux false s) as [|piece pieces]; simpl in *.
    + rewrite E. reflexivity.
    + rewrite E. exact IH.
Qed.

(** A character that is not a blank starts a piece whatever came before. *)
Lemma splitAux_word_start b c (s : jsstring) :
  JsString.isWhiteSpace c = false ->
  JsString.splitAux b (c :: s) = prepend [c] (JsString.splitAux false s).
Proof. intros E. simpl. rewrite E. reflexivity. Qed.

Lemma endsClean_cons c (s : jsstring) :
  s <> [] -> endsClean (c :: s) = endsClean s.
Proof. destruct s; [congruence | reflexivity]. Qed.

Lemma endsClean_snoc (s : jsstring) c :
  endsClean (s ++ [c]) = negb (JsString.isWhiteSpace c).
Proof.
  induction s as [|d s IH]; [reflexivity|].
  change ((d :: s) ++ [c]) with (d :: (s ++ [c])).
  rewrite endsClean_cons; [exact IH | destruct s; discriminate].
Qed.

(** In a string that ends with a character that is not a blank, only the
    first piece can be empty, and only when the string starts with a
    blank. *)
Lemma splitAux_pieces_nonempty (s : jsstring) :
  endsClean s = true ->
  forallb isWord (JsString.splitAux true s) = true /\
  forallb isWord (tl (JsString.splitAux false s)) = true.
Proof.
  induction s as [|c s IH]; [discriminate|].
  intros Hend.
  assert (Htail : s = [] \/ endsClean s = true).
  { destruct s as [|d s]; [left; reflexivity | right; exact Hend]. }
  assert (Hword : JsString.isWhiteSpace c = false ->
                  forallb isWord (tl (JsString.splitAux false s)) = true ->
                  forallb isWord (JsString.splitAux true (c :: s)) = true).
  { intros E Ht. rewrite (@splitAux_word_start true c s E).
    pose proof (splitAux_blankFree false s) as Hb.
    destruct (JsString.splitAux false s) as [|piece pieces]; simpl in *.
    - rewrite E. reflexivity.
    - rewrite E. apply andb_true_iff in Hb. destruct Hb as [Hb _].
      rewrite Hb, Ht. reflexivity. }
  destruct (JsString.isWhiteSpace c) eqn:E.
  - destruct Htail as [-> | Hs]; [simpl in Hend; rewrite E in Hend; discriminate|].
    destruct (IH Hs) as [IH1 _]. simpl. rewrite E. simpl. auto.
  - assert (Ht : forallb isWord (tl (JsString.splitAux false s)) = true).
    { destruct Htail as [-> | Hs]; [reflexivity | apply (IH Hs)]. }
    split; [apply Hword; auto|].
    rewrite (@splitAux_word_start false c s E).
    destruct (JsString.splitAux false s); [reflexivity | exact Ht].
Qed.

Lemma trimStart_blank_prefix (s : jsstring) :
  exists blanks,
    s = blanks ++ JsString.trimStart s /\
    forallb JsString.isWhiteSpace blanks = true.
Proof.
  induction s as [|c s [blanks [Hs Hb]]]; simpl.
  - exists []. auto.
  - destruct (JsString.isWhiteSpace c) eqn:E.
    + exists (c :: blanks). simpl. rewrite E, Hb. split; [congruence | reflexivity].
    + exists []. auto.
Qed.

(** What [trim] returns is empty or starts and ends with characters that
    are not blanks. *)
Lemma trim_clean_ends (s : jsstring) :
  JsString.trim s = [] \/
  (exists c rest, JsString.trim s = c :: rest /\
                  JsString.isWhiteSpace c = false) /\
  endsClean (JsString.trim s) = true.
Proof.
  unfold JsString.trim, JsString.trimEnd.
  set (u := JsString.trimStart s).
  destruct (JsString.trimStart (rev u)) as [|c y] eqn:Ey; [left; reflexivity|].
  right. pose proof (@trimStart_head _ _ _ Ey) as Hc.
  split.
  - destruct (trimStart_blank_prefix (rev u)) as [blanks [Hu Hb]].
    rewrite Ey in Hu. apply (f_equal (@rev N)) in Hu.
    rewrite rev_involutive, rev_app_distr in Hu.
    destruct (rev (c :: y)) as [|d rest] eqn:Er.
    { apply (f_equal (@List.length N)) in Er. rewrite length_rev in Er.
      discriminate. }
    exists d, rest. split; [reflexivity|].
    simpl in Hu. unfold u in Hu.
    apply (@trimStart_head s d (rest ++ rev blanks)).
    rewrite Hu. reflexivity.
  - simpl. rewrite endsClean_snoc, Hc. reflexivity.
Qed.

Lemma prepend_split (piece s : jsstring) :
  blankFree piece = true ->
  JsString.splitAux false (piece ++ s)
  = prepend piece (JsString.splitAux false s).
Proof.
  intros Hp. induction piece as [|c piece IH]; simpl in *.
  - pose proof (@splitAux_not_nil false s).
    destruct (JsString.splitAux false s); [congruence | reflexivity].
  - apply andb_true_iff in Hp. destruct Hp as [Hc Hp].
    apply negb_true_iff in Hc. rewrite Hc, (IH Hp).
    pose proof (@splitAux_not_nil false s).
    destruct (JsString.splitAux false s); [congruence | reflexivity].
Qed.

Lemma join_words_split (words : list jsstring) :
  words <> [] ->
  forallb isWord words = true ->
  JsString.splitAux false (JsString.join (str " ") words) = words /\
  JsString.splitAux true (JsString.join (str " ") words) = words.
Proof.
  induction words as [|w words IH]; [congruence|].
  intros _ Hw. simpl in Hw. apply andb_true_iff in Hw. destruct Hw as [Hw Hws].
  destruct w as [|c w]; [discriminate|]. simpl in Hw.
  apply andb_true_iff in Hw. destruct Hw as [Hc Hw].
  apply negb_true_iff in Hc.
  assert (Hb : blankFree (c :: w) = true)
    by (simpl; rewrite Hc, Hw; reflexivity).
  destruct words as [|w' words].
  - assert (H : JsString.splitAux false (c :: w) = [c :: w]).
    { rewrite <- (app_nil_r (c :: w)) at 1. rewrite (@prepend_split (c :: w) [] Hb).
      simpl. rewrite app_nil_r. reflexivity. }
    simpl JsString.join. split; [exact H|].
    rewrite (@splitAux_word_start true c w Hc),
      <- (@splitAux_word_start false c w Hc).
    exact H.
  - destruct IH as [_ IH]; [discriminate | exact Hws |].
    assert (H : JsString.splitAux false
                  (JsString.join (str " ") ((c :: w) :: w' :: words))
                = (c :: w) :: w' :: words).
    { change (JsString.join (str " ") ((c :: w) :: w' :: words))
        with ((c :: w) ++ 32%N :: JsString.join (str " ") (w' :: words)).
      rewrite (@prepend_split (c :: w) _ Hb).
      change (JsString.splitAux false
                (32%N :: JsString.join (str " ") (w' :: words)))
        with ([] :: JsString.splitAux true
                      (JsString.join (str " ") (w' :: words))).
      rewrite IH. simpl. rewrite app_nil_r. reflexivity. }
    split; [exact H|].
    change (JsString.join (str " ") ((c :: w) :: w' :: words))
      with (c :: (w ++ 32%N :: JsString.join (str " ") (w' :: words)))
      in H |- *.
    rewrite (@splitAux_word_start true c _ Hc),
      <- (@splitAux_word_start false c _ Hc).
    exact H.
Qed.

End SplitFacts.

Section Tokens.
Import Words Spec.

Lemma split_trimmed_words (s : jsstring) :
  JsString.trim s <> [] ->
  forallb isWord (JsString.splitWhiteSpace (JsString.trim s)) = true.
Proof.
  intros Hne. destruct (trim_clean_ends s) as [H | [[c [rest [Ht Hc]]] Hend]];
    [congruence|].
  unfold JsString.splitWhiteSpace.
  pose proof (splitAux_blankFree false (JsString.trim s)) as Hb.
  destruct (splitAux_pieces_nonempty _ Hend) as [_ Htl].
  rewrite Ht in *. rewrite (@splitAux_word_start false c rest Hc) in *.
  destruct (JsString.splitAux false rest) as [|piece pieces]; simpl in *.
  - rewrite Hc. reflexivity.
  - rewrite Hc in *. simpl in *. apply andb_true_iff in Hb.
    destruct Hb as [Hb _]. rewrite Hb, Htl. reflexivity.
Qed.

(** X1. The pieces of [args.trim().split(/\s+/)]: for blank [args] (empty or
    blanks only) there is exactly one piece, the empty string; otherwise
    there is at least one piece and every piece is a word, that is, not empty
    and without a blank. *)
Theorem split_trim_pieces (args : jsstring) :
  (isBlank args = true /\
   JsString.splitWhiteSpace (JsString.trim args) = [[]])
  \/
  (isBlank args = false /\
   JsString.splitWhiteSpace (JsString.trim args) <> [] /\
   forallb isWord (JsString.splitWhiteSpace (JsString.trim args)) = true).
Proof.
  unfold isBlank. destruct (forallb JsString.isWhiteSpace args) eqn:E.
  - left. apply trim_nil in E. rewrite E. auto.
  - right. split; [reflexivity|].
    split; [apply splitAux_not_nil|].
    apply split_trimmed_words. intros H. apply trim_nil in H. congruence.
Qed.

(** X2. Joining words with single spaces and splitting the result at
    blanks gives the words back: the key that [parts.slice(2).join(' ')]
    builds has exactly the words that were typed. *)
Theorem split_join_words (words : list jsstring) :
  words <> [] ->
  forallb isWord words = true ->
  JsString.splitWhiteSpace (JsString.join (str " ") words) = words.
Proof.
  intros Hne Hw. apply (proj1 (join_words_split Hne Hw)).
Qed.

Lemma split_join_words_witness :
  JsString.splitWhiteSpace
    (JsString.join (str " ") [str "sk-ant-key"; str "with"; str "spaces"])
  = [str "sk-ant-key"; str "with"; str "spaces"].
Proof.
  apply split_join_words.
  - discriminate.
  - reflexivity.
Defined.

End Tokens.

(** ** More on the provider map *)

Section ProviderMapMore.

Lemma get_In p (m : ProviderMap.t) c :
  ProviderMap.own p m = Some c -> In (p, c) m.
Proof.
  induction m as [|[q d] m IH]; simpl; [discriminate|].
  destruct (JsString.eqb p q) eqn:E.
  - apply jsstring_eqb_eq in E. intros H. injection H as ->. subst q. auto.
  - auto.
Qed.

Lemma update_In f p (m : ProviderMap.t) k c :
  In (k, c) (ProviderMap.update p f m) ->
  exists c0, In (k, c0) m /\ (c = c0 \/ c = f c0).
Proof.
  induction m as [|[q d] m IH]; simpl; [tauto|].
  destruct (JsString.eqb p q); simpl.
  - intros [H | H]; [injection H as <- <-; eauto | eauto].
  - intros [H | H]; [injection H as <- <-; eauto|].
    destruct (IH H) as [c0 [Hin Hc]]. eauto.
Qed.

Lemma update_ext f g p (m : ProviderMap.t) :
  (forall c, f c = g c) -> ProviderMap.update p f m = ProviderMap.update p g m.
Proof.
  intros Hfg. induction m as [|[q d] m IH]; simpl; [reflexivity|].
  destruct (JsString.eqb p q); [rewrite Hfg | rewrite IH]; reflexivity.
Qed.

Lemma update_twice f g p (m : ProviderMap.t) :
  ProviderMap.update p f (ProviderMap.update p g m)
  = ProviderMap.update p (fun c => f (g c)) m.
Proof.
  induction m as [|[q d] m IH]; simpl; [reflexivity|].
  destruct (JsString.eqb p q) eqn:E; simpl; rewrite E;
    [reflexivity | rewrite IH; reflexivity].
Qed.

Lemma update_swap f g p q (m : ProviderMap.t) :
  p <> q ->
  ProviderMap.update p f (ProviderMap.update q g m)
  = ProviderMap.update q g (ProviderMap.update p f m).
Proof.
  intros Hne. induction m as [|[k d] m IH]; simpl; [reflexivity|].
  destruct (JsString.eqb q k) eqn:Eq, (JsString.eqb p k) eqn:Ep; simpl;
    rewrite ?Eq, ?Ep; try reflexivity.
  - apply jsstring_eqb_eq in Eq, Ep. congruence.
  - rewrite IH. reflexivity.
Qed.

Lemma update_id p (m : ProviderMap.t) :
  ProviderMap.update p (fun c => c) m = m.
Proof.
  induction m as [|[q d] m IH]; simpl; [reflexivity|].
  destruct (JsString.eqb p q); [reflexivity | rewrite IH; reflexivity].
Qed.

Lemma get_config_own p (m : ProviderMap.t) (realm : Realm.t) c :
  ProviderMap.get p m realm = Some (ProviderMap.Config c) ->
  ProviderMap.own p m = Some c.
Proof.
  unfold ProviderMap.get. destruct (ProviderMap.own p m) as [c'|].
  - intros H. injection H as ->. reflexivity.
  - destruct (Realm.isInherited p); [discriminate|].
    destruct (JsString.eqb p (str "apiKey")); [|discriminate].
    destruct (Realm.protoApiKey realm); discriminate.
Qed.

End ProviderMapMore.

(** ** Reading the registry *)

Section Reading.
Import ModelRegistry Spec.

Lemma setProviderApiKey_snd (r : ModelRegistry.t) p k :
  snd (setProviderApiKey p k r)
  = mk (ModelRegistryData.mk (ModelRegistryData.currentProvider r)
          (ModelRegistryData.currentModel r)
          (ProviderMap.update p (ProviderConfig.set_apiKey k)
             (ModelRegistryData.providers r)))
       (match ProviderMap.get p (ModelRegistryData.providers r) (realm r)
        with
        | Some (ProviderMap.Inherited name) => Realm.write name k (realm r)
        | _ => realm r
        end).
Proof.
  destruct (get_cases p (ModelRegistryData.providers r) (realm r))
    as [[c [Hp Hg]]
       | [[Hp [Hi Hg]] | [[s [Hp [He [Hs Hg]]]] | [Hp [Hi [Hs Hg]]]]]];
    rewrite Hg.
  - rewrite (@setProviderApiKey_known r p k c Hp). reflexivity.
  - rewrite (@setProviderApiKey_inherited r p k Hp Hi),
      (update_unknown _ _ _ Hp).
    destruct r as [[cp cm ps] rm]; reflexivity.
  - subst p.
    rewrite (@setProviderApiKey_string r k s Hp Hs), (update_unknown _ _ _ Hp).
    destruct r as [[cp cm ps] rm]; reflexivity.
  - rewrite (@setProviderApiKey_unknown r p k Hp Hi Hs),
      (update_unknown _ _ _ Hp).
    destruct r as [[cp cm ps] rm]; reflexivity.
Qed.

Lemma setProviderApiKey_fst (r : ModelRegistry.t) p k :
  fst (setProviderApiKey p k r)
  = match ProviderMap.get p (ModelRegistryData.providers r) (realm r) with
    | Some (ProviderMap.Primitive s) =>
        if isEmpty s then Js.Returns false else Js.ThrowsTypeError
    | Some _ => Js.Returns true
    | None => Js.Returns false
    end.
Proof.
  unfold setProviderApiKey.
  destruct (ProviderMap.get p (ModelRegistryData.providers r) (realm r))
    as [[c|n|s]|]; try reflexivity.
  destruct (isEmpty s); reflexivity.
Qed.

Lemma getCurrentModelInfo_some (r : ModelRegistry.t) m :
  getCurrentModelInfo r = Js.Returns (Some m) ->
  ModelInfo.id m = getCurrentModel r /\
  In m (getModelsForProvider (getCurrentProvider r) r).
Proof.
  unfold getCurrentModelInfo, getModelsForProvider, getCurrentProvider,
    getCurrentModel.
  destruct (ProviderMap.get _ _ _) as [[c|n|s]|]; try discriminate.
  intros H. injection H as H. apply find_some in H. destruct H as [Hin Hid].
  apply jsstring_eqb_eq in Hid. auto.
Qed.

Lemma getCurrentModelInfo_defined (r : ModelRegistry.t) :
  (exists m, getCurrentModelInfo r = Js.Returns (Some m)) <-> selectionValid r.
Proof.
  unfold getCurrentModelInfo, selectionValid, offers, getCurrentProvider,
    getCurrentModel.
  destruct (get_cases (ModelRegistryData.currentProvider r)
              (ModelRegistryData.providers r) (realm r))
    as [[c [Hp ->]]
       | [[Hp [Hi ->]] | [[s [Hp [He [Hs ->]]]] | [Hp [Hi [Hs ->]]]]]].
  - destruct (find _ _) as [m|] eqn:Hf.
    + split; [|eauto]. intros _. exists c. split; [exact Hp|].
      eapply find_hasId_some; eassumption.
    + split; [intros [m H]; discriminate|].
      intros [c' [Hc Hin]]. rewrite Hp in Hc. injection Hc as <-.
      exfalso. exact (find_hasId_none _ _ Hf Hin).
  - split; [intros [m H]; discriminate | intros [c [H _]]; congruence].
  - split; [intros [m H]; discriminate | intros [c [H _]]; congruence].
  - split; [intros [m H]; discriminate | intros [c [H _]]; congruence].
Qed.

Lemma getCurrentModelInfo_throws (r : ModelRegistry.t) :
  getCurrentModelInfo r = Js.ThrowsTypeError
  <-> inheritedValue (getCurrentProvider r) r.
Proof.
  unfold getCurrentModelInfo, inheritedValue, inheritedOnly, inheritedString,
    knownProvider, getCurrentProvider.
  destruct (get_cases (ModelRegistryData.currentProvider r)
              (ModelRegistryData.providers r) (realm r))
    as [[c [Hp ->]]
       | [[Hp [Hi ->]] | [[s [Hp [He [Hs ->]]]] | [Hp [Hi [Hs ->]]]]]].
  - split; [discriminate|].
    intros [[H _] | [k [H _]]]; apply get_unknown in H; congruence.
  - split; [|reflexivity]. intros _. left.
    split; [apply get_unknown; exact Hp | exact Hi].
  - split; [|reflexivity]. intros _. right. exists s.
    split; [apply get_unknown; exact Hp | auto].
  - split; [discriminate|].
    intros [[_ H] | [k [_ [He Hk]]]]; [congruence|].
    rewrite (Hs He) in Hk. discriminate.
Qed.

(** A registry made by [new] or [fromJSON], before any call, inherits
    built-in names only. *)
Lemma inheritedValue_pristine (r : ModelRegistry.t) p :
  realm r = Realm.pristine -> (inheritedValue p r <-> inheritedOnly p r).
Proof.
  intros Hr. unfold inheritedValue, inheritedString. rewrite Hr.
  split; [|auto]. intros [H | [k [_ [_ H]]]]; [exact H | discriminate H].
Qed.

(** X3. [getCurrentModelInfo()] ends in one of three ways.  It returns a
    model exactly when the current model is listed under the current
    provider; the model has the current model's id and is one that
    [getModelsForProvider] lists for the current provider.  It throws a
    [TypeError] exactly when the current provider is not a key of the
    providers map but names something the map inherits from
    [Object.prototype]: one of its built-in names, or ['apiKey'] once a key
    was stored on [Object.prototype].  In every other case it returns
    [undefined]. *)
Theorem getCurrentModelInfo_selection (r : ModelRegistry.t) :
  ((exists m, getCurrentModelInfo r = Js.Returns (Some m))
   <-> selectionValid r) /\
  (getCurrentModelInfo r = Js.ThrowsTypeError
   <-> inheritedValue (getCurrentProvider r) r) /\
  (getCurrentModelInfo r = Js.Returns None
   <-> ~ selectionValid r /\ ~ inheritedValue (getCurrentProvider r) r) /\
  (forall m, getCurrentModelInfo r = Js.Returns (Some m) ->
     ModelInfo.id m = getCurrentModel r /\
     In m (getModelsForProvider (getCurrentProvider r) r)).
Proof.
  split; [apply getCurrentModelInfo_defined|].
  split; [apply getCurrentModelInfo_throws|].
  split; [|apply getCurrentModelInfo_some].
  rewrite <- getCurrentModelInfo_defined, <- getCurrentModelInfo_throws.
  destruct (getCurrentModelInfo r) as [[m|]|].
  - split; [discriminate | intros [H _]; exfalso; apply H; eauto].
  - split; [|reflexivity]. intros _.
    split; [intros [m H]; discriminate | discriminate].
  - split; [discriminate | intros [_ H]; exfalso; apply H; reflexivity].
Qed.

Lemma getCurrentModelInfo_selection_witness :
  ModelInfo.id (ModelInfo.mk (str "gemini-2.5-pro") (str "Gemini 2.5 Pro")
                  ModelProvider.GEMINI
                  (Some (str "Google's most capable AI model"))
                  (Some (JsNumber.Finite 1000000)) (Some true))
  = getCurrentModel (new None) /\
  getCurrentModelInfo
    (fromJSON (selectionOnly (str "toString") (str "gpt-4o")))
  = Js.ThrowsTypeError.
Proof.
  split.
  - apply (proj2 (proj2 (proj2 (getCurrentModelInfo_selection (new None))))).
    reflexivity.
  - apply (proj2 (proj1 (proj2 (getCurrentModelInfo_selection
             (fromJSON (selectionOnly (str "toString") (str "gpt-4o"))))))).
    left. split; [|reflexivity].
    intros [H|[H|[H|[]]]]; vm_compute in H; discriminate H.
Defined.

Lemma setCurrentModel_success_info (r : ModelRegistry.t)
    (provider : ModelProvider.t) (modelId : jsstring) :
  fst (setCurrentModel provider modelId r) = Js.Returns true ->
  exists m,
    getCurrentModelInfo (snd (setCurrentModel provider modelId r))
    = Js.Returns (Some m) /\
    ModelInfo.id m = modelId /\
    In m (getModelsForProvider provider r).
Proof.
  intros Hok.
  destruct (setCurrentModel_cases r provider modelId)
    as [[Hv Hs] | [[_ [_ Hs]] | [_ Hs]]];
    rewrite Hs in *; try discriminate. simpl.
  set (d := mk (ModelRegistryData.mk provider modelId
                  (ModelRegistryData.providers r)) (realm r)).
  assert (Hv' : selectionValid d) by exact Hv.
  apply getCurrentModelInfo_defined in Hv'. destruct Hv' as [m Hm].
  exists m. split; [exact Hm|]. apply getCurrentModelInfo_some in Hm. exact Hm.
Qed.

(** X4. After [setCurrentModel(provider, modelId)] has returned true,
    [getCurrentModelInfo()] returns a model whose id is [modelId] and which
    is listed under [provider]. *)
Theorem setCurrentModel_then_info (r : ModelRegistry.t)
    (provider : ModelProvider.t) (modelId : jsstring) :
  fst (setCurrentModel provider modelId r) = Js.Returns true ->
  exists m,
    getCurrentModelInfo (snd (setCurrentModel provider modelId r))
    = Js.Returns (Some m) /\
    ModelInfo.id m = modelId /\
    In m (getModelsForProvider provider r).
Proof. apply setCurrentModel_success_info. Qed.

Lemma setCurrentModel_then_info_witness :
  exists m,
    getCurrentModelInfo
      (snd (setCurrentModel ModelProvider.OPENAI (str "gpt-4o") (new None)))
    = Js.Returns (Some m) /\
    ModelInfo.id m = str "gpt-4o" /\
    In m (getModelsForProvider ModelProvider.OPENAI (new None)).
Proof.
  apply (setCurrentModel_then_info (new None) ModelProvider.OPENAI
           (str "gpt-4o")).
  reflexivity.
Defined.

(** X5. Reads for a provider that is not a key of the providers map never
    fail.  [getModelsForProvider] gives the empty list.  When
    [Object.prototype] has nothing under that name either, [getProvider] and
    [getProviderApiKey] give [undefined] and [hasValidApiKey] false.  When
    the name is one of the built-in names of [Object.prototype],
    [getProvider] gives the inherited function or object, not [undefined],
    and [getProviderApiKey] gives [undefined] as long as no key was written
    onto [Object.prototype] or its functions.  When the name is ['apiKey']
    and a key was stored on [Object.prototype], [getProvider] and
    [getProviderApiKey] both give that key. *)
Theorem unknown_provider_reads (r : ModelRegistry.t)
    (provider : ModelProvider.t) :
  ~ knownProvider provider r ->
  getModelsForProvider provider r = [] /\
  (absent provider r ->
   getProvider provider r = None /\
   getProviderApiKey provider r = None /\
   hasValidApiKey provider r = false) /\
  (Realm.isInherited provider = true ->
   getProvider provider r = Some (ProviderMap.Inherited provider) /\
   (realm r = Realm.pristine ->
    getProviderApiKey provider r = None /\
    hasValidApiKey provider r = false)) /\
  (forall k, inheritedString provider r k ->
     getProvider provider r = Some (ProviderMap.Primitive k) /\
     getProviderApiKey provider r = Some k).
Proof.
  intros Hk. apply get_unknown in Hk.
  unfold getProvider, getModelsForProvider, hasValidApiKey, getProviderApiKey.
  split; [|split; [|split]].
  - destruct (get_cases provider (ModelRegistryData.providers r) (realm r))
      as [[c [Hp _]]
         | [[_ [_ ->]] | [[s [_ [_ [_ ->]]]] | [_ [_ [_ ->]]]]]];
      [congruence | reflexivity..].
  - intros [_ [Hi Hs]]. rewrite (@get_absent _ _ _ Hk Hi Hs). auto.
  - intros Hi. rewrite (@get_inherited _ _ _ Hk Hi). split; [reflexivity|].
    intros ->. auto.
  - intros k [_ [-> Hs]]. rewrite (@get_primitive _ _ _ Hk Hs). auto.
Qed.

Lemma unknown_provider_reads_witness :
  getModelsForProvider (str "toString") (new None) = [] /\
  getProvider (str "invalid") (new None) = None /\
  getProvider (str "toString") (new None)
  = Some (ProviderMap.Inherited (str "toString")) /\
  getProviderApiKey (str "apiKey")
    (snd (setProviderApiKey (str "__proto__") (str "k") (new None)))
  = Some (str "k").
Proof.
  assert (Hi : ~ knownProvider (str "invalid") (new None))
    by (intros [H|[H|[H|[]]]]; vm_compute in H; discriminate H).
  assert (Ht : ~ knownProvider (str "toString") (new None))
    by (intros [H|[H|[H|[]]]]; vm_compute in H; discriminate H).
  assert (Ha : ~ knownProvider (str "apiKey")
                 (snd (setProviderApiKey (str "__proto__") (str "k")
                         (new None))))
    by (intros [H|[H|[H|[]]]]; vm_compute in H; discriminate H).
  destruct (@unknown_provider_reads (new None) (str "invalid") Hi)
    as [_ [Hx _]].
  destruct (@unknown_provider_reads (new None) (str "toString") Ht)
    as [Hm [_ [Hb _]]].
  destruct (@unknown_provider_reads _ (str "apiKey") Ha)
    as [_ [_ [_ Hc]]].
  split; [exact Hm|].
  split; [apply Hx; split; [exact Hi | split; [reflexivity | reflexivity]]|].
  split; [apply Hb; reflexivity|].
  apply (Hc (str "k")). split; [exact Ha | split; reflexivity].
Defined.

(** X6. Every model that [getModelsForProvider] lists for some provider is
    among [getAllModels()], and every model of [getAllModels()] is listed by
    one of the configurations of [getProviders()]. *)
Theorem getAllModels_covers (r : ModelRegistry.t) (m : ModelInfo.t) :
  (forall provider,
      In m (getModelsForProvider provider r) -> In m (getAllModels r)) /\
  (In m (getAllModels r) <->
   exists c, In c (getProviders r) /\ In m (ProviderConfig.models c)).
Proof.
  assert (Hall : In m (getAllModels r) <->
                 exists c, In c (getProviders r) /\
                           In m (ProviderConfig.models c))
    by apply in_flat_map.
  split; [|exact Hall].
  intros provider. unfold getModelsForProvider.
  destruct (ProviderMap.get provider (ModelRegistryData.providers r)
              (realm r))
    as [[c|n|s]|] eqn:Hget; try (intros []).
  intros Hin. apply Hall. exists c. split; [|exact Hin].
  apply get_config_own, get_In in Hget. unfold getProviders, ProviderMap.values.
  apply (in_map snd) in Hget. exact Hget.
Qed.

Lemma getAllModels_covers_witness :
  In (ModelInfo.mk (str "gpt-4o") (str "GPT-4o") ModelProvider.OPENAI
        (Some (str "OpenAI's most advanced multimodal model"))
        (Some (JsNumber.Finite 128000)) (Some true))
     (getAllModels (new None)).
Proof.
  apply (proj1 (getAllModels_covers (new None) _) ModelProvider.OPENAI).
  left. reflexivity.
Defined.

End Reading.

(** ** What the mutators keep *)

Section Keeping.
Import ModelRegistry Spec Catalog.

Lemma perform_providers c (r : ModelRegistry.t) :
  exists f,
    (forall cfg, ProviderConfig.models (f cfg) = ProviderConfig.models cfg) /\
    exists p,
      ModelRegistryData.providers (perform c r)
      = ProviderMap.update p f (ModelRegistryData.providers r).
Proof.
  destruct c as [p m | p k]; simpl.
  - exists (fun cfg => cfg). split; [reflexivity|]. exists p.
    rewrite update_id.
    destruct (setCurrentModel_cases r p m)
      as [[_ ->] | [[_ [_ ->]] | [_ ->]]]; reflexivity.
  - exists (ProviderConfig.set_apiKey k). split; [reflexivity|]. exists p.
    rewrite setProviderApiKey_snd. reflexivity.
Qed.

Lemma update_models_for f p q (m : ProviderMap.t) :
  (forall cfg, ProviderConfig.models (f cfg) = ProviderConfig.models cfg) ->
  option_map ProviderConfig.models (ProviderMap.own q (ProviderMap.update p f m))
  = option_map ProviderConfig.models (ProviderMap.own q m).
Proof.
  intros Hf. induction m as [|[k d] m IH]; simpl; [reflexivity|].
  destruct (JsString.eqb p k) eqn:Ep; simpl.
  - destruct (JsString.eqb q k); simpl; [rewrite Hf|]; reflexivity.
  - destruct (JsString.eqb q k); [reflexivity | exact IH].
Qed.

(** What [getModelsForProvider] returns, from the own property alone. *)
Lemma getModelsForProvider_own q (r : ModelRegistry.t) :
  getModelsForProvider q r
  = match option_map ProviderConfig.models
            (ProviderMap.own q (ModelRegistryData.providers r)) with
    | Some ms => ms
    | None => []
    end.
Proof.
  unfold getModelsForProvider, ProviderMap.get.
  destruct (ProviderMap.own q (ModelRegistryData.providers r)); simpl;
    [reflexivity|].
  destruct (Realm.isInherited q); [reflexivity|].
  destruct (JsString.eqb q (str "apiKey")); [|reflexivity].
  destruct (Realm.protoApiKey (realm r)); reflexivity.
Qed.

Lemma perform_catalog c (r : ModelRegistry.t) :
  (forall p, getModelsForProvider p (perform c r) = getModelsForProvider p r) /\
  getAllModels (perform c r) = getAllModels r /\
  ProviderMap.keys (ModelRegistryData.providers (perform c r))
  = ProviderMap.keys (ModelRegistryData.providers r).
Proof.
  destruct (perform_providers c r) as [f [Hf [p Hp]]].
  split; [|split].
  - intros q. rewrite !getModelsForProvider_own, Hp.
    rewrite (@update_models_for f p q (ModelRegistryData.providers r) Hf).
    reflexivity.
  - unfold getAllModels. rewrite Hp, !flat_map_concat_map.
    rewrite (@update_values_view f _ ProviderConfig.models p _ Hf). reflexivity.
  - rewrite Hp. apply update_keys.
Qed.

(** X7. The catalog never changes: after any sequence of [setCurrentModel]
    and [setProviderApiKey] calls on any registry, [getModelsForProvider]
    lists the same models for every provider, [getAllModels()] is the same
    list and the providers map has the same keys in the same order. *)
Theorem catalog_unchanged (calls : list call) (r : ModelRegistry.t) :
  (forall p, getModelsForProvider p (run calls r) = getModelsForProvider p r) /\
  getAllModels (run calls r) = getAllModels r /\
  ProviderMap.keys (ModelRegistryData.providers (run calls r))
  = ProviderMap.keys (ModelRegistryData.providers r).
Proof.
  revert r. induction calls as [|c calls IH]; intros r; simpl; [auto|].
  destruct (IH (perform c r)) as [H1 [H2 H3]].
  destruct (perform_catalog c r) as [P1 [P2 P3]].
  split; [intros p; rewrite H1; apply P1|].
  split; congruence.
Qed.

Lemma defaults_backReferenced : backReferenced defaultProviders.
Proof.
  intros k c m Hin Hm. simpl in Hin.
  destruct Hin as [H|[H|[H|[]]]]; injection H as <- <-; simpl in Hm;
    destruct Hm as [<-|[<-|[<-|[]]]]; reflexivity.
Qed.

Lemma perform_backReferenced c (r : ModelRegistry.t) :
  backReferenced (ModelRegistryData.providers r) ->
  backReferenced (ModelRegistryData.providers (perform c r)).
Proof.
  intros Hb. destruct (perform_providers c r) as [f [Hf [p ->]]].
  intros k cfg m Hin Hm. apply update_In in Hin.
  destruct Hin as [c0 [Hin [-> | ->]]]; [eauto|].
  rewrite Hf in Hm. eauto.
Qed.

Lemma run_backReferenced cs : forall r : ModelRegistry.t,
  backReferenced (ModelRegistryData.providers r) ->
  backReferenced (ModelRegistryData.providers (run cs r)).
Proof.
  induction cs as [|c cs IH]; simpl; intros r Hb; [exact Hb|].
  apply IH, perform_backReferenced, Hb.
Qed.

(** X8. In a default-constructed registry, after any sequence of
    [setCurrentModel] and [setProviderApiKey] calls, [getCurrentModelInfo()]
    is never [undefined] and never throws: it returns a model whose id is
    [getCurrentModel()] and whose [provider] field is
    [getCurrentProvider()]. *)
Theorem current_info_consistent (calls : list call) :
  exists m,
    getCurrentModelInfo (run calls (new None)) = Js.Returns (Some m) /\
    ModelInfo.id m = getCurrentModel (run calls (new None)) /\
    ModelInfo.provider m = getCurrentProvider (run calls (new None)).
Proof.
  set (r := run calls (new None)).
  assert (Hv : selectionValid r) by apply run_valid, defaults_valid.
  assert (Hb : backReferenced (ModelRegistryData.providers r))
    by apply run_backReferenced, defaults_backReferenced.
  apply getCurrentModelInfo_defined in Hv. destruct Hv as [m Hm].
  exists m. split; [exact Hm|].
  destruct (getCurrentModelInfo_some _ Hm) as [Hid Hin].
  split; [exact Hid|].
  unfold getModelsForProvider in Hin.
  destruct (ProviderMap.get (getCurrentProvider r)
              (ModelRegistryData.providers r) (realm r))
    as [[c|n|s]|] eqn:Hget;
    try (destruct Hin).
  apply get_config_own, get_In in Hget. exact (Hb _ _ _ Hget Hin).
Qed.

Lemma get_update_kind f p q (m : ProviderMap.t) (realm : Realm.t) :
  ProviderMap.get q (ProviderMap.update p f m) realm
  = match ProviderMap.get q m realm with
    | Some (ProviderMap.Config c) =>
        Some (ProviderMap.Config (if JsString.eqb q p then f c else c))
    | other => other
    end.
Proof.
  unfold ProviderMap.get.
  destruct (JsString.eqb q p) eqn:E.
  - apply jsstring_eqb_eq in E. subst q. rewrite update_get_same.
    destruct (ProviderMap.own p m); simpl; [reflexivity|].
    destruct (Realm.isInherited p); [reflexivity|].
    destruct (JsString.eqb p (str "apiKey")); [|reflexivity].
    destruct (Realm.protoApiKey realm); reflexivity.
  - apply jsstring_eqb_neq in E. rewrite (update_get_other f m E).
    destruct (ProviderMap.own q m); simpl; [reflexivity|].
    destruct (Realm.isInherited q); [reflexivity|].
    destruct (JsString.eqb q (str "apiKey")); [|reflexivity].
    destruct (Realm.protoApiKey realm); reflexivity.
Qed.

(** X9. Storing a key twice for one provider is storing the second key: the
    registry after [setProviderApiKey(p, k1)] then [setProviderApiKey(p, k2)]
    is the registry after [setProviderApiKey(p, k2)] alone. *)
Theorem setProviderApiKey_overwrites (r : ModelRegistry.t)
    (p : ModelProvider.t) (k1 k2 : jsstring) :
  snd (setProviderApiKey p k2 (snd (setProviderApiKey p k1 r)))
  = snd (setProviderApiKey p k2 r) /\
  fst (setProviderApiKey p k2 (snd (setProviderApiKey p k1 r)))
  = fst (setProviderApiKey p k2 r).
Proof.
  destruct (setProviderApiKey_cases r p k1)
    as [[c [Hp H1]] | [[Hp [Hi H1]] | [Hp [Hi [o [_ H1]]]]]]; rewrite H1;
    cbn [snd]; [| |auto].
  - rewrite (@setProviderApiKey_known r p k2 c Hp).
    match goal with
    | |- context [setProviderApiKey p k2 ?r1] =>
        assert (Hp' : ProviderMap.own p (ModelRegistryData.providers r1)
                      = Some (ProviderConfig.set_apiKey k1 c))
          by (simpl; rewrite update_get_same, Hp; reflexivity);
        rewrite (@setProviderApiKey_known r1 p k2 _ Hp')
    end.
    cbn [fst snd data realm ModelRegistryData.currentProvider
         ModelRegistryData.currentModel ModelRegistryData.providers].
    rewrite update_twice.
    rewrite (update_ext (fun c => ProviderConfig.set_apiKey k2
                                    (ProviderConfig.set_apiKey k1 c))
               (ProviderConfig.set_apiKey k2) p _ (fun c => eq_refl)).
    auto.
  - rewrite (@setProviderApiKey_inherited r p k2 Hp Hi).
    match goal with
    | |- context [setProviderApiKey p k2 ?r1] =>
        rewrite (@setProviderApiKey_inherited r1 p k2 Hp Hi)
    end.
    cbn [fst snd data realm]. rewrite write_twice. auto.
Qed.

(** X10. Keys of different providers of the default catalog do not
    interfere.  In a registry constructed without a [providers] property,
    after any calls, for two different providers [p] and [q] of the map:
    storing a key for [p] and one for [q] gives the same registry in either
    order, and storing the key of [p] leaves what [getProviderApiKey(q)] and
    [hasValidApiKey(q)] return unchanged. *)
Theorem setProviderApiKey_independent (init : option PartialData.t)
    (calls : list call) (p q : ModelProvider.t) (kp kq : jsstring) :
  suppliedProviders init = None ->
  knownProvider p (run calls (new init)) ->
  knownProvider q (run calls (new init)) ->
  p <> q ->
  snd (setProviderApiKey p kp
         (snd (setProviderApiKey q kq (run calls (new init)))))
  = snd (setProviderApiKey q kq
           (snd (setProviderApiKey p kp (run calls (new init))))) /\
  getProviderApiKey q (snd (setProviderApiKey p kp (run calls (new init))))
  = getProviderApiKey q (run calls (new init)) /\
  hasValidApiKey q (snd (setProviderApiKey p kp (run calls (new init))))
  = hasValidApiKey q (run calls (new init)).
Proof.
  intros _ Hp Hq Hne. set (r := run calls (new init)) in *.
  apply get_known in Hp, Hq. destruct Hp as [cp Hp], Hq as [cq Hq].
  assert (Hk : getProviderApiKey q (snd (setProviderApiKey p kp r))
               = getProviderApiKey q r).
  { unfold getProviderApiKey.
    rewrite (@setProviderApiKey_known r p kp _ Hp); simpl.
    rewrite get_update_kind, (@get_config _ _ _ _ Hq).
    assert (E : JsString.eqb q p = false)
      by (apply jsstring_eqb_neq; congruence).
    rewrite E. reflexivity. }
  split; [|split; [exact Hk|]].
  - rewrite (@setProviderApiKey_known r q kq _ Hq),
      (@setProviderApiKey_known r p kp _ Hp); simpl.
    assert (Hp' : ProviderMap.own p
                    (ProviderMap.update q (ProviderConfig.set_apiKey kq)
                       (ModelRegistryData.providers r)) = Some cp)
      by (rewrite update_get_other by exact Hne; exact Hp).
    assert (Hq' : ProviderMap.own q
                    (ProviderMap.update p (ProviderConfig.set_apiKey kp)
                       (ModelRegistryData.providers r)) = Some cq)
      by (rewrite update_get_other by congruence; exact Hq).
    unfold setProviderApiKey; simpl.
    rewrite (@get_config _ _ _ _ Hp'), (@get_config _ _ _ _ Hq'); simpl.
    rewrite (update_swap _ _ _ Hne). reflexivity.
  - unfold hasValidApiKey. rewrite Hk. reflexivity.
Qed.

Lemma setProviderApiKey_independent_witness :
  snd (setProviderApiKey ModelProvider.OPENAI (str "sk-o")
         (snd (setProviderApiKey ModelProvider.ANTHROPIC (str "sk-a")
                 (run [SetProviderApiKey (str "__proto__") (str "k")]
                    (new None)))))
  = snd (setProviderApiKey ModelProvider.ANTHROPIC (str "sk-a")
           (snd (setProviderApiKey ModelProvider.OPENAI (str "sk-o")
                   (run [SetProviderApiKey (str "__proto__") (str "k")]
                      (new None))))).
Proof.
  apply (@setProviderApiKey_independent None
           [SetProviderApiKey (str "__proto__") (str "k")]
           ModelProvider.OPENAI ModelProvider.ANTHROPIC
           (str "sk-o") (str "sk-a")).
  - reflexivity.
  - right; left; reflexivity.
  - right; right; left; reflexivity.
  - vm_compute. discriminate.
Defined.

Lemma protoApiKey_write q key (realm : Realm.t) :
  q <> str "__proto__" ->
  Realm.protoApiKey (Realm.write q key realm) = Realm.protoApiKey realm.
Proof.
  intros Hne. unfold Realm.protoApiKey.
  apply ownApiKey_write_other. congruence.
Qed.

(** Writing a key onto an inherited object changes what [providers[p]] is
    only for ['apiKey'], and only when the object is [Object.prototype]. *)
Lemma get_write p q key (m : ProviderMap.t) (realm : Realm.t) :
  (p = str "apiKey" -> q <> str "__proto__") ->
  ProviderMap.get p m (Realm.write q key realm) = ProviderMap.get p m realm.
Proof.
  intros H. unfold ProviderMap.get.
  destruct (JsString.eqb p (str "apiKey")) eqn:E; [|reflexivity].
  apply jsstring_eqb_eq in E. rewrite (protoApiKey_write key realm (H E)).
  reflexivity.
Qed.

Lemma offers_models p m (d : ModelRegistryData.t) :
  offers p m d <->
  exists ms,
    option_map ProviderConfig.models
      (ProviderMap.own p (ModelRegistryData.providers d)) = Some ms /\
    In m (map ModelInfo.id ms).
Proof.
  unfold offers. split.
  - intros [c [-> Hin]]. exists (ProviderConfig.models c). auto.
  - intros [ms [H Hin]].
    destruct (ProviderMap.own p (ModelRegistryData.providers d)) as [c|];
      [|discriminate].
    injection H as <-. eauto.
Qed.

Lemma offers_after_key (r : ModelRegistry.t) p m q key :
  offers p m (snd (setProviderApiKey q key r)) <-> offers p m r.
Proof.
  rewrite !offers_models, setProviderApiKey_snd.
  cbn [data ModelRegistryData.providers].
  rewrite (@update_models_for (ProviderConfig.set_apiKey key) q p
             (ModelRegistryData.providers r) (fun c => eq_refl)).
  reflexivity.
Qed.

Lemma setCurrentModel_snd (r : ModelRegistry.t) p m :
  (offers p m r /\
   snd (setCurrentModel p m r)
   = mk (ModelRegistryData.mk p m (ModelRegistryData.providers r)) (realm r))
  \/ (~ offers p m r /\ snd (setCurrentModel p m r) = r).
Proof.
  destruct (setCurrentModel_cases r p m)
    as [[Ho ->] | [[Ho [_ ->]] | [Ht ->]]]; cbn [snd]; auto.
  right. split; [|reflexivity]. intros Ho.
  exact (inheritedTruthy_unknown Ht (@offers_known _ _ _ Ho)).
Qed.

(** What [setCurrentModel] returns is decided by what [providers[p]] is. *)
Lemma setCurrentModel_fst (r : ModelRegistry.t) p m :
  fst (setCurrentModel p m r)
  = match ProviderMap.get p (ModelRegistryData.providers r) (realm r) with
    | None => Js.Returns false
    | Some (ProviderMap.Inherited _) => Js.ThrowsTypeError
    | Some (ProviderMap.Primitive s) =>
        if isEmpty s then Js.Returns false else Js.ThrowsTypeError
    | Some (ProviderMap.Config c) =>
        match find (hasId m) (ProviderConfig.models c) with
        | None => Js.Returns false
        | Some _ => Js.Returns true
        end
    end.
Proof.
  unfold setCurrentModel.
  destruct (ProviderMap.get p (ModelRegistryData.providers r) (realm r))
    as [[c|n|s]|]; try reflexivity.
  - destruct (find (hasId m) (ProviderConfig.models c)); reflexivity.
  - destruct (isEmpty s); reflexivity.
Qed.

(** [setCurrentModel] can end differently after a [setProviderApiKey]
    call: once a key is stored on [Object.prototype], the name ['apiKey'] is
    found there. *)
Lemma setCurrentModel_after_prototype_key :
  fst (setCurrentModel (str "apiKey") (str "gpt-4o") (new None))
  = Js.Returns false /\
  fst (setCurrentModel (str "apiKey") (str "gpt-4o")
         (snd (setProviderApiKey (str "__proto__") (str "k") (new None))))
  = Js.ThrowsTypeError.
Proof. split; reflexivity. Qed.

(** X11. Selection and credentials are independent: [setCurrentModel] and
    [setProviderApiKey] give the same registry in either order, and
    [setCurrentModel(p, m)] ends the same way before and after a
    [setProviderApiKey(q, key)] call, unless [p] is ['apiKey'] and [q] is
    ['__proto__']: a key stored on [Object.prototype] is what
    [providers['apiKey']] then finds. *)
Theorem selection_credentials_commute (r : ModelRegistry.t)
    (p q : ModelProvider.t) (modelId key : jsstring) :
  ((p = str "apiKey" -> q <> str "__proto__") ->
   fst (setCurrentModel p modelId (snd (setProviderApiKey q key r)))
   = fst (setCurrentModel p modelId r)) /\
  snd (setCurrentModel p modelId (snd (setProviderApiKey q key r)))
  = snd (setProviderApiKey q key (snd (setCurrentModel p modelId r))).
Proof.
  split.
  - intros Hpq. rewrite !setCurrentModel_fst, setProviderApiKey_snd.
    cbn [data realm ModelRegistryData.providers].
    rewrite get_update_kind.
    assert (Hg : ProviderMap.get p (ModelRegistryData.providers r)
                   (match ProviderMap.get q (ModelRegistryData.providers r)
                            (realm r) with
                    | Some (ProviderMap.Inherited name) =>
                        Realm.write name key (realm r)
                    | _ => realm r
                    end)
                 = ProviderMap.get p (ModelRegistryData.providers r)
                     (realm r)).
    { destruct (get_cases q (ModelRegistryData.providers r) (realm r))
        as [[c [_ ->]]
           | [[_ [_ ->]] | [[s [_ [_ [_ ->]]]] | [_ [_ [_ ->]]]]]];
        try reflexivity.
      apply get_write. exact Hpq. }
    rewrite Hg.
    destruct (ProviderMap.get p (ModelRegistryData.providers r) (realm r))
      as [[c|n|s]|]; try reflexivity.
    destruct (JsString.eqb p q); reflexivity.
  - destruct (setCurrentModel_snd r p modelId) as [[Ho ->] | [Ho ->]].
    + apply (offers_after_key r p modelId q key) in Ho.
      destruct (setCurrentModel_snd (snd (setProviderApiKey q key r)) p
                  modelId) as [[_ ->] | [Hn _]]; [|contradiction].
      rewrite !setProviderApiKey_snd. reflexivity.
    + destruct (setCurrentModel_snd (snd (setProviderApiKey q key r)) p
                  modelId) as [[Ho' _] | [_ ->]]; [|reflexivity].
      apply (offers_after_key r p modelId q key) in Ho'. contradiction.
Qed.

Lemma selection_credentials_commute_witness :
  fst (setCurrentModel (str "constructor") (str "gpt-4o")
         (snd (setProviderApiKey (str "__proto__") (str "k") (new None))))
  = fst (setCurrentModel (str "constructor") (str "gpt-4o") (new None)).
Proof.
  apply (proj1 (selection_credentials_commute (new None) (str "constructor")
                  (str "__proto__") (str "gpt-4o") (str "k"))).
  intros H. vm_compute in H. discriminate H.
Defined.

(** X12. After [setProviderApiKey(p, key)] on a registry that knows [p],
    [hasValidApiKey(p)] is true exactly when [key] has a character that is
    not a blank. *)
Theorem hasValidApiKey_after_set (r : ModelRegistry.t) (p : ModelProvider.t)
    (key : jsstring) :
  knownProvider p r ->
  hasValidApiKey p (snd (setProviderApiKey p key r)) = hasContent key.
Proof.
  intros Hk. apply get_known in Hk. destruct Hk as [c Hc].
  apply hasValidApiKey_stored.
  unfold getProviderApiKey.
  rewrite (@setProviderApiKey_known r p key _ Hc); simpl.
  rewrite get_update_kind, (@get_config _ _ _ _ Hc), jsstring_eqb_refl.
  reflexivity.
Qed.

Lemma hasValidApiKey_after_set_witness :
  hasValidApiKey ModelProvider.GEMINI
    (snd (setProviderApiKey ModelProvider.GEMINI (str " k ") (new None)))
  = hasContent (str " k ").
Proof.
  apply hasValidApiKey_after_set. left. reflexivity.
Defined.

End Keeping.
(** ** Loading a snapshot and dispatching *)

Section Loading.
Import ModelRegistry Spec ProviderContentGenerator.

Lemma fixed_not_inherited p :
  In p fixedProviders -> Realm.isInherited p = false.
Proof.
  intros [<-|[<-|[<-|[]]]]; reflexivity.
Qed.

Lemma fixed_not_apiKey p : In p fixedProviders -> p <> str "apiKey".
Proof.
  intros [<-|[<-|[<-|[]]]]; discriminate.
Qed.

(** X13. The constructor does not check the selection it is given.  A
    snapshot that names only [currentProvider] and [currentModel] is loaded
    with exactly that selection.  [getCurrentModelInfo()] then returns a
    model exactly when the default catalog lists the model under the
    provider; when it does not, and nothing was written to
    [Object.prototype], [getCurrentModelInfo()] throws a [TypeError] if the
    provider is one of the built-in names of [Object.prototype] and returns
    [undefined] otherwise. *)
Theorem fromJSON_selection_unchecked (provider : ModelProvider.t)
    (modelId : jsstring) :
  getCurrentProvider (fromJSON (selectionOnly provider modelId)) = provider /\
  getCurrentModel (fromJSON (selectionOnly provider modelId)) = modelId /\
  ((exists m,
       getCurrentModelInfo (fromJSON (selectionOnly provider modelId))
       = Js.Returns (Some m))
   <-> offers provider modelId (new None)) /\
  (~ offers provider modelId (new None) ->
   getCurrentModelInfo (fromJSON (selectionOnly provider modelId))
   = if Realm.isInherited provider then Js.ThrowsTypeError
     else Js.Returns None).
Proof.
  set (r := fromJSON (selectionOnly provider modelId)).
  assert (H : (exists m, getCurrentModelInfo r = Js.Returns (Some m))
              <-> offers provider modelId (new None)).
  { rewrite getCurrentModelInfo_defined. reflexivity. }
  split; [reflexivity|]. split; [reflexivity|]. split; [exact H|].
  intros Hno.
  assert (Hk : knownProvider provider r -> Realm.isInherited provider = false)
    by apply fixed_not_inherited.
  assert (Hr : realm r = Realm.pristine) by reflexivity.
  destruct (Realm.isInherited provider) eqn:Hi.
  - apply getCurrentModelInfo_throws. left. split; [|exact Hi].
    intros Hkn. specialize (Hk Hkn). discriminate.
  - destruct (getCurrentModelInfo r) as [[m|]|] eqn:Hm.
    + exfalso. apply Hno, H. eauto.
    + reflexivity.
    + apply getCurrentModelInfo_throws in Hm.
      apply (inheritedValue_pristine r _ Hr) in Hm. destruct Hm as [_ Hm].
      change (Realm.isInherited provider = true) in Hm. congruence.
Qed.

Lemma fromJSON_selection_unchecked_witness :
  getCurrentModelInfo
    (fromJSON (selectionOnly ModelProvider.OPENAI (str "gemini-2.5-pro")))
  = Js.Returns None /\
  getCurrentModelInfo
    (fromJSON (selectionOnly (str "constructor") (str "gemini-2.5-pro")))
  = Js.ThrowsTypeError.
Proof.
  split.
  - apply (proj2 (proj2 (proj2 (fromJSON_selection_unchecked
                                  ModelProvider.OPENAI
                                  (str "gemini-2.5-pro"))))).
    intros [c [Hc Hin]]. vm_compute in Hc. injection Hc as <-.
    vm_compute in Hin. destruct Hin as [H|[H|[H|[]]]]; discriminate H.
  - apply (proj2 (proj2 (proj2 (fromJSON_selection_unchecked
                                  (str "constructor")
                                  (str "gemini-2.5-pro"))))).
    intros [c [Hc Hin]]. vm_compute in Hc. discriminate Hc.
Defined.

Section Requests.

Variables GenerateContentParameters GenerateContentResponse : Type.
Variables CountTokensParameters CountTokensResponse : Type.
Variables EmbedContentParameters EmbedContentResponse : Type.
Variable AsyncGenerator : Type -> Type.

(** X14. No selection gives a working generator: whenever the factory
    returns a generator, the generator holds the selection it was given and
    each of its four capability methods rejects every request. *)
Theorem created_generator_rejects (selection : MultiProviderConfig)
    (g : ProviderContentGenerator.t) :
  createProviderContentGenerator selection = Returns g ->
  config g = selection /\
  (provider selection = ModelProvider.OPENAI \/
   provider selection = ModelProvider.ANTHROPIC) /\
  (forall request : GenerateContentParameters,
      exists e, generateContent GenerateContentResponse g request
                = Rejected e) /\
  (forall request : GenerateContentParameters,
      exists e, generateContentStream GenerateContentResponse AsyncGenerator
                  g request = Rejected e) /\
  (forall request : CountTokensParameters,
      exists e, countTokens CountTokensResponse g request = Rejected e) /\
  (forall request : EmbedContentParameters,
      exists e, embedContent EmbedContentResponse g request = Rejected e).
Proof.
  intros Hc.
  assert (Hall : forall g' : ProviderContentGenerator.t,
    (forall request : GenerateContentParameters,
        exists e, generateContent GenerateContentResponse g' request
                  = Rejected e) /\
    (forall request : GenerateContentParameters,
        exists e, generateContentStream GenerateContentResponse AsyncGenerator
                    g' request = Rejected e) /\
    (forall request : CountTokensParameters,
        exists e, countTokens CountTokensResponse g' request = Rejected e) /\
    (forall request : EmbedContentParameters,
        exists e, embedContent EmbedContentResponse g' request = Rejected e)).
  { intros g'. unfold generateContent, generateContentStream, countTokens,
      embedContent.
    destruct (class g'); repeat split; intros; eexists; reflexivity. }
  destruct (createProviderContentGenerator_cases selection)
    as [[Hp H] | [[Hp H] | [_ [_ H]]]]; rewrite H in Hc;
    [injection Hc as <- | injection Hc as <- | discriminate];
    (split; [reflexivity|]); (split; [auto|]); apply Hall.
Qed.

End Requests.

Lemma created_generator_rejects_witness :
  exists e,
    generateContent unit
      (mk OpenAIContentGenerator
         (mkConfig ModelProvider.OPENAI (str "gpt-4o") None None None)) tt
    = Rejected e.
Proof.
  apply (proj1 (proj2 (proj2
           (created_generator_rejects unit unit unit unit unit unit list
              (mkConfig ModelProvider.OPENAI (str "gpt-4o") None None None)
              (g := mk OpenAIContentGenerator
                      (mkConfig ModelProvider.OPENAI (str "gpt-4o")
                         None None None))
              eq_refl)))).
Defined.

End Loading.

(** ** The /models command *)

Section CommandFacts.
Import ModelRegistry Spec Words ModelsCommand.

Variable toLowerCase : jsstring -> jsstring.
Variable SettingScope : Type.
Variable User : SettingScope.

Local Abbreviation act := (action toLowerCase User).
Local Abbreviation saved := (Outcome.saved User).
Local Abbreviation tidy := (Outcome.tidy User).

Lemma nth_error_in_range {A} (l : list A) n :
  Nat.ltb (List.length l) (S n) = false -> exists a, nth_error l n = Some a.
Proof.
  intros H. apply Nat.ltb_ge in H.
  destruct (nth_error l n) as [a|] eqn:E; [eauto|].
  apply nth_error_None in E. lia.
Qed.

(** The providers that come out of the [switch] are the three of the enum,
    none of which is a name of [Object.prototype]. *)
Lemma providerOf_fixed providerName provider :
  providerOf providerName = Some provider -> In provider fixedProviders.
Proof.
  unfold providerOf. intros Hp.
  destruct (_ || _) in Hp; [injection Hp as <-; simpl; auto|].
  destruct (_ || _) in Hp; [injection Hp as <-; simpl; auto|].
  destruct (_ || _) in Hp; [injection Hp as <-; simpl; auto|].
  discriminate.
Qed.

Lemma setCurrentModel_fixed (registry : ModelRegistry.t) provider modelId :
  In provider fixedProviders ->
  (offers provider modelId registry /\
   setCurrentModel provider modelId registry
   = (Js.Returns true,
      mk (ModelRegistryData.mk provider modelId
            (ModelRegistryData.providers registry)) (realm registry)))
  \/ (~ offers provider modelId registry /\
      setCurrentModel provider modelId registry = (Js.Returns false, registry)).
Proof.
  intros Hin.
  pose proof (@fixed_not_inherited _ Hin) as Hi.
  pose proof (@fixed_not_apiKey _ Hin) as Ha.
  destruct (setCurrentModel_cases registry provider modelId)
    as [H | [[Hno [_ Hs]] | [[[_ Hi'] | [k [[_ [Hp _]] _]]] _]]];
    [auto | auto | congruence | contradiction].
Qed.

(** For these providers [setProviderApiKey] never throws. *)
Lemma setProviderApiKey_fixed (registry : ModelRegistry.t) provider apiKey :
  In provider fixedProviders ->
  exists success,
    setProviderApiKey provider apiKey registry
    = (Js.Returns success, snd (setProviderApiKey provider apiKey registry)).
Proof.
  intros Hin.
  pose proof (@fixed_not_inherited _ Hin) as Hi.
  pose proof (@fixed_not_apiKey _ Hin) as Ha.
  destruct (get_cases provider (ModelRegistryData.providers registry)
              (realm registry))
    as [[c [Hp _]]
       | [[_ [Hi' _]] | [[s [_ [He _]]] | [Hp [_ [Hs _]]]]]];
    [| congruence | contradiction |].
  - exists true.
    rewrite (@setProviderApiKey_known registry provider apiKey c Hp).
    reflexivity.
  - exists false.
    rewrite (@setProviderApiKey_unknown registry provider apiKey Hp Hi Hs).
    reflexivity.
Qed.

Lemma loadRegistry_pristine data : realm (loadRegistry data) = Realm.pristine.
Proof. destruct data; reflexivity. Qed.

Lemma actionSet_tidy registry parts :
  actionSet toLowerCase User registry parts <> RejectedTypeError /\
  tidy registry (actionSet toLowerCase User registry parts).
Proof.
  unfold actionSet, Outcome.tidy.
  destruct (Nat.ltb (List.length parts) 2) eqn:Hlen;
    [split; [discriminate|]; right; do 2 eexists;
     split; [reflexivity|]; auto|].
  destruct (nth_error_in_range _ _ Hlen) as [part1 ->].
  destruct (providerOf (toLowerCase part1)) as [provider|] eqn:Hprov;
    [|split; [discriminate|]; right; do 2 eexists;
      split; [reflexivity|]; auto].
  destruct (missing (nth_error parts 2));
    [split; [discriminate|]; right; do 2 eexists;
     split; [reflexivity|]; auto|].
  apply providerOf_fixed in Hprov.
  destruct (setCurrentModel_fixed registry (orEmpty (nth_error parts 2)) Hprov)
    as [[Hok Hset] | [Hno Hset]]; rewrite Hset; cbn [negb].
  - assert (Hfst : fst (setCurrentModel provider (orEmpty (nth_error parts 2))
                          registry) = Js.Returns true)
      by (rewrite Hset; reflexivity).
    destruct (setCurrentModel_success_info _ _ _ Hfst) as [m [Hm _]].
    rewrite Hset in Hm. cbn [snd] in Hm. rewrite Hm.
    split; [discriminate|]. right.
    do 2 eexists. split; [reflexivity|]. split; [reflexivity|]. right.
    split; [reflexivity|].
    exists (SetCurrentModel provider (orEmpty (nth_error parts 2))).
    cbn [perform]. rewrite Hset. reflexivity.
  - split; [discriminate|]. right.
    do 2 eexists; split; [reflexivity|]; auto.
Qed.

Lemma actionKey_tidy registry parts :
  actionKey toLowerCase User registry parts <> RejectedTypeError /\
  tidy registry (actionKey toLowerCase User registry parts).
Proof.
  unfold actionKey, Outcome.tidy.
  destruct (Nat.ltb (List.length parts) 3) eqn:Hlen;
    [split; [discriminate|]; right; do 2 eexists;
     split; [reflexivity|]; auto|].
  assert (Hlen1 : Nat.ltb (List.length parts) 2 = false)
    by (apply Nat.ltb_ge; apply Nat.ltb_ge in Hlen; lia).
  destruct (nth_error_in_range _ _ Hlen1) as [part1 ->].
  destruct (providerOf (toLowerCase part1)) as [provider|] eqn:Hprov;
    [|split; [discriminate|]; right; do 2 eexists;
      split; [reflexivity|]; auto].
  apply providerOf_fixed in Hprov.
  destruct (@setProviderApiKey_fixed registry provider
              (JsString.join (str " ") (skipn 2 parts)) Hprov)
    as [success Hset].
  rewrite Hset.
  split; [discriminate|]. right.
  do 2 eexists. split; [reflexivity|]. split; [reflexivity|]. right.
  split; [reflexivity|].
  exists (SetProviderApiKey provider (JsString.join (str " ") (skipn 2 parts))).
  reflexivity.
Qed.

Lemma actionCurrent_rejects (registry : ModelRegistry.t) :
  actionCurrent SettingScope registry = RejectedTypeError
  <-> inheritedValue (getCurrentProvider registry) registry.
Proof.
  rewrite <- getCurrentModelInfo_throws. unfold actionCurrent.
  destruct (getCurrentModelInfo registry);
    split; try discriminate; reflexivity.
Qed.

Lemma actionCurrent_tidy (registry : ModelRegistry.t) :
  tidy registry (actionCurrent SettingScope registry).
Proof.
  unfold actionCurrent, Outcome.tidy.
  destruct (getCurrentModelInfo registry); [right|left; reflexivity].
  do 2 eexists. split; [reflexivity|]. auto.
Qed.

(** Where the action can be rejected, and what it leaves behind. *)
Lemma action_outcome data args :
  (act data args = RejectedTypeError <->
   subCommandOf toLowerCase
     (JsString.splitWhiteSpace (JsString.trim args)) = str "current" /\
   inheritedOnly (getCurrentProvider (loadRegistry data)) (loadRegistry data))
  /\ tidy (loadRegistry data) (act data args).
Proof.
  unfold action.
  set (parts := JsString.splitWhiteSpace (JsString.trim args)).
  set (subCommand := subCommandOf toLowerCase parts).
  destruct (JsString.eqb subCommand (str "current")) eqn:Ec.
  - apply jsstring_eqb_eq in Ec. rewrite Ec.
    change (JsString.eqb (str "current") (str "list")
            || JsString.eqb (str "current") (str "ls")) with false.
    change (JsString.eqb (str "current") (str "set")) with false.
    change (JsString.eqb (str "current") (str "key")
            || JsString.eqb (str "current") (str "apikey")) with false.
    change (JsString.eqb (str "current") (str "current")) with true.
    cbv iota. split; [|apply actionCurrent_tidy].
    rewrite actionCurrent_rejects.
    rewrite (inheritedValue_pristine (loadRegistry data) _
               (loadRegistry_pristine data)).
    tauto.
  - assert (Hne : subCommand <> str "current")
      by (apply jsstring_eqb_neq; exact Ec).
    destruct (JsString.eqb subCommand (str "list")
              || JsString.eqb subCommand (str "ls")).
    { split; [split; [discriminate | tauto]|].
      right. do 2 eexists; split; [reflexivity|]; auto. }
    destruct (JsString.eqb subCommand (str "set")).
    { destruct (actionSet_tidy (loadRegistry data) parts) as [Hn Ht].
      split; [split; [contradiction | tauto] | exact Ht]. }
    destruct (JsString.eqb subCommand (str "key")
              || JsString.eqb subCommand (str "apikey")).
    { destruct (actionKey_tidy (loadRegistry data) parts) as [Hn Ht].
      split; [split; [contradiction | tauto] | exact Ht]. }
    split; [split; [discriminate | tauto]|].
    right. do 2 eexists; split; [reflexivity|]; auto.
Qed.

(** X15. The action throws in one case only: for the subcommand
    ['current'], when the persisted [currentProvider] is not a key of the
    providers map but one of the built-in names of [Object.prototype] (then
    [getCurrentModelInfo()] throws).  In every other case, for every
    persisted value of the declared type (each property that is present
    holding a value of its type), every argument string and every behaviour
    of [toLowerCase], its promise is fulfilled with a result whose [type] is
    ['message']; no [parts[i]] it calls a method on is out of range. *)
Theorem action_fulfils (data : option PartialData.t) (args : jsstring) :
  (act data args = RejectedTypeError <->
   subCommandOf toLowerCase
     (JsString.splitWhiteSpace (JsString.trim args)) = str "current" /\
   inheritedOnly (getCurrentProvider (loadRegistry data)) (loadRegistry data))
  /\
  (act data args <> RejectedTypeError ->
   exists r w, act data args = Fulfilled (r, w) /\ type r = str "message").
Proof.
  destruct (action_outcome data args) as [Hr Ht].
  split; [exact Hr|]. intros Hn.
  destruct Ht as [Ht | [r [w [H [Hty _]]]]]; [contradiction | eauto].
Qed.

(** X16. The action calls [settings.setValue] at most once, and only beside
    an [info] message: an [error] result never saves anything.  A call is
    always [setValue(SettingScope.User, 'modelRegistry', registry.toJSON())]
    for the loaded registry after one [setCurrentModel] or one
    [setProviderApiKey]. *)
Theorem action_saves_once (data : option PartialData.t) (args : jsstring)
    (r : MessageActionReturn) (w : list (SettingWrite SettingScope)) :
  act data args = Fulfilled (r, w) ->
  (messageType r = error -> w = []) /\
  (w = [] \/
   exists c, w = [saved (perform c (loadRegistry data))]).
Proof.
  intros H.
  destruct (action_outcome data args) as [_ [Hr | [r' [w' [H' [_ Hw]]]]]];
    [congruence|].
  rewrite H in H'. injection H' as <- <-.
  destruct Hw as [-> | [Hi [c ->]]].
  - auto.
  - split; [intros He; rewrite He in Hi; discriminate | eauto].
Qed.

(** X17. What the action saves is as sound as what it loaded.  The value it
    saves is [toJSON()] of a registry that has the same keys and the same
    models as the loaded registry and whose current model is listed under
    its current provider if that was so for the loaded registry; when JSON
    keeps every number of the catalog, the saved value is the data of that
    registry. *)
Theorem action_saves_valid (data : option PartialData.t) (args : jsstring)
    (r : MessageActionReturn) (w : list (SettingWrite SettingScope))
    (write : SettingWrite SettingScope) :
  act data args = Fulfilled (r, w) ->
  In write w ->
  exists snapshot,
    write = saved snapshot /\
    (selectionValid (loadRegistry data) -> selectionValid snapshot) /\
    getAllModels snapshot = getAllModels (loadRegistry data) /\
    ProviderMap.keys (ModelRegistryData.providers snapshot)
    = ProviderMap.keys (ModelRegistryData.providers (loadRegistry data)) /\
    (numbersKept snapshot = true -> value write = Some snapshot).
Proof.
  intros H Hin.
  destruct (action_outcome data args) as [_ [Hr | [r' [w' [H' [_ Hw]]]]]];
    [congruence|].
  rewrite H in H'. injection H' as <- <-.
  destruct Hw as [-> | [_ [c ->]]]; [destruct Hin|].
  destruct Hin as [<- | []].
  exists (perform c (loadRegistry data)). split; [reflexivity|].
  split; [apply perform_valid|].
  destruct (perform_catalog c (loadRegistry data)) as [_ [Ha Hk]].
  split; [exact Ha|]. split; [exact Hk|].
  intros Hkept. unfold Outcome.saved; simpl.
  rewrite toJSON_copy, (jsonCopy_kept _ Hkept). reflexivity.
Qed.

End CommandFacts.
Section Subcommands.
Import ModelRegistry Spec Words ModelsCommand.

Variable toLowerCase : jsstring -> jsstring.
Variable SettingScope : Type.
Variable User : SettingScope.

Local Abbreviation act := (action toLowerCase User).
Local Abbreviation saved := (Outcome.saved User).

Lemma parts_words (args : jsstring) p0 p1 rest :
  JsString.splitWhiteSpace (JsString.trim args) = p0 :: p1 :: rest ->
  forallb isWord (p0 :: p1 :: rest) = true.
Proof.
  intros Hparts. rewrite <- Hparts. apply split_trimmed_words.
  intros Ht. rewrite Ht in Hparts. discriminate.
Qed.

Lemma subCommandOf_lowered p0 rest c sub :
  toLowerCase p0 = c :: sub ->
  subCommandOf toLowerCase (p0 :: rest) = c :: sub.
Proof. unfold subCommandOf. simpl. intros ->. reflexivity. Qed.

Lemma action_set_body data args p0 rest :
  JsString.splitWhiteSpace (JsString.trim args) = p0 :: rest ->
  toLowerCase p0 = str "set" ->
  act data args = actionSet toLowerCase User (loadRegistry data) (p0 :: rest).
Proof.
  intros Hparts Hsub. unfold action. rewrite Hparts.
  rewrite (@subCommandOf_lowered p0 rest _ _ Hsub). reflexivity.
Qed.

Lemma action_key_body data args p0 rest :
  JsString.splitWhiteSpace (JsString.trim args) = p0 :: rest ->
  toLowerCase p0 = str "key" \/ toLowerCase p0 = str "apikey" ->
  act data args = actionKey toLowerCase User (loadRegistry data) (p0 :: rest).
Proof.
  intros Hparts Hsub. unfold action. rewrite Hparts.
  destruct Hsub as [Hsub | Hsub];
    rewrite (@subCommandOf_lowered p0 rest _ _ Hsub); reflexivity.
Qed.

(** X18. [set <provider> <model>]: when the first word lowercases to
    ['set'] and the lowercased second word is one of the six provider names,
    the third word is taken as the model id and any further words are
    ignored.  If the loaded registry lists that id under the provider, the
    action saves the loaded registry with the selection replaced by the
    pair and answers [info] with the name of a listed model of that id (never
    ['undefined']); otherwise it answers [error] and saves nothing. *)
Theorem action_set (data : option PartialData.t) (args : jsstring)
    (p0 p1 p2 : jsstring) (rest : list jsstring)
    (provider : ModelProvider.t) :
  JsString.splitWhiteSpace (JsString.trim args) = p0 :: p1 :: p2 :: rest ->
  toLowerCase p0 = str "set" ->
  providerOf (toLowerCase p1) = Some provider ->
  (offers provider p2 (loadRegistry data) ->
   exists m,
     In m (getModelsForProvider provider (loadRegistry data)) /\
     ModelInfo.id m = p2 /\
     act data args
     = Fulfilled
         (message info
            (str "Switched to " ++ ModelInfo.name m ++ str " (" ++ p2
             ++ str ") from " ++ toLowerCase p1),
          [saved (ModelRegistryData.mk provider p2
                    (ModelRegistryData.providers (loadRegistry data)))]))
  /\
  (~ offers provider p2 (loadRegistry data) ->
   act data args
   = Fulfilled
       (message error
          (str "Invalid model: " ++ p2 ++ str " for provider "
           ++ toLowerCase p1), [])).
Proof.
  intros Hparts Hsub Hprov.
  pose proof (parts_words _ Hparts) as Hw.
  simpl in Hw. apply andb_true_iff in Hw. destruct Hw as [_ Hw].
  apply andb_true_iff in Hw. destruct Hw as [_ Hw].
  apply andb_true_iff in Hw. destruct Hw as [Hw _].
  destruct p2 as [|c p2]; [discriminate|]. clear Hw.
  rewrite (@action_set_body data _ _ _ Hparts Hsub).
  unfold actionSet. cbn [List.length Nat.ltb Nat.leb nth_error].
  rewrite Hprov. cbn [missing orEmpty].
  set (registry := loadRegistry data).
  destruct (@setCurrentModel_fixed registry provider (c :: p2)
              (@providerOf_fixed _ _ Hprov))
    as [[Hok Hs] | [Hno Hs]]; rewrite Hs; cbn [negb].
  - split; [|intros H; contradiction].
    intros _.
    assert (Hfst : fst (setCurrentModel provider (c :: p2) registry)
                   = Js.Returns true)
      by (rewrite Hs; reflexivity).
    destruct (@setCurrentModel_success_info registry provider (c :: p2) Hfst)
      as [m [Hm [Hid Hin]]].
    rewrite Hs in Hm. cbn [snd] in Hm.
    exists m. split; [exact Hin|]. split; [exact Hid|].
    rewrite Hm. reflexivity.
  - split; [intros H; contradiction | reflexivity].
Qed.

End Subcommands.

Section KeyAndList.
Import ModelRegistry Spec Words ModelsCommand.

Variable toLowerCase : jsstring -> jsstring.
Variable SettingScope : Type.
Variable User : SettingScope.

Local Abbreviation act := (action toLowerCase User).
Local Abbreviation saved := (Outcome.saved User).

Lemma join_word_hasContent sep c (w : jsstring) rest :
  JsString.isWhiteSpace c = false ->
  hasContent (JsString.join sep ((c :: w) :: rest)) = true.
Proof.
  intros Hc. unfold hasContent.
  destruct rest; simpl; rewrite Hc; reflexivity.
Qed.

(** X19. [key <provider> <api-key...>]: when the first word lowercases to
    ['key'] or ['apikey'] and the lowercased second word is one of the six
    provider names, the key is the remaining words joined by single spaces,
    whatever blanks separated them, and the action always answers [info] and
    saves the registry after [setProviderApiKey].  If the loaded registry
    knows the provider, the saved snapshot holds that key for it and
    [hasValidApiKey] is true there; if it does not, the saved snapshot is the
    loaded registry unchanged, although the answer is the same. *)
Theorem action_key (data : option PartialData.t) (args : jsstring)
    (p0 p1 p2 : jsstring) (rest : list jsstring)
    (provider : ModelProvider.t) :
  JsString.splitWhiteSpace (JsString.trim args) = p0 :: p1 :: p2 :: rest ->
  toLowerCase p0 = str "key" \/ toLowerCase p0 = str "apikey" ->
  providerOf (toLowerCase p1) = Some provider ->
  act data args
  = Fulfilled
      (message info (str "API key configured for " ++ toLowerCase p1),
       [saved (snd (setProviderApiKey provider
                      (JsString.join (str " ") (p2 :: rest))
                      (loadRegistry data)))]) /\
  JsString.splitWhiteSpace (JsString.join (str " ") (p2 :: rest))
  = p2 :: rest /\
  (knownProvider provider (loadRegistry data) ->
   getProviderApiKey provider
     (snd (setProviderApiKey provider (JsString.join (str " ") (p2 :: rest))
             (loadRegistry data)))
   = Some (JsString.join (str " ") (p2 :: rest)) /\
   hasValidApiKey provider
     (snd (setProviderApiKey provider (JsString.join (str " ") (p2 :: rest))
             (loadRegistry data)))
   = true) /\
  (~ knownProvider provider (loadRegistry data) ->
   snd (setProviderApiKey provider (JsString.join (str " ") (p2 :: rest))
          (loadRegistry data))
   = loadRegistry data).
Proof.
  intros Hparts Hsub Hprov.
  pose proof (parts_words _ Hparts) as Hw.
  simpl in Hw. apply andb_true_iff in Hw. destruct Hw as [_ Hw].
  apply andb_true_iff in Hw. destruct Hw as [_ Hw].
  assert (Hwords : forallb isWord (p2 :: rest) = true) by exact Hw.
  simpl in Hw. apply andb_true_iff in Hw. destruct Hw as [Hw _].
  destruct p2 as [|c p2]; [discriminate|].
  simpl in Hw. apply andb_true_iff in Hw. destruct Hw as [Hc _].
  apply negb_true_iff in Hc.
  set (key := JsString.join (str " ") ((c :: p2) :: rest)).
  split; [|split; [|split]].
  - rewrite (@action_key_body toLowerCase _ User data _ _ _ Hparts Hsub).
    unfold actionKey. cbn [List.length Nat.ltb Nat.leb nth_error skipn].
    rewrite Hprov.
    destruct (@setProviderApiKey_fixed (loadRegistry data) provider key
                (@providerOf_fixed _ _ Hprov)) as [success Hset].
    unfold key in Hset |- *. cbv zeta.
    match goal with
    | |- context [setProviderApiKey ?p ?k ?r] =>
        change (setProviderApiKey p k r)
          with (setProviderApiKey provider
                  (JsString.join (str " ") ((c :: p2) :: rest))
                  (loadRegistry data))
    end.
    rewrite Hset. reflexivity.
  - apply (@join_words_split ((c :: p2) :: rest)); [discriminate | exact Hwords].
  - intros Hk. apply get_known in Hk. destruct Hk as [cfg Hcfg].
    assert (Hkey : getProviderApiKey provider
                     (snd (setProviderApiKey provider key (loadRegistry data)))
                   = Some key).
    { unfold getProviderApiKey.
      rewrite (@setProviderApiKey_known _ _ key _ Hcfg); simpl.
      rewrite get_update_kind, (@get_config _ _ _ _ Hcfg), jsstring_eqb_refl.
      reflexivity. }
    split; [exact Hkey|].
    transitivity (hasContent key);
      [exact (@hasValidApiKey_stored _ _ _ Hkey)|].
    apply join_word_hasContent. exact Hc.
  - intros Hk. apply get_unknown in Hk.
    assert (Hs : provider = str "apiKey" ->
                 Realm.protoApiKey (realm (loadRegistry data)) = None)
      by (intros He;
          exact (False_ind _ (fixed_not_apiKey (@providerOf_fixed _ _ Hprov)
                                He))).
    pose proof (@setProviderApiKey_unknown _ _ key Hk
                  (@fixed_not_inherited _ (@providerOf_fixed _ _ Hprov)) Hs)
      as Hu.
    apply (f_equal snd) in Hu. exact Hu.
Qed.

(** X20. Blank arguments list the models: when [args] is empty or blanks
    only, the action answers [info] with the listing of the loaded registry
    and saves nothing, as for ['list'].  (Lowercasing the empty string gives
    the empty string.) *)
Theorem action_blank_lists (data : option PartialData.t) (args : jsstring) :
  toLowerCase [] = [] ->
  isBlank args = true ->
  act data args
  = Fulfilled
      (message info
         (str "Available AI Models and Providers:" ++ nl ++ nl
          ++ formatModelsList (loadRegistry data)), []).
Proof.
  intros Hlow Hblank. apply trim_nil in Hblank.
  unfold action. rewrite Hblank.
  unfold subCommandOf, JsString.splitWhiteSpace. simpl JsString.splitAux.
  simpl nth_error. simpl option_map. rewrite Hlow. reflexivity.
Qed.

Lemma action_current_body data args p0 rest :
  JsString.splitWhiteSpace (JsString.trim args) = p0 :: rest ->
  toLowerCase p0 = str "current" ->
  act data args = actionCurrent SettingScope (loadRegistry data).
Proof.
  intros Hparts Hsub. unfold action. rewrite Hparts.
  rewrite (@subCommandOf_lowered toLowerCase p0 rest _ _ Hsub). reflexivity.
Qed.

(** X21. [current]: when the first word lowercases to ['current'] the
    action saves nothing and ends in one of three ways.  If the loaded
    registry's current model is listed under its current provider, it
    answers [info] naming that model, its id and the provider's display
    name.  If the current provider is not a key of the providers map but
    one of the built-in names of [Object.prototype], the action throws a
    [TypeError].  Otherwise it answers [info] with ['undefined (undefined)']
    for the model, followed by the provider's display name, or by
    ['undefined'] when the provider is not in the map. *)
Theorem action_current (data : option PartialData.t) (args : jsstring)
    (p0 : jsstring) (rest : list jsstring) :
  JsString.splitWhiteSpace (JsString.trim args) = p0 :: rest ->
  toLowerCase p0 = str "current" ->
  (selectionValid (loadRegistry data) ->
   exists m cfg,
     getCurrentModelInfo (loadRegistry data) = Js.Returns (Some m) /\
     getProvider (getCurrentProvider (loadRegistry data)) (loadRegistry data)
     = Some (ProviderMap.Config cfg) /\
     ModelInfo.id m = getCurrentModel (loadRegistry data) /\
     act data args
     = Fulfilled
         (message info
            (str "Current model: " ++ ModelInfo.name m ++ str " ("
             ++ ModelInfo.id m ++ str ") from " ++ ProviderConfig.name cfg),
          [])) /\
  (inheritedOnly (getCurrentProvider (loadRegistry data)) (loadRegistry data)
   -> act data args = RejectedTypeError) /\
  (~ selectionValid (loadRegistry data) ->
   ~ inheritedOnly (getCurrentProvider (loadRegistry data))
       (loadRegistry data) ->
   act data args
   = Fulfilled
       (message info
          (str "Current model: undefined (undefined) from "
           ++ interpolate
                (nameOf (getProvider (getCurrentProvider (loadRegistry data))
                           (loadRegistry data)))), []) /\
   (forall cfg,
       getProvider (getCurrentProvider (loadRegistry data))
         (loadRegistry data) = Some (ProviderMap.Config cfg) ->
       nameOf (getProvider (getCurrentProvider (loadRegistry data))
                 (loadRegistry data)) = Some (ProviderConfig.name cfg)) /\
   (~ knownProvider (getCurrentProvider (loadRegistry data))
        (loadRegistry data) ->
    nameOf (getProvider (getCurrentProvider (loadRegistry data))
              (loadRegistry data)) = None)).
Proof.
  intros Hparts Hsub. rewrite (action_current_body data _ Hparts Hsub).
  split; [|split].
  - intros Hv. pose proof Hv as [cfg [Hcfg _]].
    apply getCurrentModelInfo_defined in Hv. destruct Hv as [m Hm].
    exists m, cfg. split; [exact Hm|].
    assert (Hg : getProvider (getCurrentProvider (loadRegistry data))
                   (loadRegistry data) = Some (ProviderMap.Config cfg))
      by (apply get_config; exact Hcfg).
    split; [exact Hg|].
    split; [apply (getCurrentModelInfo_some _ Hm)|].
    unfold actionCurrent. rewrite Hm, Hg. reflexivity.
  - intros Hi. apply actionCurrent_rejects. left. exact Hi.
  - intros Hv Hi. unfold actionCurrent.
    destruct (getCurrentModelInfo (loadRegistry data)) as [[m|]|] eqn:Hm.
    + exfalso. apply Hv, getCurrentModelInfo_defined. eauto.
    + split; [reflexivity|].
      split; [intros cfg ->; reflexivity|]. intros Hk.
      unfold getProvider. apply get_unknown in Hk.
      destruct (Realm.isInherited (getCurrentProvider (loadRegistry data)))
        eqn:Hinh.
      * exfalso. apply Hi. split; [apply get_unknown; exact Hk | exact Hinh].
      * rewrite loadRegistry_pristine, (get_pristine _ _ Hk Hinh).
        reflexivity.
    + exfalso. apply Hi.
      apply (inheritedValue_pristine (loadRegistry data) _
               (loadRegistry_pristine data)).
      apply getCurrentModelInfo_throws. exact Hm.
Qed.

End KeyAndList.

Section Completion.
Import ModelRegistry Spec Words ModelsCommand.

Variable toLowerCase : jsstring -> jsstring.

Lemma filter_startsWith prefix (candidates : list jsstring) c :
  In c (filter (fun candidate => JsString.startsWith prefix candidate)
          candidates)
  <-> In c candidates /\ JsString.startsWith prefix c = true.
Proof. apply filter_In. Qed.

Lemma startsWith_nil (c : jsstring) : JsString.startsWith [] c = true.
Proof. destruct c; reflexivity. Qed.

(** X22. The completion never throws, and every suggestion it returns
    starts with the last word of what was typed (with the empty string for
    blank input).  Blanks around the input do not count: a trailing space
    does not move on to the next argument. *)
Theorem completion_prefix (data : option PartialData.t)
    (partialArg : jsstring) :
  exists suggestions,
    completion toLowerCase data partialArg = Fulfilled suggestions /\
    forall c, In c suggestions ->
      JsString.startsWith
        (last (JsString.splitWhiteSpace (JsString.trim partialArg)) []) c
      = true.
Proof.
  unfold completion.
  set (parts := JsString.splitWhiteSpace (JsString.trim partialArg)).
  clearbody parts.
  destruct parts as [|a [|b [|c0 [|d rest]]]].
  - eexists. split; [reflexivity|]. intros c _. apply startsWith_nil.
  - eexists. split; [reflexivity|]. intros c Hin.
    apply filter_startsWith in Hin. apply Hin.
  - cbn [List.length Nat.leb nth_error Nat.eqb].
    destruct (JsString.eqb (toLowerCase a) (str "set")); cbn [andb orEmpty].
    + eexists. split; [reflexivity|]. intros c Hin.
      apply filter_startsWith in Hin. apply Hin.
    + destruct (JsString.eqb (toLowerCase a) (str "key")); cbn [andb].
      * eexists. split; [reflexivity|]. intros c Hin.
        apply filter_startsWith in Hin. apply Hin.
      * eexists. split; [reflexivity|]. intros c [].
  - cbn [List.length Nat.leb nth_error Nat.eqb].
    destruct (JsString.eqb (toLowerCase a) (str "set")); cbn [andb orEmpty].
    + destruct (providerOf (toLowerCase b)).
      * eexists. split; [reflexivity|]. intros c Hin.
        apply filter_startsWith in Hin. apply Hin.
      * eexists. split; [reflexivity|]. intros c [].
    + destruct (JsString.eqb (toLowerCase a) (str "key")); cbn [andb];
        eexists; (split; [reflexivity|]); intros c [].
  - cbn [List.length Nat.leb nth_error Nat.eqb].
    destruct (JsString.eqb (toLowerCase a) (str "set")); cbn [andb];
      destruct (JsString.eqb (toLowerCase a) (str "key")); cbn [andb];
      eexists; (split; [reflexivity|]); intros c [].
Qed.

Lemma setCurrentModel_accepts (r : ModelRegistry.t) p m :
  fst (setCurrentModel p m r) = Js.Returns true <->
  In m (map ModelInfo.id (getModelsForProvider p r)).
Proof.
  rewrite getModelsForProvider_own.
  destruct (setCurrentModel_cases r p m)
    as [[Hok ->] | [[Hno [_ ->]] | [Ht ->]]]; simpl.
  - destruct Hok as [c [-> Hin]]. simpl. tauto.
  - split; [discriminate|]. intros Hin. exfalso. apply Hno.
    destruct (ProviderMap.own p (ModelRegistryData.providers r)) as [c|] eqn:Hc;
      [|destruct Hin].
    exists c. auto.
  - split; [discriminate|].
    apply inheritedTruthy_unknown, get_unknown in Ht. rewrite Ht.
    intros [].
Qed.

(** X23. Completing the model of [set <provider> <prefix>]: with three
    words typed, the first lowercasing to ['set'] and the second to a
    provider name, the suggestions are exactly the ids that the loaded
    registry lists under that provider and that start with the third word,
    in catalog order; and each suggestion is an id that [setCurrentModel]
    accepts for that provider. *)
Theorem completion_models (data : option PartialData.t)
    (partialArg p0 p1 p2 : jsstring) (provider : ModelProvider.t) :
  JsString.splitWhiteSpace (JsString.trim partialArg) = [p0; p1; p2] ->
  toLowerCase p0 = str "set" ->
  providerOf (toLowerCase p1) = Some provider ->
  completion toLowerCase data partialArg
  = Fulfilled
      (filter (fun id => JsString.startsWith p2 id)
         (map ModelInfo.id
            (getModelsForProvider provider (loadRegistry data)))) /\
  forall c,
    In c (filter (fun id => JsString.startsWith p2 id)
            (map ModelInfo.id
               (getModelsForProvider provider (loadRegistry data)))) ->
    fst (setCurrentModel provider c (loadRegistry data)) = Js.Returns true.
Proof.
  intros Hparts Hsub Hprov. split.
  - unfold completion. rewrite Hparts.
    cbn [List.length Nat.leb nth_error Nat.eqb]. rewrite Hsub, Hprov.
    reflexivity.
  - intros c Hin. apply filter_In in Hin.
    apply setCurrentModel_accepts, Hin.
Qed.

End Completion.
(** ** Runs of the command on concrete input *)

Section CommandInstances.
Import ModelRegistry Spec Words ModelsCommand.

Local Abbreviation lower := JsString.asciiLowerCase.

Lemma action_saves_once_witness :
  (messageType (message error (str "Invalid model: nope for provider openai"))
   = error ->
   @nil (SettingWrite unit) = []) /\
  (@nil (SettingWrite unit) = [] \/
   exists c,
     @nil (SettingWrite unit)
     = [Outcome.saved tt (perform c (loadRegistry None))]).
Proof.
  apply (@action_saves_once lower unit tt None (str "set openai nope")
           (message error (str "Invalid model: nope for provider openai"))
           []).
  vm_compute. reflexivity.
Defined.

Lemma action_saves_valid_witness :
  exists snapshot,
    Outcome.saved tt
      (snd (setCurrentModel ModelProvider.OPENAI (str "gpt-4o") (new None)))
    = Outcome.saved tt snapshot /\
    (selectionValid (loadRegistry None) -> selectionValid snapshot) /\
    getAllModels snapshot = getAllModels (loadRegistry None) /\
    ProviderMap.keys (ModelRegistryData.providers snapshot)
    = ProviderMap.keys (ModelRegistryData.providers (loadRegistry None)) /\
    (numbersKept snapshot = true ->
     value
       (Outcome.saved tt
          (snd (setCurrentModel ModelProvider.OPENAI (str "gpt-4o")
                  (new None))))
     = Some snapshot).
Proof.
  apply (@action_saves_valid lower unit tt None (str "set openai gpt-4o")
           (message info (str "Switched to GPT-4o (gpt-4o) from openai"))
           [Outcome.saved tt
              (snd (setCurrentModel ModelProvider.OPENAI (str "gpt-4o")
                      (new None)))]).
  - vm_compute. reflexivity.
  - left. reflexivity.
Defined.

Lemma action_set_witness :
  exists m,
    In m (getModelsForProvider ModelProvider.OPENAI (loadRegistry None)) /\
    ModelInfo.id m = str "gpt-4o" /\
    action lower tt None (str "  SET  GPT gpt-4o now ")
    = Fulfilled
        (message info
           (str "Switched to " ++ ModelInfo.name m ++ str " (" ++ str "gpt-4o"
            ++ str ") from " ++ lower (str "GPT")),
         [Outcome.saved tt
            (ModelRegistryData.mk ModelProvider.OPENAI (str "gpt-4o")
               (ModelRegistryData.providers (loadRegistry None)))]).
Proof.
  apply (proj1 (@action_set lower unit tt None (str "  SET  GPT gpt-4o now ")
                  (str "SET") (str "GPT") (str "gpt-4o") [str "now"]
                  ModelProvider.OPENAI eq_refl eq_refl eq_refl)).
  exists (ProviderConfig.mk (str "OpenAI") ModelProvider.OPENAI None None
            openaiModels).
  split; [reflexivity|]. left. reflexivity.
Defined.

Lemma action_key_witness :
  action lower tt None (str "key anthropic sk-ant-key   with spaces")
  = Fulfilled
      (message info (str "API key configured for " ++ lower (str "anthropic")),
       [Outcome.saved tt
          (snd (setProviderApiKey ModelProvider.ANTHROPIC
                  (JsString.join (str " ")
                     [str "sk-ant-key"; str "with"; str "spaces"])
                  (loadRegistry None)))]).
Proof.
  apply (proj1 (@action_key lower unit tt None
                  (str "key anthropic sk-ant-key   with spaces")
                  (str "key") (str "anthropic") (str "sk-ant-key")
                  [str "with"; str "spaces"] ModelProvider.ANTHROPIC
                  eq_refl (or_introl eq_refl) eq_refl)).
Defined.

Lemma action_blank_lists_witness :
  action lower tt None (str "   ")
  = Fulfilled
      (message info
         (str "Available AI Models and Providers:" ++ nl ++ nl
          ++ formatModelsList (loadRegistry None)), []).
Proof.
  apply (@action_blank_lists lower unit tt None (str "   ")).
  - reflexivity.
  - reflexivity.
Defined.

Lemma action_current_witness :
  action lower tt
    (Some (selectionOnly (str "constructor") (str "gpt-4o"))) (str "current")
  = RejectedTypeError.
Proof.
  apply (proj1 (proj2
           (@action_current lower unit tt
              (Some (selectionOnly (str "constructor") (str "gpt-4o")))
              (str "current") (str "current") [] eq_refl eq_refl))).
  split; [|reflexivity].
  intros [H|[H|[H|[]]]]; vm_compute in H; discriminate H.
Defined.

Lemma action_fulfils_witness :
  exists r w,
    action lower tt None (str "set openai") = Fulfilled (r, w) /\
    type r = str "message".
Proof.
  apply (proj2 (@action_fulfils lower unit tt None (str "set openai"))).
  vm_compute. discriminate.
Defined.

Lemma completion_models_witness :
  completion lower None (str "set openai gpt")
  = Fulfilled
      (filter (fun id => JsString.startsWith (str "gpt") id)
         (map ModelInfo.id
            (getModelsForProvider ModelProvider.OPENAI (loadRegistry None)))).
Proof.
  apply (proj1 (@completion_models lower None (str "set openai gpt")
                  (str "set") (str "openai") (str "gpt") ModelProvider.OPENAI
                  eq_refl eq_refl eq_refl)).
Defined.

End CommandInstances.

(** ** Provider names and the default catalog *)

Section Aliases.
Import ModelRegistry Spec ModelsCommand.

Lemma loadRegistry_new data : loadRegistry data = new data.
Proof. destruct data; reflexivity. Qed.

(** X24. The provider names the command accepts resolve to GEMINI, OPENAI
    or ANTHROPIC only, and a registry loaded from persisted data that has no
    [providers] property (or from no data) knows every provider a name
    resolves to: there [set] and [key] never meet an unknown provider. *)
Theorem providerOf_known (providerName : jsstring)
    (provider : ModelProvider.t) (data : option PartialData.t) :
  providerOf providerName = Some provider ->
  In provider fixedProviders /\
  (suppliedProviders data = None -> knownProvider provider (loadRegistry data)).
Proof.
  intros Hp.
  assert (Hin : In provider fixedProviders)
    by exact (@providerOf_fixed _ _ Hp).
  split; [exact Hin|]. intros Hs.
  unfold knownProvider. rewrite loadRegistry_new, new_providers, Hs.
  exact Hin.
Qed.

Lemma providerOf_known_witness :
  In ModelProvider.ANTHROPIC fixedProviders /\
  (suppliedProviders
     (Some (selectionOnly ModelProvider.OPENAI (str "gpt-4o"))) = None ->
   knownProvider ModelProvider.ANTHROPIC
     (loadRegistry
        (Some (selectionOnly ModelProvider.OPENAI (str "gpt-4o"))))).
Proof.
  apply (@providerOf_known (str "claude") ModelProvider.ANTHROPIC
           (Some (selectionOnly ModelProvider.OPENAI (str "gpt-4o")))).
  reflexivity.
Defined.

End Aliases.
